(** * FinaGen: three-statement financial forecast (P&L, Balance Sheet, Cash Flow)

    A shallow embedding of [profit_loss.py], [balance_sheet.py],
    [cash_flow.py] and [main.py].

    Numbers.  The Python code computes with [int] and binary64 [float]
    values.  Here every number is an exact rational ([Q]); equalities of
    amounts are stated with [==] ([Qeq]).  Rounding is therefore outside
    the model: a statement proved here is a statement about the formulas
    the code evaluates.

    Exceptions.  Indexing, dictionary lookup and the division of Python
    floats can raise; such code lives in the [result] monad below.  A
    [try]/[except Exception] block is a [match] on the [result].

    Streamlit.  A widget is an input of the script run: a slider is the
    number it currently holds, a button is [true] in the run triggered by
    its click.  What [st.metric] shows is returned next to the function's
    Python return value. *)

From Stdlib Require Import QArith Qfield Lqa Lia Arith List String Bool.
Import ListNotations.
Open Scope string_scope.
Open Scope list_scope.
Open Scope Q_scope.

(** ** Python runtime *)

Module Py.

Inductive exn : Type :=
| KeyError (key : string)
| IndexError
| ZeroDivisionError
| AttributeError.

Inductive result (A : Type) : Type :=
| Ok (a : A)
| Raise (e : exn).

Arguments Ok {A} a.
Arguments Raise {A} e.

Definition bind {A B : Type} (c : result A) (k : A -> result B) : result B :=
  match c with
  | Ok a => k a
  | Raise e => Raise e
  end.

(** A list comprehension whose element expression can raise. *)
Fixpoint comprehension {A B : Type} (f : A -> result B) (l : list A)
  : result (list B) :=
  match l with
  | [] => Ok []
  | a :: l' =>
      bind (f a) (fun b => bind (comprehension f l') (fun bs => Ok (b :: bs)))
  end.

(** [for i in range: body] over a state that the body updates. *)
Fixpoint for_range {S : Type} (body : S -> nat -> result S) (range : list nat)
  (s : S) : result S :=
  match range with
  | [] => Ok s
  | i :: range' => bind (body s i) (for_range body range')
  end.

(** A [dict] with string keys, in insertion order. *)
Definition dict (V : Type) : Type := list (string * V).

(** [d[key]] *)
Fixpoint getitem {V : Type} (d : dict V) (key : string) : result V :=
  match d with
  | [] => Raise (KeyError key)
  | (k, v) :: d' => if String.eqb k key then Ok v else getitem d' key
  end.

(** [a[i]] for [i >= 0] on a list or a numpy array. *)
Definition index (a : list Q) (i : nat) : result Q :=
  match nth_error a i with
  | Some x => Ok x
  | None => Raise IndexError
  end.

(** [a[-1]] on a list that the code has just built non-empty. *)
Definition last_item (a : list Q) : Q := last a 0.

(** [a[0]] on a list that the code has just built non-empty. *)
Definition first_item (a : list Q) : Q := hd 0 a.

(** [x / y] on Python floats. *)
Definition truediv (x y : Q) : result Q :=
  if Qeq_bool y 0 then Raise ZeroDivisionError else Ok (x / y).

(** [zip] of three and of five lists. *)
Fixpoint zip3 {A B C : Type} (a : list A) (b : list B) (c : list C)
  : list (A * B * C) :=
  match a, b, c with
  | x :: a', y :: b', z :: c' => (x, y, z) :: zip3 a' b' c'
  | _, _, _ => []
  end.

Fixpoint zip5 {A B C D E : Type}
  (a : list A) (b : list B) (c : list C) (d : list D) (e : list E)
  : list (A * B * C * D * E) :=
  match a, b, c, d, e with
  | x :: a', y :: b', z :: c', u :: d', v :: e' =>
      (x, y, z, u, v) :: zip5 a' b' c' d' e'
  | _, _, _, _, _ => []
  end.

(** [np.diff(a)] *)
Fixpoint np_diff (a : list Q) : list Q :=
  match a with
  | x :: ((y :: _) as a') => (y - x) :: np_diff a'
  | _ => []
  end.

(** [a * k] for a numpy array [a] and a scalar [k]. *)
Definition np_scale (a : list Q) (k : Q) : list Q := map (fun x => x * k) a.

(** [x ** (1 / 3) - 1].  A cube root is not a rational number: the value
    is kept as the operand the root is taken of.  [Number v] is a metric
    that the code sets to the number [v] without taking a root. *)
Inductive growth : Type :=
| CubeRootMinusOne (x : Q)
| Number (v : Q).

(** A pandas DataFrame after [.T]: one row per line item, one column per
    year label. *)
Record DataFrame : Type := {
  columns : list string;
  rows : dict (list Q)
}.

(** [pd.DataFrame(data, index=index).T], for [data] whose lists all have
    the length of [index], as they have wherever the code builds one. *)
Definition DataFrame_T (data : dict (list Q)) (index : list string) : DataFrame :=
  {| columns := index; rows := data |}.

(** [df.loc[label].values] *)
Definition loc (df : DataFrame) (label : string) : result (list Q) :=
  getitem (rows df) label.

End Py.

Import Py.

Notation "x <- c ;; k" := (Py.bind c (fun x => k))
  (at level 61, c at next level, right associativity).

(** The amount a statement holds for line item [label] in period [i]. *)
Definition cell (df : DataFrame) (label : string) (i : nat) : Q :=
  match loc df label with
  | Ok row => nth i row 0
  | Raise _ => 0
  end.

(** The statement has exactly the line items [labels], each with [n] periods. *)
Definition shape (df : DataFrame) (labels : list string) (n : nat) : Prop :=
  map fst (rows df) = labels /\
  Forall (fun r => List.length (snd r) = n) (rows df).

(** ** profit_loss.py *)

Module ProfitLoss.

(** [historical_data] *)
Definition historical_data : dict Q :=
  [ ("Revenue(A)", 1000);
    ("Cost(B)", 600);
    ("Gross Profit(A-B)", 400);
    ("Selling Expense(C)", 100);
    ("Admin Expense(D)", 80);
    ("Financial Expense(E)", 20);
    ("Net Profit(A-B-C-D-E)", 200) ].

Definition years : list string := ["2024E"; "2025E"; "2026E"].

(** The sliders, keyed by year as in the source ([key=f"revenue_growth_{year}"]
    and so on), in percent, and the button. *)
Record widgets : Type := {
  revenue_growth_ : string -> Q;
  cost_ratio_ : string -> Q;
  sales_ : string -> Q;
  management_ : string -> Q;
  financial_ : string -> Q;
  generate_button : bool
}.

(** The bounds [min_value] and [max_value] of the sliders. *)
Definition slider_bounds (w : widgets) : Prop :=
  forall year, In year years ->
    0 <= revenue_growth_ w year <= 50 /\
    40 <= cost_ratio_ w year <= 80 /\
    0 <= sales_ w year <= 30 /\
    0 <= management_ w year <= 20 /\
    0 <= financial_ w year <= 10.

Definition revenue_growth_rates (w : widgets) : list Q :=
  map (fun year => revenue_growth_ w year / 100) years.
Definition cost_ratios (w : widgets) : list Q :=
  map (fun year => cost_ratio_ w year / 100) years.
Definition sales_expense_ratios (w : widgets) : list Q :=
  map (fun year => sales_ w year / 100) years.
Definition management_expense_ratios (w : widgets) : list Q :=
  map (fun year => management_ w year / 100) years.
Definition financial_expense_ratios (w : widgets) : list Q :=
  map (fun year => financial_ w year / 100) years.

(** What the three [st.metric] calls show: the latest value and its change
    against period 0, and the revenue CAGR. *)
Record metrics : Type := {
  Gross_Margin : Q * Q;
  Net_Margin : Q * Q;
  Revenue_CAGR : growth
}.

(** The loop [for growth_rate in revenue_growth_rates: revenues.append(...)]. *)
Definition append_revenues (revenues : list Q) (rates : list Q) : list Q :=
  fold_left
    (fun revenues growth_rate =>
       revenues ++ [last_item revenues * (1 + growth_rate)])
    rates revenues.

(** The body of [create_profit_loss_section], with the local
    [historical_data] as an argument. *)
Definition section (historical_data : dict Q) (w : widgets)
  : result (option (DataFrame * metrics)) :=
  if generate_button w then
    let forecast_years := "2023A" :: years in
    revenue0 <- getitem historical_data "Revenue(A)" ;;
    let revenues := append_revenues [revenue0] (revenue_growth_rates w) in
    cost0 <- getitem historical_data "Cost(B)" ;;
    let costs :=
      cost0 :: map (fun '(rev, ratio) => rev * ratio)
                   (combine (tl revenues) (cost_ratios w)) in
    let gross_profits :=
      map (fun '(rev, cost) => rev - cost) (combine revenues costs) in
    sales0 <- getitem historical_data "Selling Expense(C)" ;;
    let sales_expenses :=
      sales0 :: map (fun '(rev, ratio) => rev * ratio)
                    (combine (tl revenues) (sales_expense_ratios w)) in
    management0 <- getitem historical_data "Admin Expense(D)" ;;
    let management_expenses :=
      management0 :: map (fun '(rev, ratio) => rev * ratio)
                         (combine (tl revenues) (management_expense_ratios w)) in
    financial0 <- getitem historical_data "Financial Expense(E)" ;;
    let financial_expenses :=
      financial0 :: map (fun '(rev, ratio) => rev * ratio)
                        (combine (tl revenues) (financial_expense_ratios w)) in
    let operating_profits :=
      map (fun '(rev, cost, sales, mgmt, fin) => rev - cost - sales - mgmt - fin)
          (zip5 revenues costs sales_expenses management_expenses
                financial_expenses) in
    let data : dict (list Q) :=
      [ ("Revenue(A)", revenues);
        ("Cost(B)", costs);
        ("Gross Profit(A-B)", gross_profits);
        ("Selling Expense(C)", sales_expenses);
        ("Admin Expense(D)", management_expenses);
        ("Financial Expense(E)", financial_expenses);
        ("Net Profit(A-B-C-D-E)", operating_profits) ] in
    let forecast_df := DataFrame_T data forecast_years in
    gross_margins <-
      comprehension (fun '(gp, rev) => truediv gp rev)
                    (combine gross_profits revenues) ;;
    net_margins <-
      comprehension (fun '(np, rev) => truediv np rev)
                    (combine operating_profits revenues) ;;
    ratio <- truediv (last_item revenues) (first_item revenues) ;;
    let revenue_growth := CubeRootMinusOne ratio in
    Ok (Some (forecast_df,
              {| Gross_Margin :=
                   (last_item gross_margins,
                    last_item gross_margins - first_item gross_margins);
                 Net_Margin :=
                   (last_item net_margins,
                    last_item net_margins - first_item net_margins);
                 Revenue_CAGR := revenue_growth |}))
  else Ok None.

Definition create_profit_loss_section (w : widgets)
  : result (option (DataFrame * metrics)) :=
  section historical_data w.

(** The sliders at their default [value]. *)
Definition default_widgets (clicked : bool) : widgets :=
  {| revenue_growth_ := fun _ => 15;
     cost_ratio_ := fun _ => 60;
     sales_ := fun _ => 10;
     management_ := fun _ => 7;
     financial_ := fun _ => 2;
     generate_button := clicked |}.

End ProfitLoss.

(** ** balance_sheet.py *)

Module BalanceSheet.

(** [historical_bs] *)
Definition historical_bs : dict Q :=
  [ ("Cash(F)", 1260.00);
    ("Accounts Receivable(G)", 110.00);
    ("Prepayments(H)", 6.00);
    ("Fixed Assets(I)", 16.00);
    ("Total Assets(F+G+H+I)", 1392.00);
    ("Accounts Payable(J)", 120.00);
    ("Advances from Customers(K)", 10.00);
    ("Total Liabilities(J+K)", 130.00);
    ("Share Capital(L)", 1333.52);
    ("Retained Earnings(M)", -71.52);
    ("Total Equity(L+M)", 1262.00);
    ("Total Liabilities & Equity(J+K+L+M)", 1392.00) ].

(** The five sliders, the number input and the button. *)
Record widgets : Type := {
  receivables_ratio : Q;
  prepayment_ratio : Q;
  payables_ratio : Q;
  advance_ratio : Q;
  fixed_asset_growth : Q;
  capital_increase : Q;
  generate_button : bool
}.

(** The bounds of the sliders; [capital_increase] is a [st.number_input]
    without bounds. *)
Definition slider_bounds (w : widgets) : Prop :=
  0 <= receivables_ratio w <= 0.3 /\
  0 <= prepayment_ratio w <= 0.1 /\
  0 <= payables_ratio w <= 0.4 /\
  0 <= advance_ratio w <= 0.1 /\
  0 <= fixed_asset_growth w <= 0.5.

(** [forecast_data[key].append(x)] *)
Fixpoint append (forecast_data : dict (list Q)) (key : string) (x : Q)
  : result (dict (list Q)) :=
  match forecast_data with
  | [] => Raise (KeyError key)
  | (k, v) :: d' =>
      if String.eqb k key then Ok ((k, v ++ [x]) :: d')
      else d'' <- append d' key x ;; Ok ((k, v) :: d'')
  end.

(** [forecast_data[key][-1]] *)
Definition latest (forecast_data : dict (list Q)) (key : string) : result Q :=
  row <- getitem forecast_data key ;; Ok (last_item row).

(** One turn of [for i in range(1, 4)]. *)
Definition forecast_year (w : widgets) (revenues costs net_profits : list Q)
  (forecast_data : dict (list Q)) (i : nat) : result (dict (list Q)) :=
  (* Calculate assets *)
  revenue_i <- index revenues i ;;
  let receivables := revenue_i * receivables_ratio w in
  cost_i <- index costs i ;;
  let prepayments := cost_i * prepayment_ratio w in
  fixed_assets_prev <- latest forecast_data "Fixed Assets(I)" ;;
  let fixed_assets := fixed_assets_prev * (1 + fixed_asset_growth w) in
  (* Calculate liabilities *)
  cost_i' <- index costs i ;;
  let payables := cost_i' * payables_ratio w in
  revenue_i' <- index revenues i ;;
  let advances := revenue_i' * advance_ratio w in
  let total_liabilities := payables + advances in
  (* Calculate equity *)
  capital_prev <- latest forecast_data "Share Capital(L)" ;;
  let capital :=
    capital_prev + (if Nat.eqb i 1 then capital_increase w else 0) in
  retained_prev <- latest forecast_data "Retained Earnings(M)" ;;
  net_profit_i <- index net_profits i ;;
  let retained_earnings := retained_prev + net_profit_i in
  let total_equity := capital + retained_earnings in
  (* Calculate balancing cash *)
  let total_liab_equity := total_liabilities + total_equity in
  let other_assets := receivables + prepayments + fixed_assets in
  let cash := total_liab_equity - other_assets in
  (* Update forecast data *)
  d <- append forecast_data "Cash(F)" cash ;;
  d <- append d "Accounts Receivable(G)" receivables ;;
  d <- append d "Prepayments(H)" prepayments ;;
  d <- append d "Fixed Assets(I)" fixed_assets ;;
  d <- append d "Total Assets(F+G+H+I)" total_liab_equity ;;
  d <- append d "Accounts Payable(J)" payables ;;
  d <- append d "Advances from Customers(K)" advances ;;
  d <- append d "Total Liabilities(J+K)" total_liabilities ;;
  d <- append d "Share Capital(L)" capital ;;
  d <- append d "Retained Earnings(M)" retained_earnings ;;
  d <- append d "Total Equity(L+M)" total_equity ;;
  append d "Total Liabilities & Equity(J+K+L+M)" total_liab_equity.

(** Lines 65 to 110: the table. *)
Definition forecast (profit_loss_data : DataFrame) (w : widgets)
  : result DataFrame :=
  let years := ["2023A"; "2024E"; "2025E"; "2026E"] in
  revenues <- loc profit_loss_data "Revenue(A)" ;;
  costs <- loc profit_loss_data "Cost(B)" ;;
  net_profits <- loc profit_loss_data "Net Profit(A-B-C-D-E)" ;;
  let forecast_data := map (fun '(k, v) => (k, [v])) historical_bs in
  forecast_data <-
    for_range (forecast_year w revenues costs net_profits) (seq 1 3)
              forecast_data ;;
  Ok (DataFrame_T forecast_data years).

(** What the three [st.metric] calls show. *)
Record metrics : Type := {
  Debt_Ratio : Q * Q;
  Fixed_Asset_Ratio : Q * Q;
  Equity_Ratio : Q * Q
}.

(** [[x / a for x, a in zip(forecast_df.loc[label], forecast_df.loc[total])]]:
    iterating a pandas Series yields Python floats, whose division raises
    on a zero divisor. *)
Definition ratios (forecast_df : DataFrame) (label total : string)
  : result (list Q) :=
  xs <- loc forecast_df label ;;
  tot <- loc forecast_df total ;;
  comprehension (fun '(x, a) => truediv x a) (combine xs tot).

(** Lines 121 to 163: the key metrics. *)
Definition key_metrics (forecast_df : DataFrame) : result metrics :=
  debt_ratios <-
    ratios forecast_df "Total Liabilities(J+K)" "Total Assets(F+G+H+I)" ;;
  fixed_asset_ratios <-
    ratios forecast_df "Fixed Assets(I)" "Total Assets(F+G+H+I)" ;;
  equity_ratios <-
    ratios forecast_df "Total Equity(L+M)" "Total Assets(F+G+H+I)" ;;
  Ok {| Debt_Ratio :=
          (last_item debt_ratios,
           last_item debt_ratios - first_item debt_ratios);
        Fixed_Asset_Ratio :=
          (last_item fixed_asset_ratios,
           last_item fixed_asset_ratios - first_item fixed_asset_ratios);
        Equity_Ratio :=
          (last_item equity_ratios,
           last_item equity_ratios - first_item equity_ratios) |}.

(** What a call did: the button was not clicked, the forecast was shown and
    returned, or [except Exception] showed an error. *)
Inductive outcome : Type :=
| Idle
| Generated (forecast_df : DataFrame) (m : metrics)
| Failed (e : exn).

(** [if st.button(...): try: ... except Exception as e: ...] *)
Definition create_balance_sheet_section (profit_loss_data : DataFrame)
  (w : widgets) : outcome :=
  if generate_button w then
    match (forecast_df <- forecast profit_loss_data w ;;
           m <- key_metrics forecast_df ;;
           Ok (forecast_df, m)) with
    | Ok (forecast_df, m) => Generated forecast_df m
    | Raise e => Failed e
    end
  else Idle.

(** The Python return value. *)
Definition returned (o : outcome) : option DataFrame :=
  match o with
  | Generated forecast_df _ => Some forecast_df
  | Idle | Failed _ => None
  end.

(** The widgets at their default [value]. *)
Definition default_widgets (clicked : bool) : widgets :=
  {| receivables_ratio := 0.11;
     prepayment_ratio := 0.01;
     payables_ratio := 0.20;
     advance_ratio := 0.01;
     fixed_asset_growth := 0.20;
     capital_increase := 325.00;
     generate_button := clicked |}.

End BalanceSheet.

(** ** cash_flow.py *)

Module CashFlow.

(** The slider, in percent, and the button. *)
Record widgets : Type := {
  depreciation_rate_ : Q;
  generate_button : bool
}.

Definition slider_bounds (w : widgets) : Prop :=
  0 <= depreciation_rate_ w <= 20.

Definition depreciation_rate (w : widgets) : Q := depreciation_rate_ w / 100.

(** The three lists that the loop appends to. *)
Record flows : Type := {
  operating_cash_flows : list Q;
  investing_cash_flows : list Q;
  financing_cash_flows : list Q
}.

(** One turn of [for i in range(1, 4)]. *)
Definition forecast_year
  (net_profits depreciation receivables_change prepayments_change
   payables_change advances_change fixed_assets capital_changes : list Q)
  (f : flows) (i : nat) : result flows :=
  (* Operating cash flow *)
  net_profit_i <- index net_profits i ;;
  depreciation_i <- index depreciation i ;;
  receivables_change_i <- index receivables_change (i - 1) ;;
  prepayments_change_i <- index prepayments_change (i - 1) ;;
  payables_change_i <- index payables_change (i - 1) ;;
  advances_change_i <- index advances_change (i - 1) ;;
  let operating_cf :=
    net_profit_i + depreciation_i - receivables_change_i
    - prepayments_change_i + payables_change_i + advances_change_i in
  (* Investing cash flow *)
  fixed_assets_i <- index fixed_assets i ;;
  fixed_assets_prev <- index fixed_assets (i - 1) ;;
  depreciation_i' <- index depreciation i ;;
  let investing_cf := - (fixed_assets_i - fixed_assets_prev + depreciation_i') in
  (* Financing cash flow *)
  financing_cf <- index capital_changes (i - 1) ;;
  Ok {| operating_cash_flows := operating_cash_flows f ++ [operating_cf];
        investing_cash_flows := investing_cash_flows f ++ [investing_cf];
        financing_cash_flows := financing_cash_flows f ++ [financing_cf] |}.

(** What the three [st.metric] calls show.  numpy scalars divide without
    raising; every division here is behind a [!= 0] test. *)
Record metrics : Type := {
  Operating_CF_to_Net_Profit : Q * Q;
  CAPEX_to_Operating_CF : Q * Q;
  Net_CF_CAGR : growth;
  operating_cf_ratio : list Q;
  capex_ratio : list Q
}.

(** Everything the [try] block computes: the depreciation array, the
    statement and the metrics. *)
Record statement : Type := {
  depreciation : list Q;
  cash_flow_df : DataFrame;
  key_metrics : metrics
}.

(** Lines 32 to 139. *)
Definition forecast (profit_loss_data balance_sheet_data : DataFrame)
  (w : widgets) : result statement :=
  let years := ["2023A"; "2024E"; "2025E"; "2026E"] in
  (* Get data from P&L *)
  net_profits <- loc profit_loss_data "Net Profit(A-B-C-D-E)" ;;
  (* Get data from Balance Sheet *)
  fixed_assets <- loc balance_sheet_data "Fixed Assets(I)" ;;
  receivables <- loc balance_sheet_data "Accounts Receivable(G)" ;;
  prepayments <- loc balance_sheet_data "Prepayments(H)" ;;
  payables <- loc balance_sheet_data "Accounts Payable(J)" ;;
  advances <- loc balance_sheet_data "Advances from Customers(K)" ;;
  share_capital <- loc balance_sheet_data "Share Capital(L)" ;;
  let capital_changes := np_diff share_capital in
  (* Calculate depreciation *)
  let depreciation := np_scale fixed_assets (depreciation_rate w) in
  (* Calculate working capital changes *)
  let receivables_change := np_diff receivables in
  let prepayments_change := np_diff prepayments in
  let payables_change := np_diff payables in
  let advances_change := np_diff advances in
  (* First year data *)
  net_profit_0 <- index net_profits 0 ;;
  depreciation_0 <- index depreciation 0 ;;
  let first_year :=
    {| operating_cash_flows := [net_profit_0 + depreciation_0];
       investing_cash_flows := [0];
       financing_cash_flows := [0] |} in
  (* Calculate cash flows for forecast years *)
  f <- for_range
         (forecast_year net_profits depreciation receivables_change
            prepayments_change payables_change advances_change fixed_assets
            capital_changes)
         (seq 1 3) first_year ;;
  (* Calculate net cash flow *)
  let net_cash_flows :=
    map (fun '(op, inv, fin) => op + inv + fin)
        (zip3 (operating_cash_flows f) (investing_cash_flows f)
              (financing_cash_flows f)) in
  let cash_flow_data : dict (list Q) :=
    [ ("Operating Cash Flow(N)", operating_cash_flows f);
      ("Investing Cash Flow(O)", investing_cash_flows f);
      ("Financing Cash Flow(P)", financing_cash_flows f);
      ("**Net Cash Flow(N+O+P)**", net_cash_flows) ] in
  let cash_flow_df := DataFrame_T cash_flow_data years in
  let operating_cf_ratio :=
    map (fun '(ocf, np) => if negb (Qeq_bool np 0) then ocf / np else 0)
        (combine (operating_cash_flows f) net_profits) in
  let capex_ratio :=
    map (fun '(icf, ocf) => if negb (Qeq_bool ocf 0) then - icf / ocf else 0)
        (combine (investing_cash_flows f) (operating_cash_flows f)) in
  let cf_growth :=
    if negb (Qeq_bool (first_item net_cash_flows) 0)
    then CubeRootMinusOne (last_item net_cash_flows / first_item net_cash_flows)
    else Number 0 in
  Ok {| depreciation := depreciation;
        cash_flow_df := cash_flow_df;
        key_metrics :=
          {| Operating_CF_to_Net_Profit :=
               (last_item operating_cf_ratio,
                last_item operating_cf_ratio - first_item operating_cf_ratio);
             CAPEX_to_Operating_CF :=
               (last_item capex_ratio,
                last_item capex_ratio - first_item capex_ratio);
             Net_CF_CAGR := cf_growth;
             operating_cf_ratio := operating_cf_ratio;
             capex_ratio := capex_ratio |} |}.

(** What a call did.  The function has no [return]: its Python value is
    always [None]. *)
Inductive outcome : Type :=
| Idle
| Shown (s : statement)
| Failed (e : exn).

Definition create_cash_flow_section (profit_loss_data balance_sheet_data : DataFrame)
  (w : widgets) : outcome :=
  if generate_button w then
    match forecast profit_loss_data balance_sheet_data w with
    | Ok s => Shown s
    | Raise e => Failed e
    end
  else Idle.

End CashFlow.

(** ** main.py *)

Module Main.

(** [st.session_state] *)
Record session_state : Type := {
  profit_loss_data : option DataFrame;
  balance_sheet_data : option DataFrame;
  is_pl_generated : bool;
  is_bs_generated : bool
}.

(** [init_session_state()] on a fresh session, and [reset_all_data()]. *)
Definition reset_all_data : session_state :=
  {| profit_loss_data := None;
     balance_sheet_data := None;
     is_pl_generated := false;
     is_bs_generated := false |}.

(** The widgets of one script run. *)
Record inputs : Type := {
  pl_widgets : ProfitLoss.widgets;
  bs_widgets : BalanceSheet.widgets;
  cf_widgets : CashFlow.widgets;
  reset_button : bool
}.

(** [create_balance_sheet_section(x)] for a session value [x]: on [None]
    the first [.loc] inside the [try] raises [AttributeError]. *)
Definition call_balance_sheet (pl : option DataFrame) (w : BalanceSheet.widgets)
  : BalanceSheet.outcome :=
  match pl with
  | Some pl => BalanceSheet.create_balance_sheet_section pl w
  | None =>
      if BalanceSheet.generate_button w then BalanceSheet.Failed AttributeError
      else BalanceSheet.Idle
  end.

(** [create_cash_flow_section(x, y)] for session values [x] and [y]: the
    P&L table is read first, then the balance sheet. *)
Definition call_cash_flow (pl bs : option DataFrame) (w : CashFlow.widgets)
  : CashFlow.outcome :=
  match pl, bs with
  | Some pl, Some bs => CashFlow.create_cash_flow_section pl bs w
  | Some pl, None =>
      if CashFlow.generate_button w then
        match loc pl "Net Profit(A-B-C-D-E)" with
        | Ok _ => CashFlow.Failed AttributeError
        | Raise e => CashFlow.Failed e
        end
      else CashFlow.Idle
  | None, _ =>
      if CashFlow.generate_button w then CashFlow.Failed AttributeError
      else CashFlow.Idle
  end.

(** What the two downstream tabs do in a run: a call of the section, with
    the session values it is given ([None] or a table) and what it did, or
    the [st.info] message shown instead. *)
Inductive event : Type :=
| BalanceSheetCall (pl : option DataFrame) (o : BalanceSheet.outcome)
| CashFlowCall (pl bs : option DataFrame) (o : CashFlow.outcome)
| Info (message : string).

(** [with tab1:], given the value [create_profit_loss_section()] returned. *)
Definition tab1 (pl_result : option DataFrame) (s : session_state) : session_state :=
  match pl_result with
  | Some pl =>
      {| profit_loss_data := Some pl;
         is_pl_generated := true;
         (* Clear subsequent forecasts when P&L is regenerated *)
         balance_sheet_data := None;
         is_bs_generated := false |}
  | None => s
  end.

(** [with tab2:] *)
Definition tab2 (ui : inputs) (s : session_state) : session_state * list event :=
  if is_pl_generated s then
    let o := call_balance_sheet (profit_loss_data s) (bs_widgets ui) in
    let bs_result := BalanceSheet.returned o in
    (match bs_result with
     | Some bs =>
         {| profit_loss_data := profit_loss_data s;
            balance_sheet_data := Some bs;
            is_pl_generated := is_pl_generated s;
            is_bs_generated := true |}
     | None => s
     end,
     [BalanceSheetCall (profit_loss_data s) o])
  else (s, [Info "Please generate P&L forecast first"]).

(** [with tab3:] *)
Definition tab3 (ui : inputs) (s : session_state) : session_state * list event :=
  if is_pl_generated s && is_bs_generated s then
    (s, [CashFlowCall (profit_loss_data s) (balance_sheet_data s)
           (call_cash_flow (profit_loss_data s) (balance_sheet_data s)
              (cf_widgets ui))])
  else if negb (is_pl_generated s) then
    (s, [Info "Please generate P&L forecast first"])
  else if negb (is_bs_generated s) then
    (s, [Info "Please generate Balance Sheet forecast first"])
  else (s, []).

(** [with st.sidebar:] the reset button; [st.experimental_rerun()] then
    starts the next run. *)
Definition sidebar (ui : inputs) (s : session_state) : session_state :=
  if reset_button ui then reset_all_data else s.

(** One run of the script, top to bottom: the session state it leaves,
    what the downstream tabs did, and the exception that stopped it, if
    any.  [create_profit_loss_section] has no [try]: what it raises ends
    the run, with the session state as it was. *)
Record run_result : Type := {
  state_after : session_state;
  events : list event;
  uncaught : option exn
}.

Definition run (s : session_state) (ui : inputs) : run_result :=
  match ProfitLoss.create_profit_loss_section (pl_widgets ui) with
  | Raise e => {| state_after := s; events := []; uncaught := Some e |}
  | Ok pl_result =>
      let s1 := tab1 (option_map fst pl_result) s in
      let '(s2, events2) := tab2 ui s1 in
      let '(s3, events3) := tab3 ui s2 in
      {| state_after := sidebar ui s3;
         events := events2 ++ events3;
         uncaught := None |}
  end.

(** The session states that a session can be in. *)
Inductive reachable : session_state -> Prop :=
| reachable_init : reachable reset_all_data
| reachable_run s ui : reachable s -> reachable (state_after (run s ui)).

End Main.

(** * Vocabulary of the properties, and concrete inputs *)

(** The line items of the three statements, in row order. *)
Definition pl_labels : list string := map fst ProfitLoss.historical_data.

Definition bs_labels : list string := map fst BalanceSheet.historical_bs.

Definition cf_labels : list string :=
  [ "Operating Cash Flow(N)"; "Investing Cash Flow(O)";
    "Financing Cash Flow(P)"; "**Net Cash Flow(N+O+P)**" ].

(** What the session holds is in step: a flag is set exactly when its table
    is stored, the stored P&L table is one that
    [create_profit_loss_section] returned, and the stored balance sheet is
    one that [create_balance_sheet_section] returned for the stored P&L
    table. *)
Definition in_step (s : Main.session_state) : Prop :=
  (Main.is_pl_generated s = true <-> Main.profit_loss_data s <> None) /\
  (Main.is_bs_generated s = true <-> Main.balance_sheet_data s <> None) /\
  (forall pl, Main.profit_loss_data s = Some pl ->
     exists w m, ProfitLoss.create_profit_loss_section w = Ok (Some (pl, m))) /\
  (forall bs, Main.balance_sheet_data s = Some bs ->
     exists pl w m,
       Main.profit_loss_data s = Some pl /\
       BalanceSheet.create_balance_sheet_section pl w
         = BalanceSheet.Generated bs m).

(** An exception that is not raised by a division. *)
Definition not_a_division (e : exn) : Prop := e <> ZeroDivisionError.

(** The P&L table of the sliders at their defaults. *)
Definition default_pl : DataFrame :=
  Eval vm_compute in
    match ProfitLoss.create_profit_loss_section (ProfitLoss.default_widgets true) with
    | Ok (Some (df, _)) => df
    | _ => DataFrame_T [] []
    end.

Definition default_pl_metrics : ProfitLoss.metrics :=
  Eval vm_compute in
    match ProfitLoss.create_profit_loss_section (ProfitLoss.default_widgets true) with
    | Ok (Some (_, m)) => m
    | _ => {| ProfitLoss.Gross_Margin := (0, 0);
              ProfitLoss.Net_Margin := (0, 0);
              ProfitLoss.Revenue_CAGR := Number 0 |}
    end.

(** The balance sheet of [default_pl] and the widgets at their defaults. *)
Definition default_bs : DataFrame :=
  Eval vm_compute in
    match BalanceSheet.create_balance_sheet_section default_pl
            (BalanceSheet.default_widgets true) with
    | BalanceSheet.Generated df _ => df
    | _ => DataFrame_T [] []
    end.

Definition default_bs_metrics : BalanceSheet.metrics :=
  Eval vm_compute in
    match BalanceSheet.create_balance_sheet_section default_pl
            (BalanceSheet.default_widgets true) with
    | BalanceSheet.Generated _ m => m
    | _ => {| BalanceSheet.Debt_Ratio := (0, 0);
              BalanceSheet.Fixed_Asset_Ratio := (0, 0);
              BalanceSheet.Equity_Ratio := (0, 0) |}
    end.

(** The balance sheet widgets at their defaults, with a fixed-asset growth
    of 0.30 instead of 0.20. *)
Definition faster_growth_widgets : BalanceSheet.widgets :=
  {| BalanceSheet.receivables_ratio := 0.11;
     BalanceSheet.prepayment_ratio := 0.01;
     BalanceSheet.payables_ratio := 0.20;
     BalanceSheet.advance_ratio := 0.01;
     BalanceSheet.fixed_asset_growth := 0.30;
     BalanceSheet.capital_increase := 325.00;
     BalanceSheet.generate_button := true |}.

Definition faster_growth_bs : DataFrame :=
  Eval vm_compute in
    match BalanceSheet.create_balance_sheet_section default_pl
            faster_growth_widgets with
    | BalanceSheet.Generated df _ => df
    | _ => DataFrame_T [] []
    end.

Definition faster_growth_metrics : BalanceSheet.metrics :=
  Eval vm_compute in
    match BalanceSheet.create_balance_sheet_section default_pl
            faster_growth_widgets with
    | BalanceSheet.Generated _ m => m
    | _ => default_bs_metrics
    end.

(** The balance sheet widgets at their defaults, with a capital increase
    of -1653 typed into the number input. *)
Definition capital_withdrawn_widgets : BalanceSheet.widgets :=
  {| BalanceSheet.receivables_ratio := 0.11;
     BalanceSheet.prepayment_ratio := 0.01;
     BalanceSheet.payables_ratio := 0.20;
     BalanceSheet.advance_ratio := 0.01;
     BalanceSheet.fixed_asset_growth := 0.20;
     BalanceSheet.capital_increase := -1653;
     BalanceSheet.generate_button := true |}.

(** The cash flow slider at its default of 10 percent. *)
Definition default_cf_widgets : CashFlow.widgets :=
  {| CashFlow.depreciation_rate_ := 10; CashFlow.generate_button := true |}.

Definition default_cf : CashFlow.statement :=
  Eval vm_compute in
    match CashFlow.create_cash_flow_section default_pl default_bs
            default_cf_widgets with
    | CashFlow.Shown s => s
    | _ => {| CashFlow.depreciation := [];
              CashFlow.cash_flow_df := DataFrame_T [] [];
              CashFlow.key_metrics :=
                {| CashFlow.Operating_CF_to_Net_Profit := (0, 0);
                   CashFlow.CAPEX_to_Operating_CF := (0, 0);
                   CashFlow.Net_CF_CAGR := Number 0;
                   CashFlow.operating_cf_ratio := [];
                   CashFlow.capex_ratio := [] |} |}
    end.

(** A P&L table with a loss of 300 in period 0, as [create_cash_flow_section]
    reads it. *)
Definition loss_pl : DataFrame :=
  DataFrame_T [("Net Profit(A-B-C-D-E)", [-300; 230; 264.5; 304.17])]
              ["2023A"; "2024E"; "2025E"; "2026E"].

(** The session after a first run that generated the P&L and the balance
    sheet from the defaults. *)
Definition default_session : Main.session_state :=
  {| Main.profit_loss_data := Some default_pl;
     Main.balance_sheet_data := Some default_bs;
     Main.is_pl_generated := true;
     Main.is_bs_generated := true |}.

(** A run in which only the balance sheet button is clicked, with the
    capital increase at -1653. *)
Definition failing_bs_run : Main.inputs :=
  {| Main.pl_widgets := ProfitLoss.default_widgets false;
     Main.bs_widgets := capital_withdrawn_widgets;
     Main.cf_widgets :=
       {| CashFlow.depreciation_rate_ := 10; CashFlow.generate_button := false |};
     Main.reset_button := false |}.

(** A first run in which the P&L and the balance sheet are generated from
    the defaults and the cash flow button is clicked. *)
Definition first_run : Main.inputs :=
  {| Main.pl_widgets := ProfitLoss.default_widgets true;
     Main.bs_widgets := BalanceSheet.default_widgets true;
     Main.cf_widgets := default_cf_widgets;
     Main.reset_button := false |}.

(** A P&L table with Net Profit 0 in period 1. *)
Definition break_even_pl : DataFrame :=
  DataFrame_T [("Net Profit(A-B-C-D-E)", [200; 0; 264.5; 304.17])]
              ["2023A"; "2024E"; "2025E"; "2026E"].

Definition break_even_cf : CashFlow.statement :=
  Eval vm_compute in
    match CashFlow.create_cash_flow_section break_even_pl default_bs
            default_cf_widgets with
    | CashFlow.Shown s => s
    | _ => default_cf
    end.

(** A P&L table whose loss in period 0 cancels the depreciation of 1.6. *)
Definition zero_base_pl : DataFrame :=
  DataFrame_T [("Net Profit(A-B-C-D-E)", [-1.6; 230; 264.5; 304.17])]
              ["2023A"; "2024E"; "2025E"; "2026E"].

Definition zero_base_cf : CashFlow.statement :=
  Eval vm_compute in
    match CashFlow.create_cash_flow_section zero_base_pl default_bs
            default_cf_widgets with
    | CashFlow.Shown s => s
    | _ => default_cf
    end.

(** ** main.py: the session state as the dictionary it is *)

Module SessionState.

(** What the script and the keyed widgets store in [st.session_state]: a
    statement or [None], a flag, or the number a keyed slider holds. *)
Inductive value : Type :=
| PyNone
| PyBool (b : bool)
| PyFrame (df : DataFrame)
| PyFloat (x : Q).

(** [key in st.session_state] *)
Fixpoint contains (st : dict value) (key : string) : bool :=
  match st with
  | [] => false
  | (k, _) :: st' => if String.eqb k key then true else contains st' key
  end.

(** [st.session_state[key] = v] *)
Fixpoint setitem (st : dict value) (key : string) (v : value) : dict value :=
  match st with
  | [] => [(key, v)]
  | (k, x) :: st' =>
      if String.eqb k key then (k, v) :: st' else (k, x) :: setitem st' key v
  end.

(** [if key not in st.session_state: st.session_state[key] = v] *)
Definition setdefault (st : dict value) (key : string) (v : value) : dict value :=
  if negb (contains st key) then setitem st key v else st.

(** [init_session_state()] *)
Definition init_session_state (st : dict value) : dict value :=
  let st := setdefault st "profit_loss_data" PyNone in
  let st := setdefault st "balance_sheet_data" PyNone in
  let st := setdefault st "is_pl_generated" (PyBool false) in
  setdefault st "is_bs_generated" (PyBool false).

(** [reset_all_data()] *)
Definition reset_all_data (st : dict value) : dict value :=
  let st := setitem st "profit_loss_data" PyNone in
  let st := setitem st "balance_sheet_data" PyNone in
  let st := setitem st "is_pl_generated" (PyBool false) in
  setitem st "is_bs_generated" (PyBool false).

(** The four keys of the script. *)
Definition script_keys : list string :=
  ["profit_loss_data"; "balance_sheet_data"; "is_pl_generated";
   "is_bs_generated"].

(** The dictionary of a session in which the P&L was generated and the
    growth slider of 2024E was moved to 20. *)
Definition session_with_pl (pl : DataFrame) : dict value :=
  [ ("revenue_growth_2024E", PyFloat 20);
    ("profit_loss_data", PyFrame pl);
    ("balance_sheet_data", PyNone);
    ("is_pl_generated", PyBool true);
    ("is_bs_generated", PyBool false) ].

(** The session state as main.py reads it: the four keys of the script,
    each with a value of its kind. *)
Definition read (st : dict value) : option Main.session_state :=
  match getitem st "profit_loss_data", getitem st "balance_sheet_data",
        getitem st "is_pl_generated", getitem st "is_bs_generated" with
  | Ok pl, Ok bs, Ok (PyBool pl_flag), Ok (PyBool bs_flag) =>
      match pl, bs with
      | (PyNone | PyFrame _), (PyNone | PyFrame _) =>
          Some {| Main.profit_loss_data :=
                    match pl with PyFrame df => Some df | _ => None end;
                  Main.balance_sheet_data :=
                    match bs with PyFrame df => Some df | _ => None end;
                  Main.is_pl_generated := pl_flag;
                  Main.is_bs_generated := bs_flag |}
      | _, _ => None
      end
  | _, _, _, _ => None
  end.

End SessionState.

(** ** The example tables under [if __name__ == "__main__":] *)

(** The example tables are built as [pd.DataFrame({year: {item: value}}).T].
    In a frame made from a dict of dicts the outer keys are the column
    labels and the inner keys the index; [.T] swaps them, so that these
    frames are indexed by year and have the line items as columns. *)

(** [example_data] of balance_sheet.py *)
Definition balance_sheet_example_data : DataFrame :=
  {| columns := ["Revenue(A)"; "Cost(B)"; "Net Profit(A-B-C-D-E)"];
     rows := [ ("2023A", [1000; 600; 200]);
               ("2024E", [1150; 690; 230]);
               ("2025E", [1322.5; 793.5; 264.5]);
               ("2026E", [1520.87; 912.52; 304.17]) ] |}.

(** [example_pl_data] of cash_flow.py *)
Definition cash_flow_example_pl_data : DataFrame :=
  {| columns := ["Net Profit(A-B-C-D-E)"];
     rows := [ ("2023A", [200]); ("2024E", [230]); ("2025E", [264.5]);
               ("2026E", [304.17]) ] |}.

(** [example_bs_data] of cash_flow.py *)
Definition cash_flow_example_bs_data : DataFrame :=
  {| columns := ["Fixed Assets(I)"; "Accounts Receivable(G)"];
     rows := [ ("2023A", [16; 110]); ("2024E", [19.2; 126.5]);
               ("2025E", [23.04; 145.48]); ("2026E", [27.65; 167.3]) ] |}.

(** The rows that [create_cash_flow_section] reads, in the order of lines
    35 to 43. *)
Definition cash_flow_reads (profit_loss_data balance_sheet_data : DataFrame)
  : list (DataFrame * string) :=
  [ (profit_loss_data, "Net Profit(A-B-C-D-E)");
    (balance_sheet_data, "Fixed Assets(I)");
    (balance_sheet_data, "Accounts Receivable(G)");
    (balance_sheet_data, "Prepayments(H)");
    (balance_sheet_data, "Accounts Payable(J)");
    (balance_sheet_data, "Advances from Customers(K)");
    (balance_sheet_data, "Share Capital(L)") ].

(** The rows that [create_balance_sheet_section] reads, in the order of
    lines 66 to 68. *)
Definition balance_sheet_reads : list string :=
  ["Revenue(A)"; "Cost(B)"; "Net Profit(A-B-C-D-E)"].

(** A row is there and has a value for each of the four periods. *)
Definition has_four_periods (df : DataFrame) (label : string) : Prop :=
  exists row, loc df label = Ok row /\ (3 < List.length row)%nat.

(** The P&L sliders at their defaults, with the three sliders of 2026E
    moved. *)
Definition late_change_widgets : ProfitLoss.widgets :=
  {| ProfitLoss.revenue_growth_ :=
       fun year => if String.eqb year "2026E" then 40 else 15;
     ProfitLoss.cost_ratio_ :=
       fun year => if String.eqb year "2026E" then 70 else 60;
     ProfitLoss.sales_ := fun year => if String.eqb year "2026E" then 5 else 10;
     ProfitLoss.management_ := fun _ => 7;
     ProfitLoss.financial_ := fun _ => 2;
     ProfitLoss.generate_button := true |}.

Definition late_change_pl : DataFrame :=
  Eval vm_compute in
    match ProfitLoss.create_profit_loss_section late_change_widgets with
    | Ok (Some (df, _)) => df
    | _ => DataFrame_T [] []
    end.

Definition late_change_pl_metrics : ProfitLoss.metrics :=
  Eval vm_compute in
    match ProfitLoss.create_profit_loss_section late_change_widgets with
    | Ok (Some (_, m)) => m
    | _ => default_pl_metrics
    end.

(** The cash flow slider at 5 percent. *)
Definition slow_depreciation_widgets : CashFlow.widgets :=
  {| CashFlow.depreciation_rate_ := 5; CashFlow.generate_button := true |}.

Definition slow_depreciation_cf : CashFlow.statement :=
  Eval vm_compute in
    match CashFlow.create_cash_flow_section default_pl default_bs
            slow_depreciation_widgets with
    | CashFlow.Shown s => s
    | _ => default_cf
    end.

(** A run of a fresh session in which no button is clicked. *)
Definition idle_run : Main.inputs :=
  {| Main.pl_widgets := ProfitLoss.default_widgets false;
     Main.bs_widgets := BalanceSheet.default_widgets false;
     Main.cf_widgets :=
       {| CashFlow.depreciation_rate_ := 10; CashFlow.generate_button := false |};
     Main.reset_button := false |}.

(** A run in which only the cash flow button is clicked. *)
Definition cash_flow_run : Main.inputs :=
  {| Main.pl_widgets := ProfitLoss.default_widgets false;
     Main.bs_widgets := BalanceSheet.default_widgets false;
     Main.cf_widgets := default_cf_widgets;
     Main.reset_button := false |}.

(** The sliders of two widget states hold the same numbers for [year]. *)
Definition same_sliders (w1 w2 : ProfitLoss.widgets) (year : string) : Prop :=
  ProfitLoss.revenue_growth_ w1 year == ProfitLoss.revenue_growth_ w2 year /\
  ProfitLoss.cost_ratio_ w1 year == ProfitLoss.cost_ratio_ w2 year /\
  ProfitLoss.sales_ w1 year == ProfitLoss.sales_ w2 year /\
  ProfitLoss.management_ w1 year == ProfitLoss.management_ w2 year /\
  ProfitLoss.financial_ w1 year == ProfitLoss.financial_ w2 year.

(** The value [init_session_state] gives a key of the script that is not
    there yet. *)
Definition initial_value (key : string) : SessionState.value :=
  if String.eqb key "is_pl_generated" || String.eqb key "is_bs_generated"
  then SessionState.PyBool false else SessionState.PyNone.

(** * Properties *)

(** ** Reduction *)

(** Evaluate the embedding and leave the arithmetic on amounts as written. *)
Ltac evaluate_in H :=
  cbv - [Qplus Qmult Qminus Qopp Qdiv Qinv Qeq_bool Qeq Qlt Qle] in H.
Ltac evaluate :=
  cbv - [Qplus Qmult Qminus Qopp Qdiv Qinv Qeq_bool Qeq Qlt Qle].

(** A list with an element at index 3 spelled out. *)
Ltac four_or_less l :=
  destruct l as [| ? [| ? [| ? [| ? ?]]]].

(** ** Balance sheet: what [forecast] computes *)

Section BalanceSheetForecast.

Variable pl : DataFrame.
Variable w : BalanceSheet.widgets.
Variable df : DataFrame.
Hypothesis Hforecast :
  BalanceSheet.forecast pl w = Ok df.

Lemma bs_forecast_spec :
  exists revenues costs net_profits,
    loc pl "Revenue(A)" = Ok revenues /\
    loc pl "Cost(B)" = Ok costs /\
    loc pl "Net Profit(A-B-C-D-E)" = Ok net_profits /\
    (3 < List.length revenues)%nat /\
    (3 < List.length costs)%nat /\
    (3 < List.length net_profits)%nat /\
    shape df bs_labels 4 /\
    (forall k v, In (k, v) BalanceSheet.historical_bs -> cell df k 0 = v) /\
    forall i, (1 <= i <= 3)%nat ->
      cell df "Accounts Receivable(G)" i
        = nth i revenues 0 * BalanceSheet.receivables_ratio w /\
      cell df "Prepayments(H)" i
        = nth i costs 0 * BalanceSheet.prepayment_ratio w /\
      cell df "Fixed Assets(I)" i
        = cell df "Fixed Assets(I)" (i - 1)
          * (1 + BalanceSheet.fixed_asset_growth w) /\
      cell df "Accounts Payable(J)" i
        = nth i costs 0 * BalanceSheet.payables_ratio w /\
      cell df "Advances from Customers(K)" i
        = nth i revenues 0 * BalanceSheet.advance_ratio w /\
      cell df "Total Liabilities(J+K)" i
        = cell df "Accounts Payable(J)" i
          + cell df "Advances from Customers(K)" i /\
      cell df "Share Capital(L)" i
        = cell df "Share Capital(L)" (i - 1)
          + (if Nat.eqb i 1 then BalanceSheet.capital_increase w else 0) /\
      cell df "Retained Earnings(M)" i
        = cell df "Retained Earnings(M)" (i - 1) + nth i net_profits 0 /\
      cell df "Total Equity(L+M)" i
        = cell df "Share Capital(L)" i + cell df "Retained Earnings(M)" i /\
      cell df "Total Liabilities & Equity(J+K+L+M)" i
        = cell df "Total Liabilities(J+K)" i + cell df "Total Equity(L+M)" i /\
      cell df "Total Assets(F+G+H+I)" i
        = cell df "Total Liabilities(J+K)" i + cell df "Total Equity(L+M)" i /\
      cell df "Cash(F)" i
        = cell df "Total Liabilities(J+K)" i + cell df "Total Equity(L+M)" i
          - (cell df "Accounts Receivable(G)" i + cell df "Prepayments(H)" i
             + cell df "Fixed Assets(I)" i).
Proof.
  pose proof Hforecast as H.
  unfold BalanceSheet.forecast in H.
  destruct (loc pl "Revenue(A)") as [revenues|] eqn:Hr; [|discriminate].
  destruct (loc pl "Cost(B)") as [costs|] eqn:Hc; [|discriminate].
  destruct (loc pl "Net Profit(A-B-C-D-E)") as [net_profits|] eqn:Hn;
    [|discriminate].
  exists revenues, costs, net_profits.
  four_or_less revenues; four_or_less costs; four_or_less net_profits;
    evaluate_in H; try discriminate.
  injection H as <-.
  repeat split; try reflexivity; try (simpl; lia).
  - repeat constructor.
  - intros k v Hin. simpl in Hin.
    repeat (destruct Hin as [Hin|Hin]; [injection Hin as <- <-; reflexivity|]).
    contradiction.
  - destruct i as [|[|[|[|]]]]; try lia; reflexivity.
  - destruct i as [|[|[|[|]]]]; try lia; reflexivity.
  - destruct i as [|[|[|[|]]]]; try lia; reflexivity.
  - destruct i as [|[|[|[|]]]]; try lia; reflexivity.
  - destruct i as [|[|[|[|]]]]; try lia; reflexivity.
  - destruct i as [|[|[|[|]]]]; try lia; reflexivity.
  - destruct i as [|[|[|[|]]]]; try lia; reflexivity.
  - destruct i as [|[|[|[|]]]]; try lia; reflexivity.
  - destruct i as [|[|[|[|]]]]; try lia; reflexivity.
  - destruct i as [|[|[|[|]]]]; try lia; reflexivity.
  - destruct i as [|[|[|[|]]]]; try lia; reflexivity.
  - destruct i as [|[|[|[|]]]]; try lia; reflexivity.
Qed.

End BalanceSheetForecast.

(** ** Inversion of the result monad *)

Lemma index_Ok_length (a : list Q) (i : nat) (x : Q) :
  index a i = Ok x -> (i < List.length a)%nat.
Proof.
  unfold index. destruct (nth_error a i) eqn:E; [|discriminate].
  intros _. apply nth_error_Some. congruence.
Qed.

Lemma np_diff_length (a : list Q) :
  List.length (np_diff a) = pred (List.length a).
Proof.
  induction a as [|x a IH]; [reflexivity|].
  destruct a as [|y a]; [reflexivity|].
  change (np_diff (x :: y :: a)) with ((y - x) :: np_diff (y :: a)).
  simpl List.length in *. rewrite IH. reflexivity.
Qed.

Lemma np_scale_length (a : list Q) (k : Q) :
  List.length (np_scale a k) = List.length a.
Proof. apply length_map. Qed.

(** Split [H : (x <- c ;; k) = Ok _] into [c = Ok x] and [k x = Ok _]. *)
Ltac monad_inv H :=
  repeat (cbv zeta in H;
          match type of H with
          | Py.bind ?c _ = Ok _ =>
              let E := fresh "E" in
              destruct c eqn:E; cbn [Py.bind] in H; [|discriminate H]
          end).

(** ** Cash flow: what [forecast] computes *)

Section CashFlowForecast.

Variables pl bs : DataFrame.
Variable w : CashFlow.widgets.
Variable s : CashFlow.statement.
Hypothesis Hforecast : CashFlow.forecast pl bs w = Ok s.

Lemma cf_forecast_inputs :
  exists net_profits fixed_assets receivables prepayments payables advances
         share_capital,
    loc pl "Net Profit(A-B-C-D-E)" = Ok net_profits /\
    loc bs "Fixed Assets(I)" = Ok fixed_assets /\
    loc bs "Accounts Receivable(G)" = Ok receivables /\
    loc bs "Prepayments(H)" = Ok prepayments /\
    loc bs "Accounts Payable(J)" = Ok payables /\
    loc bs "Advances from Customers(K)" = Ok advances /\
    loc bs "Share Capital(L)" = Ok share_capital /\
    (3 < List.length net_profits)%nat /\
    (3 < List.length fixed_assets)%nat /\
    (3 < List.length receivables)%nat /\
    (3 < List.length prepayments)%nat /\
    (3 < List.length payables)%nat /\
    (3 < List.length advances)%nat /\
    (3 < List.length share_capital)%nat.
Proof.
  pose proof Hforecast as H.
  unfold CashFlow.forecast in H.
  destruct (loc pl "Net Profit(A-B-C-D-E)") as [net_profits|] eqn:H1;
    [|discriminate].
  destruct (loc bs "Fixed Assets(I)") as [fixed_assets|] eqn:H2; [|discriminate].
  destruct (loc bs "Accounts Receivable(G)") as [receivables|] eqn:H3;
    [|discriminate].
  destruct (loc bs "Prepayments(H)") as [prepayments|] eqn:H4; [|discriminate].
  destruct (loc bs "Accounts Payable(J)") as [payables|] eqn:H5; [|discriminate].
  destruct (loc bs "Advances from Customers(K)") as [advances|] eqn:H6;
    [|discriminate].
  destruct (loc bs "Share Capital(L)") as [share_capital|] eqn:H7;
    [|discriminate].
  cbn [Py.bind] in H.
  exists net_profits, fixed_assets, receivables, prepayments, payables,
    advances, share_capital.
  repeat (split; [reflexivity|]).
  monad_inv H. clear H.
  match goal with
  | E : for_range _ _ _ = Ok _ |- _ =>
      cbn [for_range seq] in E; monad_inv E
  end.
  match goal with
  | E : CashFlow.forecast_year _ _ _ _ _ _ _ _ _ 3 = Ok _ |- _ =>
      unfold CashFlow.forecast_year in E; monad_inv E
  end.
  repeat match goal with
         | E : index _ _ = Ok _ |- _ => apply index_Ok_length in E
         end.
  rewrite ?np_diff_length, ?np_scale_length in *.
  simpl Nat.sub in *.
  repeat split; lia.
Qed.

Lemma cf_forecast_spec :
  let cf := CashFlow.cash_flow_df s in
  let m := CashFlow.key_metrics s in
  let dep i := nth i (CashFlow.depreciation s) 0 in
  shape cf cf_labels 4 /\
  (forall i, (i <= 3)%nat ->
     dep i = cell bs "Fixed Assets(I)" i * CashFlow.depreciation_rate w) /\
  cell cf "Operating Cash Flow(N)" 0
    = cell pl "Net Profit(A-B-C-D-E)" 0 + dep 0%nat /\
  cell cf "Investing Cash Flow(O)" 0 = 0 /\
  cell cf "Financing Cash Flow(P)" 0 = 0 /\
  (forall i, (1 <= i <= 3)%nat ->
     cell cf "Operating Cash Flow(N)" i
       = cell pl "Net Profit(A-B-C-D-E)" i + dep i
         - (cell bs "Accounts Receivable(G)" i
            - cell bs "Accounts Receivable(G)" (i - 1))
         - (cell bs "Prepayments(H)" i - cell bs "Prepayments(H)" (i - 1))
         + (cell bs "Accounts Payable(J)" i
            - cell bs "Accounts Payable(J)" (i - 1))
         + (cell bs "Advances from Customers(K)" i
            - cell bs "Advances from Customers(K)" (i - 1)) /\
     cell cf "Investing Cash Flow(O)" i
       = - (cell bs "Fixed Assets(I)" i - cell bs "Fixed Assets(I)" (i - 1)
            + dep i) /\
     cell cf "Financing Cash Flow(P)" i
       = cell bs "Share Capital(L)" i - cell bs "Share Capital(L)" (i - 1)) /\
  (forall i, (i <= 3)%nat ->
     cell cf "**Net Cash Flow(N+O+P)**" i
       = cell cf "Operating Cash Flow(N)" i
         + cell cf "Investing Cash Flow(O)" i
         + cell cf "Financing Cash Flow(P)" i) /\
  (forall i, (i <= 3)%nat ->
     nth i (CashFlow.operating_cf_ratio m) 0
       = if negb (Qeq_bool (cell pl "Net Profit(A-B-C-D-E)" i) 0)
         then cell cf "Operating Cash Flow(N)" i
              / cell pl "Net Profit(A-B-C-D-E)" i
         else 0) /\
  (forall i, (i <= 3)%nat ->
     nth i (CashFlow.capex_ratio m) 0
       = if negb (Qeq_bool (cell cf "Operating Cash Flow(N)" i) 0)
         then - cell cf "Investing Cash Flow(O)" i
              / cell cf "Operating Cash Flow(N)" i
         else 0) /\
  CashFlow.Net_CF_CAGR m
    = (if negb (Qeq_bool (cell cf "**Net Cash Flow(N+O+P)**" 0) 0)
       then CubeRootMinusOne (cell cf "**Net Cash Flow(N+O+P)**" 3
                              / cell cf "**Net Cash Flow(N+O+P)**" 0)
       else Number 0) /\
  CashFlow.Operating_CF_to_Net_Profit m
    = (nth 3 (CashFlow.operating_cf_ratio m) 0,
       nth 3 (CashFlow.operating_cf_ratio m) 0
       - nth 0 (CashFlow.operating_cf_ratio m) 0) /\
  CashFlow.CAPEX_to_Operating_CF m
    = (nth 3 (CashFlow.capex_ratio m) 0,
       nth 3 (CashFlow.capex_ratio m) 0 - nth 0 (CashFlow.capex_ratio m) 0).
Proof.
  destruct cf_forecast_inputs
    as (net_profits & fixed_assets & receivables & prepayments & payables
        & advances & share_capital & H1 & H2 & H3 & H4 & H5 & H6 & H7
        & L1 & L2 & L3 & L4 & L5 & L6 & L7).
  pose proof Hforecast as H.
  unfold CashFlow.forecast in H.
  rewrite H1, H2, H3, H4, H5, H6, H7 in H.
  four_or_less net_profits; simpl in L1; try (exfalso; lia).
  four_or_less fixed_assets; simpl in L2; try (exfalso; lia).
  four_or_less receivables; simpl in L3; try (exfalso; lia).
  four_or_less prepayments; simpl in L4; try (exfalso; lia).
  four_or_less payables; simpl in L5; try (exfalso; lia).
  four_or_less advances; simpl in L6; try (exfalso; lia).
  four_or_less share_capital; simpl in L7; try (exfalso; lia).
  evaluate_in H. injection H as <-.
  unfold cell. rewrite H1, H2, H3, H4, H5, H6, H7.
  repeat split; try reflexivity;
    try (repeat constructor);
    try (destruct i as [|[|[|[|]]]]; try lia; reflexivity).
Qed.

End CashFlowForecast.

(** ** Profit and loss: what [section] computes *)

(** Decide the [== 0] tests that guard the divisions in [H]. *)
Ltac decide_divisors H :=
  repeat match type of H with
         | context [Qeq_bool ?a ?b] =>
             destruct (Qeq_bool a b) eqn:?; cbv iota beta in H;
             try discriminate H
         end.

Section ProfitLossForecast.

Variable h : dict Q.
Variable w : ProfitLoss.widgets.
Variable df : DataFrame.
Variable m : ProfitLoss.metrics.
Hypothesis Hsection : ProfitLoss.section h w = Ok (Some (df, m)).

Lemma pl_section_spec :
  exists revenue0 cost0 sales0 management0 financial0,
    getitem h "Revenue(A)" = Ok revenue0 /\
    getitem h "Cost(B)" = Ok cost0 /\
    getitem h "Selling Expense(C)" = Ok sales0 /\
    getitem h "Admin Expense(D)" = Ok management0 /\
    getitem h "Financial Expense(E)" = Ok financial0 /\
    ProfitLoss.generate_button w = true /\
    shape df pl_labels 4 /\
    cell df "Revenue(A)" 0 = revenue0 /\
    cell df "Cost(B)" 0 = cost0 /\
    cell df "Gross Profit(A-B)" 0 = revenue0 - cost0 /\
    cell df "Selling Expense(C)" 0 = sales0 /\
    cell df "Admin Expense(D)" 0 = management0 /\
    cell df "Financial Expense(E)" 0 = financial0 /\
    cell df "Net Profit(A-B-C-D-E)" 0
      = revenue0 - cost0 - sales0 - management0 - financial0 /\
    forall i, (1 <= i <= 3)%nat ->
      cell df "Revenue(A)" i
        = cell df "Revenue(A)" (i - 1)
          * (1 + nth (i - 1) (ProfitLoss.revenue_growth_rates w) 0) /\
      cell df "Cost(B)" i
        = cell df "Revenue(A)" i * nth (i - 1) (ProfitLoss.cost_ratios w) 0 /\
      cell df "Selling Expense(C)" i
        = cell df "Revenue(A)" i
          * nth (i - 1) (ProfitLoss.sales_expense_ratios w) 0 /\
      cell df "Admin Expense(D)" i
        = cell df "Revenue(A)" i
          * nth (i - 1) (ProfitLoss.management_expense_ratios w) 0 /\
      cell df "Financial Expense(E)" i
        = cell df "Revenue(A)" i
          * nth (i - 1) (ProfitLoss.financial_expense_ratios w) 0 /\
      cell df "Gross Profit(A-B)" i
        = cell df "Revenue(A)" i - cell df "Cost(B)" i /\
      cell df "Net Profit(A-B-C-D-E)" i
        = cell df "Revenue(A)" i - cell df "Cost(B)" i
          - cell df "Selling Expense(C)" i - cell df "Admin Expense(D)" i
          - cell df "Financial Expense(E)" i.
Proof.
  pose proof Hsection as H.
  unfold ProfitLoss.section in H.
  destruct (ProfitLoss.generate_button w) eqn:Hb; [|discriminate].
  destruct (getitem h "Revenue(A)") as [revenue0|] eqn:H1; [|discriminate].
  destruct (getitem h "Cost(B)") as [cost0|] eqn:H2; [|discriminate].
  destruct (getitem h "Selling Expense(C)") as [sales0|] eqn:H3; [|discriminate].
  destruct (getitem h "Admin Expense(D)") as [management0|] eqn:H4;
    [|discriminate].
  destruct (getitem h "Financial Expense(E)") as [financial0|] eqn:H5;
    [|discriminate].
  exists revenue0, cost0, sales0, management0, financial0.
  destruct w as [g c sl mg fn b].
  evaluate_in H. decide_divisors H.
  injection H as <- <-.
  repeat split; try reflexivity;
    try (repeat constructor);
    try (destruct i as [|[|[|[|]]]]; try lia; reflexivity).
Qed.

End ProfitLossForecast.

(** ** Balance sheet section *)

Lemma bs_generated_inv pl w df m :
  BalanceSheet.create_balance_sheet_section pl w = BalanceSheet.Generated df m ->
  BalanceSheet.generate_button w = true /\
  BalanceSheet.forecast pl w = Ok df /\
  BalanceSheet.key_metrics df = Ok m.
Proof.
  unfold BalanceSheet.create_balance_sheet_section.
  destruct (BalanceSheet.generate_button w); [|discriminate].
  destruct (BalanceSheet.forecast pl w) as [df'|];
    cbn [Py.bind]; [|discriminate].
  destruct (BalanceSheet.key_metrics df') as [m'|] eqn:Hm; cbn [Py.bind];
    [|discriminate].
  cbv beta iota. intros H. injection H as <- <-. repeat split. exact Hm.
Qed.

(** The period-0 amount of a line item of the balance sheet. *)
Ltac historical_cell Hhist k v :=
  let E := fresh "E" in
  assert (E : cell _ k 0 = v) by (apply Hhist; simpl; tauto).

(** C1: every balance sheet that [create_balance_sheet_section] produces has,
    in each of the periods 0 to 3, Total Assets equal to Total Liabilities
    plus Total Equity, and Cash equal to that total minus Receivables,
    Prepayments and Fixed Assets. *)
Theorem balance_sheet_balances pl w df m :
  BalanceSheet.create_balance_sheet_section pl w = BalanceSheet.Generated df m ->
  shape df bs_labels 4 /\
  forall i, (i <= 3)%nat ->
    cell df "Total Assets(F+G+H+I)" i
      == cell df "Total Liabilities(J+K)" i + cell df "Total Equity(L+M)" i /\
    cell df "Cash(F)" i
      == (cell df "Total Liabilities(J+K)" i + cell df "Total Equity(L+M)" i)
         - (cell df "Accounts Receivable(G)" i + cell df "Prepayments(H)" i
            + cell df "Fixed Assets(I)" i).
Proof.
  intros H. apply bs_generated_inv in H. destruct H as (_ & H & _).
  destruct (bs_forecast_spec pl w df H)
    as (revenues & costs & net_profits & _ & _ & _ & _ & _ & _
        & Hshape & Hhist & Hyear).
  split; [exact Hshape|].
  intros i Hi. destruct (Nat.eq_dec i 0) as [->|Hpos].
  - historical_cell Hhist "Total Assets(F+G+H+I)" 1392.00.
    historical_cell Hhist "Total Liabilities(J+K)" 130.00.
    historical_cell Hhist "Total Equity(L+M)" 1262.00.
    historical_cell Hhist "Cash(F)" 1260.00.
    historical_cell Hhist "Accounts Receivable(G)" 110.00.
    historical_cell Hhist "Prepayments(H)" 6.00.
    historical_cell Hhist "Fixed Assets(I)" 16.00.
    rewrite E, E0, E1, E2, E3, E4, E5. split; reflexivity.
  - destruct (Hyear i ltac:(lia))
      as (_ & _ & _ & _ & _ & _ & _ & _ & _ & _ & Hta & Hcash).
    rewrite Hta, Hcash. split; reflexivity.
Qed.

(** C8: in every balance sheet produced, for each forecast period 1 to 3,
    Share Capital is the previous period's plus the capital increase in
    period 1 and plus nothing in periods 2 and 3, and Retained Earnings is
    the previous period's plus the P&L net profit of the period. *)
Theorem capital_increase_in_period_1_only pl w df m :
  BalanceSheet.create_balance_sheet_section pl w = BalanceSheet.Generated df m ->
  forall i, (1 <= i <= 3)%nat ->
    cell df "Share Capital(L)" i
      == cell df "Share Capital(L)" (i - 1)
         + (if Nat.eqb i 1 then BalanceSheet.capital_increase w else 0) /\
    cell df "Retained Earnings(M)" i
      == cell df "Retained Earnings(M)" (i - 1)
         + cell pl "Net Profit(A-B-C-D-E)" i.
Proof.
  intros H i Hi. apply bs_generated_inv in H. destruct H as (_ & H & _).
  destruct (bs_forecast_spec pl w df H)
    as (revenues & costs & net_profits & _ & _ & Hn & _ & _ & _
        & _ & _ & Hyear).
  destruct (Hyear i Hi) as (_ & _ & _ & _ & _ & _ & Hcap & Hre & _).
  rewrite Hcap, Hre. unfold cell at 5. rewrite Hn. split; reflexivity.
Qed.

(** C9: two balance sheets produced from the same P&L table with fixed-asset
    growth rates [g1 < g2], both in the slider's range from 0 to 0.5, have
    strictly larger Fixed Assets under [g2] in each forecast period 1 to 3.
    The other assumptions play no part. *)
Theorem fixed_assets_increase_with_growth pl w1 w2 df1 m1 df2 m2 :
  BalanceSheet.create_balance_sheet_section pl w1 = BalanceSheet.Generated df1 m1 ->
  BalanceSheet.create_balance_sheet_section pl w2 = BalanceSheet.Generated df2 m2 ->
  0 <= BalanceSheet.fixed_asset_growth w1 ->
  BalanceSheet.fixed_asset_growth w1 < BalanceSheet.fixed_asset_growth w2 ->
  BalanceSheet.fixed_asset_growth w2 <= 0.5 ->
  forall i, (1 <= i <= 3)%nat ->
    cell df1 "Fixed Assets(I)" i < cell df2 "Fixed Assets(I)" i.
Proof.
  intros H1 H2 Hg0 Hg Hg2.
  apply bs_generated_inv in H1. destruct H1 as (_ & H1 & _).
  apply bs_generated_inv in H2. destruct H2 as (_ & H2 & _).
  destruct (bs_forecast_spec pl w1 df1 H1)
    as (? & ? & ? & _ & _ & _ & _ & _ & _ & _ & Hhist1 & Hyear1).
  destruct (bs_forecast_spec pl w2 df2 H2)
    as (? & ? & ? & _ & _ & _ & _ & _ & _ & _ & Hhist2 & Hyear2).
  historical_cell Hhist1 "Fixed Assets(I)" 16.00.
  historical_cell Hhist2 "Fixed Assets(I)" 16.00.
  destruct (Hyear1 1%nat ltac:(lia)) as (_ & _ & A1 & _).
  destruct (Hyear1 2%nat ltac:(lia)) as (_ & _ & A2 & _).
  destruct (Hyear1 3%nat ltac:(lia)) as (_ & _ & A3 & _).
  destruct (Hyear2 1%nat ltac:(lia)) as (_ & _ & B1 & _).
  destruct (Hyear2 2%nat ltac:(lia)) as (_ & _ & B2 & _).
  destruct (Hyear2 3%nat ltac:(lia)) as (_ & _ & B3 & _).
  simpl Nat.sub in *.
  set (g1 := BalanceSheet.fixed_asset_growth w1) in *.
  set (g2 := BalanceSheet.fixed_asset_growth w2) in *.
  rewrite E in A1. rewrite E0 in B1.
  assert (P1 : 0 < cell df1 "Fixed Assets(I)" 1) by (rewrite A1; nra).
  assert (L1 : cell df1 "Fixed Assets(I)" 1 < cell df2 "Fixed Assets(I)" 1)
    by (rewrite A1, B1; nra).
  assert (P2 : 0 < cell df1 "Fixed Assets(I)" 2) by (rewrite A2; nra).
  assert (L2 : cell df1 "Fixed Assets(I)" 2 < cell df2 "Fixed Assets(I)" 2)
    by (rewrite A2, B2; nra).
  assert (L3 : cell df1 "Fixed Assets(I)" 3 < cell df2 "Fixed Assets(I)" 3)
    by (rewrite A3, B3; nra).
  intros i Hi.
  destruct i as [|[|[|[|]]]]; try lia; assumption.
Qed.

(** ** Profit and loss section *)

(** C2: in every P&L table produced, for each forecast period 1 to 3,
    Revenue is the previous Revenue times one plus the period's growth rate,
    Cost and the three expenses are Revenue times the period's ratio, Gross
    Profit is Revenue minus Cost and Net Profit is Revenue minus Cost and
    the three expenses.  With the sliders at 15, 60, 10, 7 and 2 percent in
    every year the Revenue row is 1000, 1150, 1322.5, 1520.875 and the Net
    Profit of period 1 is 241.5. *)
Theorem profit_loss_formulas :
  (forall w df m,
     ProfitLoss.create_profit_loss_section w = Ok (Some (df, m)) ->
     shape df pl_labels 4 /\
     forall i, (1 <= i <= 3)%nat ->
       cell df "Revenue(A)" i
         == cell df "Revenue(A)" (i - 1)
            * (1 + nth (i - 1) (ProfitLoss.revenue_growth_rates w) 0) /\
       cell df "Cost(B)" i
         == cell df "Revenue(A)" i * nth (i - 1) (ProfitLoss.cost_ratios w) 0 /\
       cell df "Selling Expense(C)" i
         == cell df "Revenue(A)" i
            * nth (i - 1) (ProfitLoss.sales_expense_ratios w) 0 /\
       cell df "Admin Expense(D)" i
         == cell df "Revenue(A)" i
            * nth (i - 1) (ProfitLoss.management_expense_ratios w) 0 /\
       cell df "Financial Expense(E)" i
         == cell df "Revenue(A)" i
            * nth (i - 1) (ProfitLoss.financial_expense_ratios w) 0 /\
       cell df "Gross Profit(A-B)" i
         == cell df "Revenue(A)" i - cell df "Cost(B)" i /\
       cell df "Net Profit(A-B-C-D-E)" i
         == cell df "Revenue(A)" i - cell df "Cost(B)" i
            - cell df "Selling Expense(C)" i - cell df "Admin Expense(D)" i
            - cell df "Financial Expense(E)" i) /\
  (let w := ProfitLoss.default_widgets true in
   Forall2 Qeq (ProfitLoss.revenue_growth_rates w) [0.15; 0.15; 0.15] /\
   Forall2 Qeq (ProfitLoss.cost_ratios w) [0.6; 0.6; 0.6] /\
   Forall2 Qeq (ProfitLoss.sales_expense_ratios w) [0.10; 0.10; 0.10] /\
   Forall2 Qeq (ProfitLoss.management_expense_ratios w) [0.07; 0.07; 0.07] /\
   Forall2 Qeq (ProfitLoss.financial_expense_ratios w) [0.02; 0.02; 0.02] /\
   exists df m revenues,
     ProfitLoss.create_profit_loss_section w = Ok (Some (df, m)) /\
     loc df "Revenue(A)" = Ok revenues /\
     Forall2 Qeq revenues [1000; 1150; 1322.5; 1520.875] /\
     cell df "Net Profit(A-B-C-D-E)" 1 == 241.5).
Proof.
  split.
  - intros w df m H.
    destruct (pl_section_spec _ w df m H)
      as (r0 & c0 & s0 & m0 & f0 & _ & _ & _ & _ & _ & _ & Hshape
          & _ & _ & _ & _ & _ & _ & _ & Hyear).
    split; [exact Hshape|].
    intros i Hi.
    destruct (Hyear i Hi) as (A & B & C & D & E & F & G).
    rewrite A at 1. rewrite B at 1. rewrite C at 1. rewrite D at 1.
    rewrite E at 1. rewrite F at 1. rewrite G at 1.
    repeat split; reflexivity.
  - cbv zeta.
    repeat (split; [repeat constructor; reflexivity|]).
    eexists _, _, _.
    split; [vm_compute; reflexivity|].
    split; [vm_compute; reflexivity|].
    split; [repeat constructor; reflexivity|].
    vm_compute. reflexivity.
Qed.

(** ** Cash flow section *)

Lemma cf_shown_inv pl bs w s :
  CashFlow.create_cash_flow_section pl bs w = CashFlow.Shown s ->
  CashFlow.generate_button w = true /\ CashFlow.forecast pl bs w = Ok s.
Proof.
  unfold CashFlow.create_cash_flow_section.
  destruct (CashFlow.generate_button w); [|discriminate].
  destruct (CashFlow.forecast pl bs w) as [s'|] eqn:Hs; [|discriminate].
  intros H. injection H as <-. split; reflexivity.
Qed.

(** C3: whenever the cash flow statement is shown, Depreciation is Fixed
    Assets times the depreciation rate in each period 0 to 3; period 0 has
    Operating CF = Net Profit + Depreciation and Investing CF = Financing
    CF = 0; each forecast period 1 to 3 has the Operating, Investing and
    Financing CF given by the differences against the previous period; and
    Net CF is the sum of the three in every period.  With Net Profit 200
    and Fixed Assets 16 in period 0 and a rate of 0.10, period 0 has
    Depreciation 1.6, Operating CF 201.6, Investing and Financing CF 0 and
    Net CF 201.6. *)
Theorem cash_flow_formulas pl bs w s :
  CashFlow.create_cash_flow_section pl bs w = CashFlow.Shown s ->
  let cf := CashFlow.cash_flow_df s in
  let dep i := nth i (CashFlow.depreciation s) 0 in
  shape cf cf_labels 4 /\
  (forall i, (i <= 3)%nat ->
     dep i == cell bs "Fixed Assets(I)" i * CashFlow.depreciation_rate w) /\
  cell cf "Operating Cash Flow(N)" 0
    == cell pl "Net Profit(A-B-C-D-E)" 0 + dep 0%nat /\
  cell cf "Investing Cash Flow(O)" 0 == 0 /\
  cell cf "Financing Cash Flow(P)" 0 == 0 /\
  (forall i, (1 <= i <= 3)%nat ->
     cell cf "Operating Cash Flow(N)" i
       == cell pl "Net Profit(A-B-C-D-E)" i + dep i
          - (cell bs "Accounts Receivable(G)" i
             - cell bs "Accounts Receivable(G)" (i - 1))
          - (cell bs "Prepayments(H)" i - cell bs "Prepayments(H)" (i - 1))
          + (cell bs "Accounts Payable(J)" i
             - cell bs "Accounts Payable(J)" (i - 1))
          + (cell bs "Advances from Customers(K)" i
             - cell bs "Advances from Customers(K)" (i - 1)) /\
     cell cf "Investing Cash Flow(O)" i
       == - (cell bs "Fixed Assets(I)" i - cell bs "Fixed Assets(I)" (i - 1)
             + dep i) /\
     cell cf "Financing Cash Flow(P)" i
       == cell bs "Share Capital(L)" i - cell bs "Share Capital(L)" (i - 1)) /\
  (forall i, (i <= 3)%nat ->
     cell cf "**Net Cash Flow(N+O+P)**" i
       == cell cf "Operating Cash Flow(N)" i
          + cell cf "Investing Cash Flow(O)" i
          + cell cf "Financing Cash Flow(P)" i) /\
  (cell pl "Net Profit(A-B-C-D-E)" 0 == 200 ->
   cell bs "Fixed Assets(I)" 0 == 16 ->
   CashFlow.depreciation_rate w == 0.10 ->
   dep 0%nat == 1.6 /\
   cell cf "Operating Cash Flow(N)" 0 == 201.6 /\
   cell cf "Investing Cash Flow(O)" 0 == 0 /\
   cell cf "Financing Cash Flow(P)" 0 == 0 /\
   cell cf "**Net Cash Flow(N+O+P)**" 0 == 201.6).
Proof.
  intros H. apply cf_shown_inv in H. destruct H as (_ & H).
  destruct (cf_forecast_spec pl bs w s H)
    as (Hshape & Hdep & Hop0 & Hinv0 & Hfin0 & Hyear & Hnet & _).
  cbv zeta.
  split; [exact Hshape|].
  split; [intros i Hi; rewrite (Hdep i Hi); reflexivity|].
  split; [rewrite Hop0; reflexivity|].
  split; [rewrite Hinv0; reflexivity|].
  split; [rewrite Hfin0; reflexivity|].
  split.
  { intros i Hi. destruct (Hyear i Hi) as (A & B & C).
    rewrite A, B, C. repeat split; reflexivity. }
  split; [intros i Hi; rewrite (Hnet i Hi); reflexivity|].
  intros Hnp Hfa Hrate.
  assert (D0 : nth 0 (CashFlow.depreciation s) 0 == 1.6).
  { rewrite (Hdep 0%nat ltac:(lia)), Hfa, Hrate. reflexivity. }
  assert (O0 : cell (CashFlow.cash_flow_df s) "Operating Cash Flow(N)" 0
               == 201.6).
  { rewrite Hop0, Hnp, D0. reflexivity. }
  split; [exact D0|].
  split; [exact O0|].
  split; [rewrite Hinv0; reflexivity|].
  split; [rewrite Hfin0; reflexivity|].
  rewrite (Hnet 0%nat ltac:(lia)), O0, Hinv0, Hfin0. reflexivity.
Qed.

(** ** Orchestrator *)

Lemma in_step_reset : in_step Main.reset_all_data.
Proof.
  unfold in_step; cbn.
  repeat split; try discriminate; try congruence.
Qed.

Lemma bs_returned_inv o bs :
  BalanceSheet.returned o = Some bs ->
  exists m, o = BalanceSheet.Generated bs m.
Proof.
  destruct o as [|df m|e]; cbn; try discriminate.
  intros H. injection H as <-. exists m. reflexivity.
Qed.

Lemma in_step_tab1 pl_result s :
  in_step s ->
  (forall pl, pl_result = Some pl ->
     exists w m, ProfitLoss.create_profit_loss_section w = Ok (Some (pl, m))) ->
  in_step (Main.tab1 pl_result s).
Proof.
  intros Hs Hpl. destruct pl_result as [pl|]; [|exact Hs].
  unfold in_step; cbn.
  repeat split; try discriminate; try congruence.
  intros pl' H. injection H as <-. apply Hpl. reflexivity.
Qed.

Lemma in_step_tab2 ui s : in_step s -> in_step (fst (Main.tab2 ui s)).
Proof.
  intros Hs. unfold Main.tab2.
  destruct (Main.is_pl_generated s) eqn:Hflag; [|exact Hs].
  cbn [fst].
  destruct (BalanceSheet.returned
              (Main.call_balance_sheet (Main.profit_loss_data s)
                 (Main.bs_widgets ui))) as [bs|] eqn:Hret; [|exact Hs].
  destruct Hs as (Hpl & Hbs & Hprov & Hfresh).
  apply bs_returned_inv in Hret. destruct Hret as (m & Hgen).
  unfold in_step; cbn.
  split; [split; [intros _; apply Hpl; exact Hflag|reflexivity]|].
  split; [split; [discriminate|reflexivity]|].
  split; [exact Hprov|].
  intros bs' H. injection H as <-.
  destruct (Main.profit_loss_data s) as [pl|] eqn:Hdata.
  - exists pl, (Main.bs_widgets ui), m. split; [reflexivity|exact Hgen].
  - cbn in Hgen. destruct (BalanceSheet.generate_button (Main.bs_widgets ui));
      discriminate.
Qed.

Lemma tab3_state ui s : fst (Main.tab3 ui s) = s.
Proof.
  unfold Main.tab3.
  destruct (Main.is_pl_generated s), (Main.is_bs_generated s); reflexivity.
Qed.

Lemma in_step_sidebar ui s : in_step s -> in_step (Main.sidebar ui s).
Proof.
  intros Hs. unfold Main.sidebar.
  destruct (Main.reset_button ui); [apply in_step_reset|exact Hs].
Qed.

(** The state a run leaves, tab by tab. *)
Lemma run_state s ui pl_result :
  ProfitLoss.create_profit_loss_section (Main.pl_widgets ui) = Ok pl_result ->
  Main.state_after (Main.run s ui)
    = Main.sidebar ui
        (fst (Main.tab3 ui
                (fst (Main.tab2 ui (Main.tab1 (option_map fst pl_result) s))))) /\
  Main.events (Main.run s ui)
    = snd (Main.tab2 ui (Main.tab1 (option_map fst pl_result) s))
      ++ snd (Main.tab3 ui
                (fst (Main.tab2 ui (Main.tab1 (option_map fst pl_result) s)))) /\
  Main.uncaught (Main.run s ui) = None.
Proof.
  intros H. unfold Main.run. rewrite H.
  destruct (Main.tab2 ui (Main.tab1 (option_map fst pl_result) s))
    as [s2 events2].
  cbn [fst snd].
  destruct (Main.tab3 ui s2) as [s3 events3].
  cbn. repeat split.
Qed.

Lemma run_raise s ui e :
  ProfitLoss.create_profit_loss_section (Main.pl_widgets ui) = Raise e ->
  Main.run s ui
    = {| Main.state_after := s; Main.events := []; Main.uncaught := Some e |}.
Proof. intros H. unfold Main.run. rewrite H. reflexivity. Qed.

Lemma in_step_run s ui : in_step s -> in_step (Main.state_after (Main.run s ui)).
Proof.
  intros Hs.
  destruct (ProfitLoss.create_profit_loss_section (Main.pl_widgets ui))
    as [pl_result|e] eqn:Hpl.
  - destruct (run_state s ui pl_result Hpl) as (-> & _).
    apply in_step_sidebar. rewrite tab3_state. apply in_step_tab2.
    apply in_step_tab1; [exact Hs|].
    intros pl Hsome. destruct pl_result as [[pl' m]|]; [|discriminate].
    cbn in Hsome. injection Hsome as ->.
    exists (Main.pl_widgets ui), m. exact Hpl.
  - rewrite (run_raise s ui e Hpl). exact Hs.
Qed.

Lemma reachable_in_step s : Main.reachable s -> in_step s.
Proof.
  induction 1 as [|s ui Hreach IH].
  - apply in_step_reset.
  - apply in_step_run. exact IH.
Qed.

Lemma tab2_profit_loss_data ui s :
  Main.profit_loss_data (fst (Main.tab2 ui s)) = Main.profit_loss_data s.
Proof.
  unfold Main.tab2. destruct (Main.is_pl_generated s); [|reflexivity].
  cbn [fst].
  destruct (BalanceSheet.returned _); reflexivity.
Qed.

Lemma tab2_events ui s ev :
  In ev (snd (Main.tab2 ui s)) ->
  (Main.is_pl_generated s = true /\
   ev = Main.BalanceSheetCall (Main.profit_loss_data s)
          (Main.call_balance_sheet (Main.profit_loss_data s) (Main.bs_widgets ui)))
  \/ exists message, ev = Main.Info message.
Proof.
  unfold Main.tab2. destruct (Main.is_pl_generated s); cbn [snd In].
  - intros [<-|[]]. left. split; reflexivity.
  - intros [<-|[]]. right. eexists. reflexivity.
Qed.

Lemma tab3_events ui s ev :
  In ev (snd (Main.tab3 ui s)) ->
  (Main.is_pl_generated s = true /\ Main.is_bs_generated s = true /\
   ev = Main.CashFlowCall (Main.profit_loss_data s) (Main.balance_sheet_data s)
          (Main.call_cash_flow (Main.profit_loss_data s)
             (Main.balance_sheet_data s) (Main.cf_widgets ui)))
  \/ exists message, ev = Main.Info message.
Proof.
  unfold Main.tab3.
  destruct (Main.is_pl_generated s), (Main.is_bs_generated s); cbn [snd In andb negb].
  - intros [<-|[]]. left. repeat split.
  - intros [<-|[]]. right. eexists. reflexivity.
  - intros [<-|[]]. right. eexists. reflexivity.
  - intros [<-|[]]. right. eexists. reflexivity.
Qed.

(** The balance sheet that [tab2] stores next to a P&L table for which no
    balance sheet was stored. *)
Lemma tab2_generates ui s pl :
  Main.profit_loss_data s = Some pl ->
  Main.is_bs_generated s = false ->
  Main.is_bs_generated (fst (Main.tab2 ui s)) = true ->
  exists bs m,
    Main.balance_sheet_data (fst (Main.tab2 ui s)) = Some bs /\
    BalanceSheet.create_balance_sheet_section pl (Main.bs_widgets ui)
      = BalanceSheet.Generated bs m.
Proof.
  intros Hpl Hbs. unfold Main.tab2.
  destruct (Main.is_pl_generated s); cbn [fst]; [|congruence].
  rewrite Hpl. cbn [Main.call_balance_sheet].
  destruct (BalanceSheet.create_balance_sheet_section pl (Main.bs_widgets ui))
    as [|bs m|e]; cbn; try congruence.
  intros _. exists bs, m. split; reflexivity.
Qed.

(** C7: in every run from a reachable session state, the balance sheet
    section is called only with a stored P&L table that the P&L section
    returned, the cash flow section is called only with a stored P&L table
    and a stored balance sheet that the balance sheet section generated
    from that same P&L table, and a run in which the P&L section returns a
    new table clears the stored balance sheet and its flag in [tab1], so
    that every downstream call of the run reads the new table and a balance
    sheet generated from it in this run. *)
Theorem downstream_reads_current_upstream s ui :
  Main.reachable s ->
  let r := Main.run s ui in
  (forall arg o,
     In (Main.BalanceSheetCall arg o) (Main.events r) ->
     exists pl w m,
       arg = Some pl /\
       ProfitLoss.create_profit_loss_section w = Ok (Some (pl, m))) /\
  (forall arg1 arg2 o,
     In (Main.CashFlowCall arg1 arg2 o) (Main.events r) ->
     exists pl bs w m w' m',
       arg1 = Some pl /\ arg2 = Some bs /\
       ProfitLoss.create_profit_loss_section w = Ok (Some (pl, m)) /\
       BalanceSheet.create_balance_sheet_section pl w'
         = BalanceSheet.Generated bs m') /\
  (forall pl_new m,
     ProfitLoss.create_profit_loss_section (Main.pl_widgets ui)
       = Ok (Some (pl_new, m)) ->
     let s1 := Main.tab1 (Some pl_new) s in
     Main.profit_loss_data s1 = Some pl_new /\
     Main.balance_sheet_data s1 = None /\
     Main.is_bs_generated s1 = false /\
     (forall arg o,
        In (Main.BalanceSheetCall arg o) (Main.events r) -> arg = Some pl_new) /\
     (forall arg1 arg2 o,
        In (Main.CashFlowCall arg1 arg2 o) (Main.events r) ->
        arg1 = Some pl_new /\
        exists bs m',
          arg2 = Some bs /\
          BalanceSheet.create_balance_sheet_section pl_new (Main.bs_widgets ui)
            = BalanceSheet.Generated bs m')) /\
  in_step (Main.state_after r).
Proof.
  intros Hreach. apply reachable_in_step in Hreach.
  cbv zeta.
  destruct (ProfitLoss.create_profit_loss_section (Main.pl_widgets ui))
    as [pl_result|e] eqn:Hpl.
  2:{ rewrite (run_raise s ui e Hpl). cbn [Main.events Main.state_after In].
      split; [|split; [|split]]; try contradiction; try discriminate.
      exact Hreach. }
  destruct (run_state s ui pl_result Hpl) as (Hstate & Hevents & _).
  set (s1 := Main.tab1 (option_map fst pl_result) s) in *.
  set (s2 := fst (Main.tab2 ui s1)) in *.
  assert (H1 : in_step s1).
  { apply in_step_tab1; [exact Hreach|].
    intros pl Hsome. destruct pl_result as [[pl' m]|]; [|discriminate].
    cbn in Hsome. injection Hsome as ->.
    exists (Main.pl_widgets ui), m. exact Hpl. }
  assert (H2 : in_step s2) by (apply in_step_tab2; exact H1).
  assert (Hbs_call : forall arg o,
             In (Main.BalanceSheetCall arg o) (Main.events (Main.run s ui)) ->
             Main.is_pl_generated s1 = true /\ arg = Main.profit_loss_data s1).
  { intros arg o Hin. rewrite Hevents in Hin. apply in_app_or in Hin.
    destruct Hin as [Hin|Hin].
    - apply tab2_events in Hin. destruct Hin as [(Hflag & Heq)|(msg & Heq)];
        [|discriminate]. injection Heq as -> _. split; [exact Hflag|reflexivity].
    - apply tab3_events in Hin.
      destruct Hin as [(_ & _ & Heq)|(msg & Heq)]; discriminate. }
  assert (Hcf_call : forall arg1 arg2 o,
             In (Main.CashFlowCall arg1 arg2 o) (Main.events (Main.run s ui)) ->
             Main.is_bs_generated s2 = true /\
             arg1 = Main.profit_loss_data s2 /\
             arg2 = Main.balance_sheet_data s2).
  { intros arg1 arg2 o Hin. rewrite Hevents in Hin. apply in_app_or in Hin.
    destruct Hin as [Hin|Hin].
    - apply tab2_events in Hin. destruct Hin as [(_ & Heq)|(msg & Heq)];
        discriminate.
    - apply tab3_events in Hin.
      destruct Hin as [(_ & Hflag & Heq)|(msg & Heq)]; [|discriminate].
      injection Heq as -> -> _. repeat split. exact Hflag. }
  split; [|split; [|split]].
  - intros arg o Hin. destruct (Hbs_call arg o Hin) as (Hflag & ->).
    destruct H1 as (Hpl1 & _ & Hprov & _).
    destruct (Main.profit_loss_data s1) as [pl|] eqn:Hdata.
    + destruct (Hprov pl eq_refl) as (w & m & Hw). exists pl, w, m.
      split; [reflexivity|exact Hw].
    + exfalso. apply Hpl1 in Hflag. apply Hflag. reflexivity.
  - intros arg1 arg2 o Hin. destruct (Hcf_call arg1 arg2 o Hin) as (Hflag & -> & ->).
    destruct H2 as (_ & Hbs2 & Hprov & Hfresh).
    destruct (Main.balance_sheet_data s2) as [bs|] eqn:Hdata.
    + destruct (Hfresh bs eq_refl) as (pl & w' & m' & Hpl2 & Hgen).
      destruct (Hprov pl Hpl2) as (w & m & Hw).
      exists pl, bs, w, m, w', m'. rewrite Hpl2. repeat split; assumption.
    + exfalso. apply Hbs2 in Hflag. apply Hflag. reflexivity.
  - intros pl_new m Hnew. injection Hnew as ->.
    cbn [option_map fst] in *.
    split; [reflexivity|]. split; [reflexivity|]. split; [reflexivity|].
    split.
    + intros arg o Hin. destruct (Hbs_call arg o Hin) as (_ & ->). reflexivity.
    + intros arg1 arg2 o Hin.
      destruct (Hcf_call arg1 arg2 o Hin) as (Hflag & -> & ->).
      split; [unfold s2; rewrite tab2_profit_loss_data; reflexivity|].
      destruct (tab2_generates ui s1 pl_new eq_refl eq_refl Hflag)
        as (bs & m' & Hdata & Hgen).
      exists bs, m'. split; assumption.
  - rewrite Hstate. apply in_step_sidebar. rewrite tab3_state. exact H2.
Qed.

(** ** Divisions *)

(** [x / 100] as a product, for linear arithmetic. *)
Ltac percent := unfold Qdiv in *; change (/ 100) with (1 # 100) in *.

(** For slider values the P&L section never raises: every revenue is at
    least the historical 1000. *)
Lemma pl_generates w :
  ProfitLoss.slider_bounds w ->
  ProfitLoss.generate_button w = true ->
  exists df m,
    ProfitLoss.create_profit_loss_section w = Ok (Some (df, m)) /\
    forall i, (i <= 3)%nat -> 1000 <= cell df "Revenue(A)" i.
Proof.
  intros Hb Hclick.
  destruct (Hb "2024E" ltac:(simpl; tauto)) as ((G1 & _) & _).
  destruct (Hb "2025E" ltac:(simpl; tauto)) as ((G2 & _) & _).
  destruct (Hb "2026E" ltac:(simpl; tauto)) as ((G3 & _) & _).
  clear Hb. destruct w as [g c sl mg fn b].
  cbn [ProfitLoss.revenue_growth_ ProfitLoss.generate_button] in *. subst b.
  assert (P1 : 1000 <= 1000 * (1 + g "2024E" / 100)) by (percent; lra).
  assert (P2 : 1000 <= 1000 * (1 + g "2024E" / 100) * (1 + g "2025E" / 100))
    by (percent; nra).
  assert (P3 : 1000 <= 1000 * (1 + g "2024E" / 100) * (1 + g "2025E" / 100)
                       * (1 + g "2026E" / 100))
    by (percent; nra).
  unfold ProfitLoss.create_profit_loss_section, ProfitLoss.section.
  evaluate.
  repeat match goal with
         | |- context [Qeq_bool ?a 0] =>
             let E := fresh "E" in
             destruct (Qeq_bool a 0) eqn:E;
             [apply Qeq_bool_iff in E; exfalso; percent; lra|]
         end.
  eexists _, _. split; [reflexivity|].
  intros i Hi. unfold cell.
  destruct i as [|[|[|[|]]]]; try lia; evaluate; percent; lra.
Qed.

Lemma getitem_raise {V : Type} (d : dict V) key e :
  getitem d key = Raise e -> e = KeyError key.
Proof.
  induction d as [|[k v] d IH]; cbn.
  - intros H. injection H as <-. reflexivity.
  - destruct (String.eqb k key); [discriminate|exact IH].
Qed.

Lemma index_raise a i e : index a i = Raise e -> e = IndexError.
Proof.
  unfold index. destruct (nth_error a i); [discriminate|].
  intros H. injection H as <-. reflexivity.
Qed.

Ltac raise_inv H :=
  cbv zeta in H;
  lazymatch type of H with
  | Py.bind ?c _ = Raise _ =>
      let E := fresh "E" in
      destruct c eqn:E; cbn [Py.bind] in H;
      [raise_inv H | injection H as <-; raise_inv E]
  | loc _ _ = Raise _ =>
      apply getitem_raise in H; subst; discriminate
  | index _ _ = Raise _ =>
      apply index_raise in H; subst; discriminate
  | for_range _ _ _ = Raise _ =>
      cbn [for_range seq] in H; raise_inv H
  | CashFlow.forecast_year _ _ _ _ _ _ _ _ _ _ = Raise _ =>
      unfold CashFlow.forecast_year in H; raise_inv H
  | Ok _ = Raise _ => discriminate H
  end.

(** The cash flow section divides only behind a [!= 0] test: it raises no
    [ZeroDivisionError]. *)
Lemma cf_never_divides_by_zero pl bs w e :
  CashFlow.create_cash_flow_section pl bs w = CashFlow.Failed e ->
  not_a_division e.
Proof.
  unfold CashFlow.create_cash_flow_section, not_a_division.
  destruct (CashFlow.generate_button w); [|discriminate].
  destruct (CashFlow.forecast pl bs w) as [s|e'] eqn:H; [discriminate|].
  intros Heq. injection Heq as ->.
  unfold CashFlow.forecast in H.
  raise_inv H.
Qed.

(** ** Concrete runs *)

Example default_pl_generated :
  ProfitLoss.create_profit_loss_section (ProfitLoss.default_widgets true)
  = Ok (Some (default_pl, default_pl_metrics)).
Proof. vm_compute. reflexivity. Qed.

Example default_bs_generated :
  BalanceSheet.create_balance_sheet_section default_pl
    (BalanceSheet.default_widgets true)
  = BalanceSheet.Generated default_bs default_bs_metrics.
Proof. vm_compute. reflexivity. Qed.

Example faster_growth_bs_generated :
  BalanceSheet.create_balance_sheet_section default_pl faster_growth_widgets
  = BalanceSheet.Generated faster_growth_bs faster_growth_metrics.
Proof. vm_compute. reflexivity. Qed.

Example default_cf_shown :
  CashFlow.create_cash_flow_section default_pl default_bs default_cf_widgets
  = CashFlow.Shown default_cf.
Proof. vm_compute. reflexivity. Qed.

Example first_run_state :
  Main.state_after (Main.run Main.reset_all_data first_run) = default_session.
Proof. vm_compute. reflexivity. Qed.

(** ** Period 0 *)

(** C4: the period-0 column of every generated statement equals the
    historical baseline.  In every P&L table the section returns, each of
    the seven line items of period 0, Gross Profit and Net Profit included,
    has the value of its entry in [historical_data], whatever the sliders
    are; in every balance sheet the section generates, each of the twelve
    line items of period 0 is its entry in [historical_bs], whatever the
    P&L table and the sliders are. *)
Theorem period_0_is_historical :
  (forall w df m,
     ProfitLoss.create_profit_loss_section w = Ok (Some (df, m)) ->
     forall k v, In (k, v) ProfitLoss.historical_data -> cell df k 0 == v) /\
  (forall pl w df m,
     BalanceSheet.create_balance_sheet_section pl w
       = BalanceSheet.Generated df m ->
     forall k v, In (k, v) BalanceSheet.historical_bs -> cell df k 0 = v).
Proof.
  split.
  - intros w df m H.
    destruct (pl_section_spec _ w df m H)
      as (r0 & c0 & s0 & m0 & f0 & H1 & H2 & H3 & H4 & H5 & _ & _
          & E1 & E2 & E3 & E4 & E5 & E6 & E7 & _).
    cbn in H1, H2, H3, H4, H5.
    injection H1 as <-. injection H2 as <-. injection H3 as <-.
    injection H4 as <-. injection H5 as <-.
    intros k v Hin. simpl in Hin.
    repeat (destruct Hin as [Hin|Hin];
            [injection Hin as <- <-;
             first [rewrite E1|rewrite E2|rewrite E3|rewrite E4|rewrite E5
                   |rewrite E6|rewrite E7]; reflexivity|]).
    contradiction.
  - intros pl w df m H. apply bs_generated_inv in H. destruct H as (_ & H & _).
    destruct (bs_forecast_spec pl w df H)
      as (? & ? & ? & _ & _ & _ & _ & _ & _ & _ & Hhist & _).
    exact Hhist.
Qed.

(** ** Zero denominators *)

(** C5, as the code has it: in the cash flow section a period with Net
    Profit 0 has the operating-CF to net-profit ratio 0, a period with
    Operating CF 0 has the CAPEX to operating-CF ratio 0, the other periods
    have the quotient, and no division by zero is raised.  The P&L section
    has no such test: for slider values every Revenue is at least 1000, the
    section raises nothing and returns its table. *)
Theorem zero_denominators_in_cash_flow_and_pl :
  (forall pl bs w s,
     CashFlow.create_cash_flow_section pl bs w = CashFlow.Shown s ->
     let cf := CashFlow.cash_flow_df s in
     let m := CashFlow.key_metrics s in
     forall i, (i <= 3)%nat ->
       (cell pl "Net Profit(A-B-C-D-E)" i == 0 ->
        nth i (CashFlow.operating_cf_ratio m) 0 = 0) /\
       (~ cell pl "Net Profit(A-B-C-D-E)" i == 0 ->
        nth i (CashFlow.operating_cf_ratio m) 0
          = cell cf "Operating Cash Flow(N)" i
            / cell pl "Net Profit(A-B-C-D-E)" i) /\
       (cell cf "Operating Cash Flow(N)" i == 0 ->
        nth i (CashFlow.capex_ratio m) 0 = 0) /\
       (~ cell cf "Operating Cash Flow(N)" i == 0 ->
        nth i (CashFlow.capex_ratio m) 0
          = - cell cf "Investing Cash Flow(O)" i
            / cell cf "Operating Cash Flow(N)" i)) /\
  (forall pl bs w e,
     CashFlow.create_cash_flow_section pl bs w = CashFlow.Failed e ->
     not_a_division e) /\
  (forall w,
     ProfitLoss.slider_bounds w ->
     ProfitLoss.generate_button w = true ->
     exists df m,
       ProfitLoss.create_profit_loss_section w = Ok (Some (df, m)) /\
       forall i, (i <= 3)%nat -> 1000 <= cell df "Revenue(A)" i).
Proof.
  split; [|split].
  - intros pl bs w s H. apply cf_shown_inv in H. destruct H as (_ & H).
    destruct (cf_forecast_spec pl bs w s H)
      as (_ & _ & _ & _ & _ & _ & _ & Hop & Hcapex & _).
    cbv zeta. intros i Hi.
    rewrite (Hop i Hi), (Hcapex i Hi).
    repeat split; intros Hz.
    + apply Qeq_bool_iff in Hz. rewrite Hz. reflexivity.
    + destruct (Qeq_bool _ 0) eqn:E; [|reflexivity].
      apply Qeq_bool_iff in E. contradiction.
    + apply Qeq_bool_iff in Hz. rewrite Hz. reflexivity.
    + destruct (Qeq_bool _ 0) eqn:E; [|reflexivity].
      apply Qeq_bool_iff in E. contradiction.
  - exact cf_never_divides_by_zero.
  - exact pl_generates.
Qed.

(** C5 as stated fails in the balance sheet section: with the default P&L
    table and a capital increase of -1653, Total Assets of period 1 is 0,
    the debt ratio divides by it, and the section shows the error and
    returns no table and no metric. *)
Lemma zero_total_assets_fails_balance_sheet :
  exists df,
    BalanceSheet.forecast default_pl capital_withdrawn_widgets = Ok df /\
    cell df "Total Assets(F+G+H+I)" 1 == 0 /\
    BalanceSheet.create_balance_sheet_section default_pl
      capital_withdrawn_widgets = BalanceSheet.Failed ZeroDivisionError /\
    BalanceSheet.returned
      (BalanceSheet.create_balance_sheet_section default_pl
         capital_withdrawn_widgets) = None.
Proof.
  eexists.
  split; [vm_compute; reflexivity|].
  split; [vm_compute; reflexivity|].
  split; vm_compute; reflexivity.
Qed.

(** In a session the base of the CAGR is never zero or negative: the cash
    flow section is only given a P&L table and a balance sheet whose
    period 0 is historical, so that Net CF of period 0 is 200 plus the
    depreciation of 16. *)
Lemma net_cf_base_positive_in_session wpl pl mpl wbs bs mbs wcf s :
  ProfitLoss.create_profit_loss_section wpl = Ok (Some (pl, mpl)) ->
  BalanceSheet.create_balance_sheet_section pl wbs
    = BalanceSheet.Generated bs mbs ->
  CashFlow.slider_bounds wcf ->
  CashFlow.create_cash_flow_section pl bs wcf = CashFlow.Shown s ->
  200 <= cell (CashFlow.cash_flow_df s) "**Net Cash Flow(N+O+P)**" 0.
Proof.
  intros Hpl Hbs (Hrate & _) Hcf.
  destruct (pl_section_spec _ wpl pl mpl Hpl)
    as (r0 & c0 & s0 & m0 & f0 & H1 & H2 & H3 & H4 & H5 & _ & _
        & _ & _ & _ & _ & _ & _ & Enp & _).
  cbn in H1, H2, H3, H4, H5.
  injection H1 as <-. injection H2 as <-. injection H3 as <-.
  injection H4 as <-. injection H5 as <-.
  apply bs_generated_inv in Hbs. destruct Hbs as (_ & Hbs & _).
  destruct (bs_forecast_spec pl wbs bs Hbs)
    as (? & ? & ? & _ & _ & _ & _ & _ & _ & _ & Hhist & _).
  historical_cell Hhist "Fixed Assets(I)" 16.00.
  apply cf_shown_inv in Hcf. destruct Hcf as (_ & Hcf).
  destruct (cf_forecast_spec pl bs wcf s Hcf)
    as (_ & Hdep & Hop0 & Hinv0 & Hfin0 & _ & Hnet & _).
  rewrite (Hnet 0%nat ltac:(lia)), Hop0, Hinv0, Hfin0.
  rewrite (Hdep 0%nat ltac:(lia)), Enp, E.
  unfold CashFlow.depreciation_rate. percent. lra.
Qed.

(** C6, as the code has it: the test is [net_cash_flows[0] != 0].  With Net
    CF 0 in period 0 the metric is the number 0 and nothing is divided;
    with any other Net CF in period 0, negative ones included, the metric
    is the cube root of Net CF of period 3 over Net CF of period 0, minus
    one.  The section raises no division error. *)
Theorem net_cf_cagr_guard :
  (forall pl bs w s,
     CashFlow.create_cash_flow_section pl bs w = CashFlow.Shown s ->
     let net i := cell (CashFlow.cash_flow_df s) "**Net Cash Flow(N+O+P)**" i in
     (net 0%nat == 0 ->
      CashFlow.Net_CF_CAGR (CashFlow.key_metrics s) = Number 0) /\
     (~ net 0%nat == 0 ->
      CashFlow.Net_CF_CAGR (CashFlow.key_metrics s)
        = CubeRootMinusOne (net 3%nat / net 0%nat))) /\
  (forall pl bs w e,
     CashFlow.create_cash_flow_section pl bs w = CashFlow.Failed e ->
     not_a_division e).
Proof.
  split.
  - intros pl bs w s H. apply cf_shown_inv in H. destruct H as (_ & H).
    destruct (cf_forecast_spec pl bs w s H)
      as (_ & _ & _ & _ & _ & _ & _ & _ & _ & Hcagr & _).
    cbv zeta. rewrite Hcagr. split; intros Hz.
    + apply Qeq_bool_iff in Hz. rewrite Hz. reflexivity.
    + destruct (Qeq_bool _ 0) eqn:E; [|reflexivity].
      apply Qeq_bool_iff in E. contradiction.
  - exact cf_never_divides_by_zero.
Qed.

(** C6 as stated fails for a negative Net CF in period 0: with a loss of
    300 in period 0 the Net CF of period 0 is negative and the metric is
    the cube root of a negative ratio, minus one, not the number 0. *)
Lemma negative_net_cf_is_not_guarded :
  exists s x,
    CashFlow.create_cash_flow_section loss_pl default_bs default_cf_widgets
      = CashFlow.Shown s /\
    cell (CashFlow.cash_flow_df s) "**Net Cash Flow(N+O+P)**" 0 < 0 /\
    CashFlow.Net_CF_CAGR (CashFlow.key_metrics s) = CubeRootMinusOne x /\
    x < 0.
Proof.
  eexists _, _.
  split; [vm_compute; reflexivity|].
  split; [vm_compute; reflexivity|].
  split; [vm_compute; reflexivity|].
  vm_compute. reflexivity.
Qed.

(** ** Failures *)

(** C10: when the table or the metrics of the balance sheet raise, the
    section returns [None]; when the cash flow computation raises, the
    section shows the error and no statement; a balance sheet call that
    failed leaves the session state as [tab2] found it; the cash flow tab
    never changes the session state; an exception that ends the run leaves the session state
    as the run found it; and a run in which only the balance sheet
    generation is attempted and fails leaves the whole session state
    unchanged. *)
Theorem failed_generation_changes_nothing :
  (forall pl w e,
     BalanceSheet.generate_button w = true ->
     BalanceSheet.forecast pl w = Raise e \/
     (exists df,
        BalanceSheet.forecast pl w = Ok df /\
        BalanceSheet.key_metrics df = Raise e) ->
     BalanceSheet.create_balance_sheet_section pl w = BalanceSheet.Failed e /\
     BalanceSheet.returned (BalanceSheet.create_balance_sheet_section pl w)
       = None) /\
  (forall pl bs w e,
     CashFlow.generate_button w = true ->
     CashFlow.forecast pl bs w = Raise e ->
     CashFlow.create_cash_flow_section pl bs w = CashFlow.Failed e) /\
  (forall s ui e,
     Main.call_balance_sheet (Main.profit_loss_data s) (Main.bs_widgets ui)
       = BalanceSheet.Failed e ->
     fst (Main.tab2 ui s) = s) /\
  (forall s ui, fst (Main.tab3 ui s) = s) /\
  (forall s ui e,
     Main.uncaught (Main.run s ui) = Some e ->
     Main.state_after (Main.run s ui) = s) /\
  (forall s ui e,
     ProfitLoss.create_profit_loss_section (Main.pl_widgets ui) = Ok None ->
     Main.call_balance_sheet (Main.profit_loss_data s) (Main.bs_widgets ui)
       = BalanceSheet.Failed e ->
     Main.reset_button ui = false ->
     Main.state_after (Main.run s ui) = s).
Proof.
  assert (Htab2 : forall s ui e,
             Main.call_balance_sheet (Main.profit_loss_data s)
               (Main.bs_widgets ui) = BalanceSheet.Failed e ->
             fst (Main.tab2 ui s) = s).
  { intros s ui e H. unfold Main.tab2.
    destruct (Main.is_pl_generated s); [|reflexivity].
    cbn [fst]. rewrite H. reflexivity. }
  split; [|split; [|split; [|split; [|split]]]].
  - intros pl w e Hclick H.
    unfold BalanceSheet.create_balance_sheet_section.
    rewrite Hclick.
    destruct H as [H|(df & H & Hm)]; rewrite H; cbn [Py.bind];
      [|rewrite Hm; cbn [Py.bind]]; split; reflexivity.
  - intros pl bs w e Hclick H.
    unfold CashFlow.create_cash_flow_section. rewrite Hclick, H. reflexivity.
  - exact Htab2.
  - exact (fun s ui => tab3_state ui s).
  - intros s ui e H.
    destruct (ProfitLoss.create_profit_loss_section (Main.pl_widgets ui))
      as [pl_result|e'] eqn:Hpl.
    + destruct (run_state s ui pl_result Hpl) as (_ & _ & Hnone). congruence.
    + rewrite (run_raise s ui e' Hpl). reflexivity.
  - intros s ui e Hpl Hbs Hreset.
    destruct (run_state s ui None Hpl) as (-> & _).
    cbn [option_map Main.tab1].
    unfold Main.sidebar. rewrite Hreset, tab3_state.
    exact (Htab2 s ui e Hbs).
Qed.

(** ** The theorems at concrete inputs *)

Lemma balance_sheet_balances_witness :
  BalanceSheet.create_balance_sheet_section default_pl
    (BalanceSheet.default_widgets true)
  = BalanceSheet.Generated default_bs default_bs_metrics /\
  (2 <= 3)%nat /\
  cell default_bs "Total Assets(F+G+H+I)" 2
    == cell default_bs "Total Liabilities(J+K)" 2
       + cell default_bs "Total Equity(L+M)" 2.
Proof.
  assert (H : BalanceSheet.create_balance_sheet_section default_pl
                (BalanceSheet.default_widgets true)
              = BalanceSheet.Generated default_bs default_bs_metrics)
    by (vm_compute; reflexivity).
  split; [exact H|]. split; [lia|].
  apply (proj2 (balance_sheet_balances _ _ _ _ H) 2%nat). lia.
Defined.

Lemma profit_loss_formulas_witness :
  ProfitLoss.create_profit_loss_section (ProfitLoss.default_widgets true)
  = Ok (Some (default_pl, default_pl_metrics)) /\
  (1 <= 1 <= 3)%nat /\
  cell default_pl "Revenue(A)" 1
    == cell default_pl "Revenue(A)" 0
       * (1 + nth 0 (ProfitLoss.revenue_growth_rates
                       (ProfitLoss.default_widgets true)) 0).
Proof.
  assert (H : ProfitLoss.create_profit_loss_section
                (ProfitLoss.default_widgets true)
              = Ok (Some (default_pl, default_pl_metrics)))
    by (vm_compute; reflexivity).
  split; [exact H|]. split; [lia|].
  apply (proj2 (proj1 profit_loss_formulas _ _ _ H) 1%nat). lia.
Defined.

Lemma cash_flow_formulas_witness :
  CashFlow.create_cash_flow_section default_pl default_bs default_cf_widgets
  = CashFlow.Shown default_cf /\
  cell default_pl "Net Profit(A-B-C-D-E)" 0 == 200 /\
  cell default_bs "Fixed Assets(I)" 0 == 16 /\
  CashFlow.depreciation_rate default_cf_widgets == 0.10 /\
  cell (CashFlow.cash_flow_df default_cf) "**Net Cash Flow(N+O+P)**" 0 == 201.6.
Proof.
  assert (H : CashFlow.create_cash_flow_section default_pl default_bs
                default_cf_widgets = CashFlow.Shown default_cf)
    by (vm_compute; reflexivity).
  assert (H1 : cell default_pl "Net Profit(A-B-C-D-E)" 0 == 200)
    by (vm_compute; reflexivity).
  assert (H2 : cell default_bs "Fixed Assets(I)" 0 == 16)
    by (vm_compute; reflexivity).
  assert (H3 : CashFlow.depreciation_rate default_cf_widgets == 0.10)
    by (vm_compute; reflexivity).
  repeat (split; [assumption|]).
  destruct (cash_flow_formulas _ _ _ _ H) as (_ & _ & _ & _ & _ & _ & _ & S).
  exact (proj2 (proj2 (proj2 (proj2 (S H1 H2 H3))))).
Defined.

Lemma period_0_is_historical_witness :
  (ProfitLoss.create_profit_loss_section (ProfitLoss.default_widgets true)
   = Ok (Some (default_pl, default_pl_metrics)) /\
   In ("Gross Profit(A-B)", 400) ProfitLoss.historical_data /\
   cell default_pl "Gross Profit(A-B)" 0 == 400) /\
  (BalanceSheet.create_balance_sheet_section default_pl
     (BalanceSheet.default_widgets true)
   = BalanceSheet.Generated default_bs default_bs_metrics /\
   In ("Retained Earnings(M)", -71.52) BalanceSheet.historical_bs /\
   cell default_bs "Retained Earnings(M)" 0 = -71.52).
Proof.
  assert (Hpl : ProfitLoss.create_profit_loss_section (ProfitLoss.default_widgets true)
                = Ok (Some (default_pl, default_pl_metrics)))
    by (vm_compute; reflexivity).
  assert (Hgp : In ("Gross Profit(A-B)", 400) ProfitLoss.historical_data)
    by (simpl; tauto).
  assert (H : BalanceSheet.create_balance_sheet_section default_pl
                (BalanceSheet.default_widgets true)
              = BalanceSheet.Generated default_bs default_bs_metrics)
    by (vm_compute; reflexivity).
  assert (Hin : In ("Retained Earnings(M)", -71.52) BalanceSheet.historical_bs)
    by (simpl; tauto).
  split.
  - split; [exact Hpl|]. split; [exact Hgp|].
    exact (proj1 period_0_is_historical _ _ _ Hpl _ _ Hgp).
  - split; [exact H|]. split; [exact Hin|].
    exact (proj2 period_0_is_historical _ _ _ _ H _ _ Hin).
Defined.

Lemma zero_denominators_in_cash_flow_and_pl_witness :
  CashFlow.create_cash_flow_section break_even_pl default_bs default_cf_widgets
  = CashFlow.Shown break_even_cf /\
  (1 <= 3)%nat /\
  cell break_even_pl "Net Profit(A-B-C-D-E)" 1 == 0 /\
  nth 1 (CashFlow.operating_cf_ratio (CashFlow.key_metrics break_even_cf)) 0 = 0.
Proof.
  assert (H : CashFlow.create_cash_flow_section break_even_pl default_bs
                default_cf_widgets = CashFlow.Shown break_even_cf)
    by (vm_compute; reflexivity).
  assert (Hi : (1 <= 3)%nat) by lia.
  assert (Hz : cell break_even_pl "Net Profit(A-B-C-D-E)" 1 == 0)
    by (vm_compute; reflexivity).
  repeat (split; [assumption|]).
  exact (proj1 (proj1 zero_denominators_in_cash_flow_and_pl _ _ _ _ H 1%nat Hi)
           Hz).
Defined.

Lemma net_cf_cagr_guard_witness :
  CashFlow.create_cash_flow_section zero_base_pl default_bs default_cf_widgets
  = CashFlow.Shown zero_base_cf /\
  cell (CashFlow.cash_flow_df zero_base_cf) "**Net Cash Flow(N+O+P)**" 0 == 0 /\
  CashFlow.Net_CF_CAGR (CashFlow.key_metrics zero_base_cf) = Number 0.
Proof.
  assert (H : CashFlow.create_cash_flow_section zero_base_pl default_bs
                default_cf_widgets = CashFlow.Shown zero_base_cf)
    by (vm_compute; reflexivity).
  assert (Hz : cell (CashFlow.cash_flow_df zero_base_cf)
                 "**Net Cash Flow(N+O+P)**" 0 == 0)
    by (vm_compute; reflexivity).
  repeat (split; [assumption|]).
  exact (proj1 (proj1 net_cf_cagr_guard _ _ _ _ H) Hz).
Defined.

Lemma downstream_reads_current_upstream_witness :
  Main.reachable (Main.state_after (Main.run Main.reset_all_data first_run)) /\
  in_step
    (Main.state_after
       (Main.run (Main.state_after (Main.run Main.reset_all_data first_run))
          failing_bs_run)).
Proof.
  assert (H : Main.reachable
                (Main.state_after (Main.run Main.reset_all_data first_run)))
    by (apply Main.reachable_run; apply Main.reachable_init).
  split; [exact H|].
  exact (proj2 (proj2 (proj2
           (downstream_reads_current_upstream _ failing_bs_run H)))).
Defined.

Lemma capital_increase_in_period_1_only_witness :
  BalanceSheet.create_balance_sheet_section default_pl
    (BalanceSheet.default_widgets true)
  = BalanceSheet.Generated default_bs default_bs_metrics /\
  (1 <= 2 <= 3)%nat /\
  cell default_bs "Share Capital(L)" 2 == cell default_bs "Share Capital(L)" 1 + 0.
Proof.
  assert (H : BalanceSheet.create_balance_sheet_section default_pl
                (BalanceSheet.default_widgets true)
              = BalanceSheet.Generated default_bs default_bs_metrics)
    by (vm_compute; reflexivity).
  split; [exact H|]. split; [lia|].
  apply (proj1 (capital_increase_in_period_1_only _ _ _ _ H 2%nat
                  ltac:(lia))).
Defined.

Lemma fixed_assets_increase_with_growth_witness :
  BalanceSheet.create_balance_sheet_section default_pl
    (BalanceSheet.default_widgets true)
  = BalanceSheet.Generated default_bs default_bs_metrics /\
  BalanceSheet.create_balance_sheet_section default_pl faster_growth_widgets
  = BalanceSheet.Generated faster_growth_bs faster_growth_metrics /\
  0 <= 0.20 /\ 0.20 < 0.30 /\ 0.30 <= 0.5 /\ (1 <= 3 <= 3)%nat /\
  cell default_bs "Fixed Assets(I)" 3 < cell faster_growth_bs "Fixed Assets(I)" 3.
Proof.
  assert (H1 : BalanceSheet.create_balance_sheet_section default_pl
                 (BalanceSheet.default_widgets true)
               = BalanceSheet.Generated default_bs default_bs_metrics)
    by (vm_compute; reflexivity).
  assert (H2 : BalanceSheet.create_balance_sheet_section default_pl
                 faster_growth_widgets
               = BalanceSheet.Generated faster_growth_bs faster_growth_metrics)
    by (vm_compute; reflexivity).
  assert (G0 : 0 <= 0.20) by (vm_compute; discriminate).
  assert (G1 : 0.20 < 0.30) by (vm_compute; reflexivity).
  assert (G2 : 0.30 <= 0.5) by (vm_compute; discriminate).
  assert (Hi : (1 <= 3 <= 3)%nat) by lia.
  repeat (split; [assumption|]).
  exact (fixed_assets_increase_with_growth _ _ _ _ _ _ _ H1 H2 G0 G1 G2
           3%nat Hi).
Defined.

Lemma failed_generation_changes_nothing_witness :
  ProfitLoss.create_profit_loss_section (Main.pl_widgets failing_bs_run)
  = Ok None /\
  Main.call_balance_sheet (Main.profit_loss_data default_session)
    (Main.bs_widgets failing_bs_run) = BalanceSheet.Failed ZeroDivisionError /\
  Main.reset_button failing_bs_run = false /\
  Main.state_after (Main.run default_session failing_bs_run) = default_session.
Proof.
  assert (H1 : ProfitLoss.create_profit_loss_section
                 (Main.pl_widgets failing_bs_run) = Ok None)
    by (vm_compute; reflexivity).
  assert (H2 : Main.call_balance_sheet (Main.profit_loss_data default_session)
                 (Main.bs_widgets failing_bs_run)
               = BalanceSheet.Failed ZeroDivisionError)
    by (vm_compute; reflexivity).
  assert (H3 : Main.reset_button failing_bs_run = false) by reflexivity.
  repeat (split; [assumption|]).
  exact (proj2 (proj2 (proj2 (proj2 (proj2 failed_generation_changes_nothing))))
           _ _ _ H1 H2 H3).
Defined.

(** * Further properties of the code *)

(** ** Helpers *)

Lemma eq_Qeq (a b : Q) : a = b -> a == b.
Proof. intros ->. reflexivity. Qed.

(** Turn the equations [a = b] between amounts in the context into [a == b]. *)
Ltac amounts :=
  repeat match goal with
         | H : @eq Q _ _ |- _ => apply eq_Qeq in H
         end.

(** What [create_profit_loss_section] returns when it returns a table: the
    button was clicked and no revenue is zero. *)
Ltac pl_evaluate H :=
  unfold ProfitLoss.create_profit_loss_section, ProfitLoss.section in H;
  cbn [ProfitLoss.generate_button] in H;
  match type of H with
  | (if ?b then _ else _) = _ => destruct b; [|discriminate H]
  end;
  evaluate_in H; decide_divisors H.

(** ** Profit and loss *)

(** X1: for slider values, in every forecast period Revenue is at least the
    previous Revenue and at most 1.5 times it, and Gross Profit lies
    between 20 and 60 percent of Revenue. *)
Theorem pl_revenue_and_gross_profit_bounds w df m :
  ProfitLoss.slider_bounds w ->
  ProfitLoss.create_profit_loss_section w = Ok (Some (df, m)) ->
  forall i, (1 <= i <= 3)%nat ->
    cell df "Revenue(A)" (i - 1) <= cell df "Revenue(A)" i /\
    cell df "Revenue(A)" i <= 1.5 * cell df "Revenue(A)" (i - 1) /\
    0.2 * cell df "Revenue(A)" i <= cell df "Gross Profit(A-B)" i /\
    cell df "Gross Profit(A-B)" i <= 0.6 * cell df "Revenue(A)" i.
Proof.
  intros Hb H.
  destruct (Hb "2024E" ltac:(simpl; tauto)) as ((G1 & G1') & (C1 & C1') & _).
  destruct (Hb "2025E" ltac:(simpl; tauto)) as ((G2 & G2') & (C2 & C2') & _).
  destruct (Hb "2026E" ltac:(simpl; tauto)) as ((G3 & G3') & (C3 & C3') & _).
  destruct (pl_section_spec _ w df m H)
    as (r0 & c0 & s0 & m0 & f0 & H1 & _ & _ & _ & _ & _ & _
        & E0 & _ & _ & _ & _ & _ & _ & Hyear).
  cbn in H1. injection H1 as <-.
  destruct (Hyear 1%nat ltac:(lia)) as (R1 & K1 & _ & _ & _ & P1 & _).
  destruct (Hyear 2%nat ltac:(lia)) as (R2 & K2 & _ & _ & _ & P2 & _).
  destruct (Hyear 3%nat ltac:(lia)) as (R3 & K3 & _ & _ & _ & P3 & _).
  cbn [Nat.sub nth ProfitLoss.revenue_growth_rates ProfitLoss.cost_ratios
       ProfitLoss.years map] in *.
  amounts. percent.
  assert (Q1 : 1000 <= cell df "Revenue(A)" 1) by nra.
  assert (Q2 : 1000 <= cell df "Revenue(A)" 2) by nra.
  assert (Q3 : 1000 <= cell df "Revenue(A)" 3) by nra.
  intros i Hi.
  destruct i as [|[|[|[|]]]]; try lia; cbn [Nat.sub];
    repeat split; nra.
Qed.

(** X2: the key metrics of a generated P&L are functions of the sliders
    alone: the gross margin shown is one minus the cost ratio of 2026E and
    its change is that minus 0.4; the net margin shown is one minus the
    cost, selling, admin and financial ratios of 2026E and its change is
    that minus 0.2; and the revenue CAGR is the cube root of the product of
    the three growth factors, minus one. *)
Theorem pl_key_metrics w df m :
  ProfitLoss.create_profit_loss_section w = Ok (Some (df, m)) ->
  let g year := ProfitLoss.revenue_growth_ w year / 100 in
  let c := ProfitLoss.cost_ratio_ w "2026E" / 100 in
  let s := ProfitLoss.sales_ w "2026E" / 100 in
  let a := ProfitLoss.management_ w "2026E" / 100 in
  let f := ProfitLoss.financial_ w "2026E" / 100 in
  fst (ProfitLoss.Gross_Margin m) == 1 - c /\
  snd (ProfitLoss.Gross_Margin m) == 1 - c - 0.4 /\
  fst (ProfitLoss.Net_Margin m) == 1 - c - s - a - f /\
  snd (ProfitLoss.Net_Margin m) == 1 - c - s - a - f - 0.2 /\
  exists x,
    ProfitLoss.Revenue_CAGR m = CubeRootMinusOne x /\
    x == (1 + g "2024E") * (1 + g "2025E") * (1 + g "2026E").
Proof.
  intros H. destruct w as [g c s a f b]. pl_evaluate H.
  injection H as <- <-.
  cbn [ProfitLoss.revenue_growth_ ProfitLoss.cost_ratio_ ProfitLoss.sales_
       ProfitLoss.management_ ProfitLoss.financial_ ProfitLoss.Gross_Margin
       ProfitLoss.Net_Margin ProfitLoss.Revenue_CAGR fst snd].
  repeat match goal with
         | E : Qeq_bool _ 0 = false |- _ => apply Qeq_bool_neq in E
         end.
  repeat split.
  5:{ eexists. split; [reflexivity|]. field. }
  all: match goal with
       | E : ~ 1000 * ?x1 * ?x2 * ?x3 == 0 |- _ =>
           generalize dependent (1000 * x1 * x2 * x3)
       end;
       intros r3 Hr3; intros; field; exact Hr3.
Qed.

Ltac same_amount :=
  unfold cell; evaluate;
  repeat match goal with
         | A : ?x == _ |- context [?x] => rewrite A
         end;
  reflexivity.

(** X3: a period of the P&L table depends on the sliders of its own year
    and of the years before only: two tables generated from sliders that
    agree for the first [k] forecast years agree in the periods 0 to [k]. *)
Theorem pl_no_look_ahead w1 w2 df1 m1 df2 m2 k :
  ProfitLoss.create_profit_loss_section w1 = Ok (Some (df1, m1)) ->
  ProfitLoss.create_profit_loss_section w2 = Ok (Some (df2, m2)) ->
  (forall year, In year (firstn k ProfitLoss.years) -> same_sliders w1 w2 year) ->
  forall label i,
    In label pl_labels -> (i <= k)%nat ->
    cell df1 label i == cell df2 label i.
Proof.
  intros H1 H2 Hsame.
  destruct w1 as [g1 c1 s1 a1 f1 b1]. destruct w2 as [g2 c2 s2 a2 f2 b2].
  pl_evaluate H1. injection H1 as <- _.
  pl_evaluate H2. injection H2 as <- _.
  unfold same_sliders in Hsame.
  cbn [ProfitLoss.revenue_growth_ ProfitLoss.cost_ratio_ ProfitLoss.sales_
       ProfitLoss.management_ ProfitLoss.financial_] in Hsame.
  intros label i Hlabel Hi. simpl in Hlabel.
  destruct k as [|[|[|k]]].
  - assert (i = 0)%nat as -> by lia.
    repeat (destruct Hlabel as [<-|Hlabel]; [same_amount|]). contradiction.
  - destruct (Hsame "2024E" ltac:(simpl; tauto)) as (? & ? & ? & ? & ?).
    destruct i as [|[|]]; try lia;
      repeat (destruct Hlabel as [<-|Hlabel]; [same_amount|]); contradiction.
  - destruct (Hsame "2024E" ltac:(simpl; tauto)) as (? & ? & ? & ? & ?).
    destruct (Hsame "2025E" ltac:(simpl; tauto)) as (? & ? & ? & ? & ?).
    destruct i as [|[|[|]]]; try lia;
      repeat (destruct Hlabel as [<-|Hlabel]; [same_amount|]); contradiction.
  - destruct (Hsame "2024E" ltac:(simpl; tauto)) as (? & ? & ? & ? & ?).
    destruct (Hsame "2025E" ltac:(simpl; tauto)) as (? & ? & ? & ? & ?).
    destruct (Hsame "2026E" ltac:(simpl; tauto)) as (? & ? & ? & ? & ?).
    destruct i as [|[|[|[|]]]];
      repeat (destruct Hlabel as [<-|Hlabel]; [same_amount|]); contradiction.
Qed.

(** ** Balance sheet *)

Lemma getitem_shape (rows : dict (list Q)) labels n label :
  map fst rows = labels ->
  Forall (fun r => List.length (snd r) = n) rows ->
  In label labels ->
  exists row, getitem rows label = Ok row /\ List.length row = n.
Proof.
  revert labels. induction rows as [|[k v] rows IH]; intros labels Hk Hn Hin.
  - subst labels. contradiction.
  - cbn in Hk. subst labels.
    pose proof (Forall_inv Hn) as Hv. pose proof (Forall_inv_tail Hn) as Hrest.
    cbn [getitem]. destruct (String.eqb k label) eqn:E.
    + exists v. split; [reflexivity|exact Hv].
    + destruct Hin as [Heq|Hin].
      * cbn in Heq. subst k. rewrite String.eqb_refl in E. discriminate.
      * apply (IH (map fst rows)); auto.
Qed.

(** A row of a statement with four periods. *)
Lemma shape_row df labels label :
  shape df labels 4 -> In label labels ->
  exists a b c d, loc df label = Ok [a; b; c; d].
Proof.
  intros (Hk & Hn) Hin.
  destruct (getitem_shape (rows df) labels 4 label Hk Hn Hin) as (row & Hrow & Hlen).
  destruct row as [|a [|b [|c [|d [|]]]]]; try discriminate.
  exists a, b, c, d. exact Hrow.
Qed.

(** The table is computed whenever the three rows read from the P&L table
    have four periods. *)
Lemma bs_forecast_total pl w :
  (forall label, In label balance_sheet_reads -> has_four_periods pl label) ->
  exists df, BalanceSheet.forecast pl w = Ok df.
Proof.
  intros H.
  destruct (H "Revenue(A)" ltac:(simpl; tauto)) as (revenues & Hr & Lr).
  destruct (H "Cost(B)" ltac:(simpl; tauto)) as (costs & Hc & Lc).
  destruct (H "Net Profit(A-B-C-D-E)" ltac:(simpl; tauto))
    as (net_profits & Hn & Ln).
  unfold BalanceSheet.forecast. rewrite Hr, Hc, Hn.
  four_or_less revenues; simpl in Lr; try (exfalso; lia).
  four_or_less costs; simpl in Lc; try (exfalso; lia).
  four_or_less net_profits; simpl in Ln; try (exfalso; lia).
  evaluate. eexists. reflexivity.
Qed.

(** The key metrics of a table with the balance sheet's rows: a division by
    a Total Assets of 0 raises, and otherwise the three metrics are the
    quotients of period 3 and their change against period 0. *)
Lemma bs_key_metrics_spec df :
  shape df bs_labels 4 ->
  let ta i := cell df "Total Assets(F+G+H+I)" i in
  (BalanceSheet.key_metrics df = Raise ZeroDivisionError /\
   exists i, (i <= 3)%nat /\ ta i == 0) \/
  (exists m,
     BalanceSheet.key_metrics df = Ok m /\
     (forall i, (i <= 3)%nat -> ~ ta i == 0) /\
     BalanceSheet.Debt_Ratio m
       = (cell df "Total Liabilities(J+K)" 3 / ta 3%nat,
          cell df "Total Liabilities(J+K)" 3 / ta 3%nat
          - cell df "Total Liabilities(J+K)" 0 / ta 0%nat) /\
     BalanceSheet.Fixed_Asset_Ratio m
       = (cell df "Fixed Assets(I)" 3 / ta 3%nat,
          cell df "Fixed Assets(I)" 3 / ta 3%nat
          - cell df "Fixed Assets(I)" 0 / ta 0%nat) /\
     BalanceSheet.Equity_Ratio m
       = (cell df "Total Equity(L+M)" 3 / ta 3%nat,
          cell df "Total Equity(L+M)" 3 / ta 3%nat
          - cell df "Total Equity(L+M)" 0 / ta 0%nat)).
Proof.
  intros Hshape.
  destruct (shape_row df _ "Total Assets(F+G+H+I)" Hshape ltac:(simpl; tauto))
    as (t0 & t1 & t2 & t3 & Ht).
  destruct (shape_row df _ "Total Liabilities(J+K)" Hshape ltac:(simpl; tauto))
    as (l0 & l1 & l2 & l3 & Hl).
  destruct (shape_row df _ "Fixed Assets(I)" Hshape ltac:(simpl; tauto))
    as (f0 & f1 & f2 & f3 & Hf).
  destruct (shape_row df _ "Total Equity(L+M)" Hshape ltac:(simpl; tauto))
    as (e0 & e1 & e2 & e3 & He).
  cbv zeta. unfold BalanceSheet.key_metrics, BalanceSheet.ratios, cell.
  rewrite Ht, Hl, Hf, He.
  cbn [Py.bind combine comprehension truediv nth].
  unfold truediv.
  destruct (Qeq_bool t0 0) eqn:E0; cbn [Py.bind].
  { left. split; [reflexivity|]. exists 0%nat. split; [lia|].
    apply Qeq_bool_iff. exact E0. }
  destruct (Qeq_bool t1 0) eqn:E1; cbn [Py.bind].
  { left. split; [reflexivity|]. exists 1%nat. split; [lia|].
    apply Qeq_bool_iff. exact E1. }
  destruct (Qeq_bool t2 0) eqn:E2; cbn [Py.bind].
  { left. split; [reflexivity|]. exists 2%nat. split; [lia|].
    apply Qeq_bool_iff. exact E2. }
  destruct (Qeq_bool t3 0) eqn:E3; cbn [Py.bind].
  { left. split; [reflexivity|]. exists 3%nat. split; [lia|].
    apply Qeq_bool_iff. exact E3. }
  right. eexists. split; [reflexivity|].
  split; [|repeat split].
  intros i Hi. apply Qeq_bool_neq.
  destruct i as [|[|[|[|]]]]; try lia; assumption.
Qed.

(** X4: the balance sheet table is computed exactly when the P&L table has
    the rows Revenue, Cost and Net Profit with a value for each of the four
    periods; no value of a widget can make the table itself fail. *)
Theorem bs_table_iff_rows pl w :
  (exists df, BalanceSheet.forecast pl w = Ok df) <->
  (forall label, In label balance_sheet_reads -> has_four_periods pl label).
Proof.
  split.
  - intros (df & H).
    destruct (bs_forecast_spec pl w df H)
      as (revenues & costs & net_profits & Hr & Hc & Hn & Lr & Lc & Ln & _).
    intros label Hin. simpl in Hin. unfold has_four_periods.
    destruct Hin as [<-|[<-|[<-|[]]]]; eauto.
  - apply bs_forecast_total.
Qed.

(** X5: once the button is clicked and the table is computed, the section
    returns the table exactly when Total Assets is not 0 in any period;
    with a Total Assets of 0 the section fails with the division error. *)
Theorem bs_generated_iff_total_assets_nonzero pl w df :
  BalanceSheet.generate_button w = true ->
  BalanceSheet.forecast pl w = Ok df ->
  ((exists m,
      BalanceSheet.create_balance_sheet_section pl w
        = BalanceSheet.Generated df m) <->
   (forall i, (i <= 3)%nat -> ~ cell df "Total Assets(F+G+H+I)" i == 0)) /\
  ((exists i, (i <= 3)%nat /\ cell df "Total Assets(F+G+H+I)" i == 0) ->
   BalanceSheet.create_balance_sheet_section pl w
     = BalanceSheet.Failed ZeroDivisionError).
Proof.
  intros Hclick H.
  destruct (bs_forecast_spec pl w df H)
    as (_ & _ & _ & _ & _ & _ & _ & _ & _ & Hshape & _).
  unfold BalanceSheet.create_balance_sheet_section.
  rewrite Hclick, H. cbn [Py.bind].
  destruct (bs_key_metrics_spec df Hshape)
    as [(Hm & i & Hi & Hz)|(m & Hm & Hnz & _)]; rewrite Hm; cbn [Py.bind].
  - split; [split|].
    + intros (m & Hgen). discriminate.
    + intros Hnz. exfalso. exact (Hnz i Hi Hz).
    + reflexivity.
  - split; [split|].
    + intros _. exact Hnz.
    + intros _. exists m. reflexivity.
    + intros (i & Hi & Hz). exfalso. exact (Hnz i Hi Hz).
Qed.

(** X6: in every balance sheet generated, the debt ratio and the equity
    ratio shown add up to 1, and their changes against period 0 add up
    to 0. *)
Theorem bs_debt_and_equity_ratio_add_to_one pl w df m :
  BalanceSheet.create_balance_sheet_section pl w = BalanceSheet.Generated df m ->
  fst (BalanceSheet.Debt_Ratio m) + fst (BalanceSheet.Equity_Ratio m) == 1 /\
  snd (BalanceSheet.Debt_Ratio m) + snd (BalanceSheet.Equity_Ratio m) == 0.
Proof.
  intros H. apply bs_generated_inv in H. destruct H as (_ & H & Hm).
  destruct (bs_forecast_spec pl w df H)
    as (? & ? & ? & _ & _ & _ & _ & _ & _ & Hshape & Hhist & Hyear).
  destruct (bs_key_metrics_spec df Hshape)
    as [(Hm' & _)|(m' & Hm' & Hnz & Hd & _ & He)]; rewrite Hm in Hm';
    [discriminate|].
  injection Hm' as <-.
  destruct (Hyear 3%nat ltac:(lia))
    as (_ & _ & _ & _ & _ & _ & _ & _ & _ & _ & Hta & _).
  historical_cell Hhist "Total Assets(F+G+H+I)" 1392.00.
  historical_cell Hhist "Total Liabilities(J+K)" 130.00.
  historical_cell Hhist "Total Equity(L+M)" 1262.00.
  pose proof (Hnz 3%nat ltac:(lia)) as Hnz3.
  rewrite Hd, He. cbn [fst snd]. rewrite E, E0, E1.
  apply eq_Qeq in Hta. clear Hyear Hhist Hnz Hd He Hm H.
  set (ta := cell df "Total Assets(F+G+H+I)" 3) in *.
  set (tl := cell df "Total Liabilities(J+K)" 3) in *.
  set (te := cell df "Total Equity(L+M)" 3) in *.
  clearbody ta tl te.
  assert (Hte : te == ta - tl) by lra.
  rewrite Hte. split; field; exact Hnz3.
Qed.

(** X7: Fixed Assets of a generated balance sheet are the historical 16
    compounded at the growth rate, whatever the P&L table and the other
    widgets hold. *)
Theorem bs_fixed_assets_compound pl w df m :
  BalanceSheet.create_balance_sheet_section pl w = BalanceSheet.Generated df m ->
  forall i, (i <= 3)%nat ->
    cell df "Fixed Assets(I)" i
      == 16 * (1 + BalanceSheet.fixed_asset_growth w) ^ Z.of_nat i.
Proof.
  intros H. apply bs_generated_inv in H. destruct H as (_ & H & _).
  destruct (bs_forecast_spec pl w df H)
    as (? & ? & ? & _ & _ & _ & _ & _ & _ & _ & Hhist & Hyear).
  historical_cell Hhist "Fixed Assets(I)" 16.00.
  destruct (Hyear 1%nat ltac:(lia)) as (_ & _ & A1 & _).
  destruct (Hyear 2%nat ltac:(lia)) as (_ & _ & A2 & _).
  destruct (Hyear 3%nat ltac:(lia)) as (_ & _ & A3 & _).
  cbn [Nat.sub] in *. amounts.
  intros i Hi.
  destruct i as [|[|[|[|]]]]; try lia; cbn [Z.of_nat Pos.of_succ_nat Pos.succ].
  - rewrite E. reflexivity.
  - rewrite A1, E. ring.
  - rewrite A2, A1, E. ring.
  - rewrite A3, A2, A1, E. ring.
Qed.

(** X8: total equity rolls forward: in each forecast period it is the
    total equity of the period before plus the net profit of the period,
    plus the capital increase in period 1. *)
Theorem bs_equity_roll_forward pl w df m :
  BalanceSheet.create_balance_sheet_section pl w = BalanceSheet.Generated df m ->
  forall i, (1 <= i <= 3)%nat ->
    cell df "Total Equity(L+M)" i
      == cell df "Total Equity(L+M)" (i - 1)
         + cell pl "Net Profit(A-B-C-D-E)" i
         + (if Nat.eqb i 1 then BalanceSheet.capital_increase w else 0).
Proof.
  intros H. apply bs_generated_inv in H. destruct H as (_ & H & _).
  destruct (bs_forecast_spec pl w df H)
    as (? & ? & net_profits & _ & _ & Hn & _ & _ & _ & _ & Hhist & Hyear).
  historical_cell Hhist "Total Equity(L+M)" 1262.00.
  historical_cell Hhist "Share Capital(L)" 1333.52.
  historical_cell Hhist "Retained Earnings(M)" (-71.52).
  destruct (Hyear 1%nat ltac:(lia)) as (_ & _ & _ & _ & _ & _ & C1 & R1 & T1 & _).
  destruct (Hyear 2%nat ltac:(lia)) as (_ & _ & _ & _ & _ & _ & C2 & R2 & T2 & _).
  destruct (Hyear 3%nat ltac:(lia)) as (_ & _ & _ & _ & _ & _ & C3 & R3 & T3 & _).
  cbn [Nat.sub Nat.eqb] in *.
  assert (Hcell : forall i,
            cell pl "Net Profit(A-B-C-D-E)" i = nth i net_profits 0)
    by (intros i; unfold cell; rewrite Hn; reflexivity).
  clear Hn Hyear Hhist H.
  amounts.
  intros i Hi.
  destruct i as [|[|[|[|]]]]; try lia; cbn [Nat.sub Nat.eqb];
    rewrite Hcell; lra.
Qed.

(** X9: a forecast without losses always yields a balance sheet: for
    slider values, a P&L table whose Revenue, Cost and Net Profit of the
    forecast periods are not negative, and a capital increase above -1262,
    the section generates the balance sheet and Total Assets of every
    forecast period is at least 1262 plus the capital increase. *)
Theorem bs_generates_without_losses pl w :
  BalanceSheet.generate_button w = true ->
  BalanceSheet.slider_bounds w ->
  (forall label, In label balance_sheet_reads -> has_four_periods pl label) ->
  (forall label i,
     In label balance_sheet_reads -> (1 <= i <= 3)%nat -> 0 <= cell pl label i) ->
  -1262 < BalanceSheet.capital_increase w ->
  exists df m,
    BalanceSheet.create_balance_sheet_section pl w = BalanceSheet.Generated df m /\
    forall i, (1 <= i <= 3)%nat ->
      1262 + BalanceSheet.capital_increase w <= cell df "Total Assets(F+G+H+I)" i.
Proof.
  intros Hclick (_ & _ & (Hap & _) & (Hadv & _) & _) Hrows Hpos Hci.
  destruct (bs_forecast_total pl w Hrows) as (df & H).
  destruct (bs_forecast_spec pl w df H)
    as (revenues & costs & net_profits & Hr & Hc & Hn & _ & _ & _
        & Hshape & Hhist & Hyear).
  assert (Hta : forall i, (1 <= i <= 3)%nat ->
            1262 + BalanceSheet.capital_increase w
            <= cell df "Total Assets(F+G+H+I)" i).
  { historical_cell Hhist "Share Capital(L)" 1333.52.
    historical_cell Hhist "Retained Earnings(M)" (-71.52).
    assert (Hcell : forall label row i,
              loc pl label = Ok row -> cell pl label i = nth i row 0)
      by (intros label row i Hrow; unfold cell; rewrite Hrow; reflexivity).
    pose proof (fun i Hi => Hpos "Revenue(A)" i ltac:(simpl; tauto) Hi) as Pr.
    pose proof (fun i Hi => Hpos "Cost(B)" i ltac:(simpl; tauto) Hi) as Pc.
    pose proof (fun i Hi => Hpos "Net Profit(A-B-C-D-E)" i ltac:(simpl; tauto) Hi)
      as Pn.
    pose proof (Pr 1%nat ltac:(lia)) as Pr1. pose proof (Pr 2%nat ltac:(lia)) as Pr2.
    pose proof (Pr 3%nat ltac:(lia)) as Pr3.
    pose proof (Pc 1%nat ltac:(lia)) as Pc1. pose proof (Pc 2%nat ltac:(lia)) as Pc2.
    pose proof (Pc 3%nat ltac:(lia)) as Pc3.
    pose proof (Pn 1%nat ltac:(lia)) as Pn1. pose proof (Pn 2%nat ltac:(lia)) as Pn2.
    pose proof (Pn 3%nat ltac:(lia)) as Pn3.
    rewrite (Hcell _ _ _ Hr) in Pr1. rewrite (Hcell _ _ _ Hr) in Pr2.
    rewrite (Hcell _ _ _ Hr) in Pr3.
    rewrite (Hcell _ _ _ Hc) in Pc1. rewrite (Hcell _ _ _ Hc) in Pc2.
    rewrite (Hcell _ _ _ Hc) in Pc3.
    rewrite (Hcell _ _ _ Hn) in Pn1. rewrite (Hcell _ _ _ Hn) in Pn2.
    rewrite (Hcell _ _ _ Hn) in Pn3.
    destruct (Hyear 1%nat ltac:(lia))
      as (_ & _ & _ & Y1 & A1 & L1 & C1 & R1 & T1 & _ & S1 & _).
    destruct (Hyear 2%nat ltac:(lia))
      as (_ & _ & _ & Y2 & A2 & L2 & C2 & R2 & T2 & _ & S2 & _).
    destruct (Hyear 3%nat ltac:(lia))
      as (_ & _ & _ & Y3 & A3 & L3 & C3 & R3 & T3 & _ & S3 & _).
    cbn [Nat.sub Nat.eqb] in *.
    clear Hyear Hhist H Hpos Pr Pc Pn Hcell Hr Hc Hn Hrows.
    amounts.
    assert (0 <= cell df "Accounts Payable(J)" 1) by nra.
    assert (0 <= cell df "Accounts Payable(J)" 2) by nra.
    assert (0 <= cell df "Accounts Payable(J)" 3) by nra.
    assert (0 <= cell df "Advances from Customers(K)" 1) by nra.
    assert (0 <= cell df "Advances from Customers(K)" 2) by nra.
    assert (0 <= cell df "Advances from Customers(K)" 3) by nra.
    intros i Hi. destruct i as [|[|[|[|]]]]; try lia; lra. }
  destruct (bs_key_metrics_spec df Hshape)
    as [(_ & i & Hi & Hz)|(m & Hm & _)].
  - exfalso.
    destruct (Nat.eq_dec i 0) as [->|Hne].
    + historical_cell Hhist "Total Assets(F+G+H+I)" 1392.00.
      rewrite E in Hz. discriminate Hz.
    + pose proof (Hta i ltac:(lia)) as Hge. lra.
  - exists df, m. split; [|exact Hta].
    unfold BalanceSheet.create_balance_sheet_section.
    rewrite Hclick, H. cbn [Py.bind]. rewrite Hm. reflexivity.
Qed.

(** X10: the balance sheet section names the first row it misses: when the
    P&L table has the rows read before [label] and lacks [label], the
    section fails with the key error of [label] and returns nothing.  The
    example table under [__main__] of balance_sheet.py is indexed by year
    and so lacks the first row read. *)
Theorem bs_reports_first_missing_row pl w before label after :
  BalanceSheet.generate_button w = true ->
  balance_sheet_reads = before ++ label :: after ->
  (forall l, In l before -> exists row, loc pl l = Ok row) ->
  (exists e, loc pl label = Raise e) ->
  BalanceSheet.create_balance_sheet_section pl w
    = BalanceSheet.Failed (KeyError label) /\
  BalanceSheet.returned (BalanceSheet.create_balance_sheet_section pl w) = None.
Proof.
  intros Hclick Hreads Hbefore (e & Hmiss).
  pose proof (getitem_raise _ _ _ Hmiss) as ->.
  assert (Hfail : BalanceSheet.create_balance_sheet_section pl w
                  = BalanceSheet.Failed (KeyError label)).
  { unfold BalanceSheet.create_balance_sheet_section, BalanceSheet.forecast.
    rewrite Hclick. unfold balance_sheet_reads in Hreads.
    destruct before as [|b1 [|b2 [|b3 before]]]; cbn in Hreads.
    - injection Hreads as <- _. rewrite Hmiss. reflexivity.
    - injection Hreads as <- <- _.
      destruct (Hbefore _ (or_introl eq_refl)) as (r1 & ->).
      cbn [Py.bind]. rewrite Hmiss. reflexivity.
    - injection Hreads as <- <- <- _.
      destruct (Hbefore _ (or_introl eq_refl)) as (r1 & ->).
      destruct (Hbefore _ (or_intror (or_introl eq_refl))) as (r2 & ->).
      cbn [Py.bind]. rewrite Hmiss. reflexivity.
    - injection Hreads as _ _ _ Hnil. destruct before; discriminate. }
  split; [exact Hfail|]. rewrite Hfail. reflexivity.
Qed.

(** ** Cash flow *)

(** The statement is computed whenever the seven rows read have four
    periods. *)
Lemma cf_forecast_total pl bs w :
  (forall f label, In (f, label) (cash_flow_reads pl bs) ->
     has_four_periods f label) ->
  exists s, CashFlow.forecast pl bs w = Ok s.
Proof.
  intros H. unfold cash_flow_reads in H.
  destruct (H pl "Net Profit(A-B-C-D-E)" ltac:(simpl; tauto)) as (l1 & H1 & L1).
  destruct (H bs "Fixed Assets(I)" ltac:(simpl; tauto)) as (l2 & H2 & L2).
  destruct (H bs "Accounts Receivable(G)" ltac:(simpl; tauto)) as (l3 & H3 & L3).
  destruct (H bs "Prepayments(H)" ltac:(simpl; tauto)) as (l4 & H4 & L4).
  destruct (H bs "Accounts Payable(J)" ltac:(simpl; tauto)) as (l5 & H5 & L5).
  destruct (H bs "Advances from Customers(K)" ltac:(simpl; tauto))
    as (l6 & H6 & L6).
  destruct (H bs "Share Capital(L)" ltac:(simpl; tauto)) as (l7 & H7 & L7).
  unfold CashFlow.forecast. rewrite H1, H2, H3, H4, H5, H6, H7.
  four_or_less l1; simpl in L1; try (exfalso; lia).
  four_or_less l2; simpl in L2; try (exfalso; lia).
  four_or_less l3; simpl in L3; try (exfalso; lia).
  four_or_less l4; simpl in L4; try (exfalso; lia).
  four_or_less l5; simpl in L5; try (exfalso; lia).
  four_or_less l6; simpl in L6; try (exfalso; lia).
  four_or_less l7; simpl in L7; try (exfalso; lia).
  evaluate. eexists. reflexivity.
Qed.

(** A generated balance sheet has every row with four periods. *)
Lemma bs_rows_have_four_periods pl w df label :
  BalanceSheet.forecast pl w = Ok df ->
  In label bs_labels ->
  has_four_periods df label.
Proof.
  intros H Hin.
  destruct (bs_forecast_spec pl w df H)
    as (? & ? & ? & _ & _ & _ & _ & _ & _ & (Hk & Hn) & _).
  destruct (getitem_shape (rows df) bs_labels 4 label Hk Hn Hin)
    as (row & Hrow & Hlen).
  exists row. split; [exact Hrow|lia].
Qed.

(** The facts about one forecast period of a balance sheet and its cash
    flow statement, as equations between amounts. *)
Ltac period_facts Hbs Hcf i :=
  let H := fresh "B" in
  pose proof (Hbs i ltac:(lia)) as H;
  destruct H as (? & ? & ? & ? & ? & ? & ? & ? & ? & ? & ? & ?);
  let H' := fresh "F" in
  pose proof (Hcf i ltac:(lia)) as H';
  destruct H' as (? & ? & ?).

(** X11: the cash flow statement reconciles with the balance sheet it is
    computed from: in every forecast period the Net Cash Flow is the
    change of Cash on the balance sheet, whatever the depreciation rate. *)
Theorem net_cash_flow_is_change_in_cash pl wbs bs mbs wcf s :
  BalanceSheet.create_balance_sheet_section pl wbs
    = BalanceSheet.Generated bs mbs ->
  CashFlow.create_cash_flow_section pl bs wcf = CashFlow.Shown s ->
  forall i, (1 <= i <= 3)%nat ->
    cell (CashFlow.cash_flow_df s) "**Net Cash Flow(N+O+P)**" i
      == cell bs "Cash(F)" i - cell bs "Cash(F)" (i - 1).
Proof.
  intros Hbs Hcf.
  apply bs_generated_inv in Hbs. destruct Hbs as (_ & Hbs & _).
  destruct (bs_forecast_spec pl wbs bs Hbs)
    as (? & ? & net_profits & _ & _ & Hn & _ & _ & _ & _ & Hhist & Hyear).
  apply cf_shown_inv in Hcf. destruct Hcf as (_ & Hcf).
  destruct (cf_forecast_spec pl bs wcf s Hcf)
    as (_ & _ & _ & _ & _ & Hflow & Hnet & _).
  assert (Hcell : forall i,
            cell pl "Net Profit(A-B-C-D-E)" i = nth i net_profits 0)
    by (intros i; unfold cell; rewrite Hn; reflexivity).
  historical_cell Hhist "Cash(F)" 1260.00.
  historical_cell Hhist "Accounts Receivable(G)" 110.00.
  historical_cell Hhist "Prepayments(H)" 6.00.
  historical_cell Hhist "Fixed Assets(I)" 16.00.
  historical_cell Hhist "Accounts Payable(J)" 120.00.
  historical_cell Hhist "Advances from Customers(K)" 10.00.
  historical_cell Hhist "Share Capital(L)" 1333.52.
  historical_cell Hhist "Retained Earnings(M)" (-71.52).
  pose proof (Hnet 1%nat ltac:(lia)) as N1.
  pose proof (Hnet 2%nat ltac:(lia)) as N2.
  pose proof (Hnet 3%nat ltac:(lia)) as N3.
  period_facts Hyear Hflow 1%nat.
  period_facts Hyear Hflow 2%nat.
  period_facts Hyear Hflow 3%nat.
  cbn [Nat.sub Nat.eqb] in *.
  rewrite !Hcell in *.
  clear Hyear Hflow Hnet Hhist Hcell Hn Hbs Hcf.
  amounts.
  intros i Hi.
  destruct i as [|[|[|[|]]]]; try lia; cbn [Nat.sub]; lra.
Qed.

(** X12: the depreciation rate only moves cash between the operating and
    the investing flow: two statements computed from the same tables with
    different rates have, in every forecast period, the same Net and
    Financing Cash Flow, and Operating Cash Flows that differ by Fixed
    Assets times the difference of the rates. *)
Theorem depreciation_moves_cash_between_flows pl bs w1 w2 s1 s2 :
  CashFlow.create_cash_flow_section pl bs w1 = CashFlow.Shown s1 ->
  CashFlow.create_cash_flow_section pl bs w2 = CashFlow.Shown s2 ->
  forall i, (1 <= i <= 3)%nat ->
    let cf1 := CashFlow.cash_flow_df s1 in
    let cf2 := CashFlow.cash_flow_df s2 in
    cell cf1 "**Net Cash Flow(N+O+P)**" i == cell cf2 "**Net Cash Flow(N+O+P)**" i /\
    cell cf1 "Financing Cash Flow(P)" i == cell cf2 "Financing Cash Flow(P)" i /\
    cell cf1 "Operating Cash Flow(N)" i - cell cf2 "Operating Cash Flow(N)" i
      == cell bs "Fixed Assets(I)" i
         * (CashFlow.depreciation_rate w1 - CashFlow.depreciation_rate w2) /\
    cell cf1 "Investing Cash Flow(O)" i - cell cf2 "Investing Cash Flow(O)" i
      == cell bs "Fixed Assets(I)" i
         * (CashFlow.depreciation_rate w2 - CashFlow.depreciation_rate w1).
Proof.
  intros H1 H2 i Hi.
  apply cf_shown_inv in H1. destruct H1 as (_ & H1).
  apply cf_shown_inv in H2. destruct H2 as (_ & H2).
  destruct (cf_forecast_spec pl bs w1 s1 H1)
    as (_ & Hdep1 & _ & _ & _ & Hflow1 & Hnet1 & _).
  destruct (cf_forecast_spec pl bs w2 s2 H2)
    as (_ & Hdep2 & _ & _ & _ & Hflow2 & Hnet2 & _).
  destruct (Hflow1 i Hi) as (O1 & I1 & F1).
  destruct (Hflow2 i Hi) as (O2 & I2 & F2).
  pose proof (Hnet1 i ltac:(lia)) as N1. pose proof (Hnet2 i ltac:(lia)) as N2.
  pose proof (Hdep1 i ltac:(lia)) as D1. pose proof (Hdep2 i ltac:(lia)) as D2.
  cbv zeta. rewrite N1, N2, O1, O2, I1, I2, F1, F2, D1, D2.
  repeat split; ring.
Qed.

(** X13: in a session the Financing Cash Flow is the capital increase in
    period 1 and 0 in the periods 2 and 3. *)
Theorem financing_cash_flow_is_capital_increase pl wbs bs mbs wcf s :
  BalanceSheet.create_balance_sheet_section pl wbs
    = BalanceSheet.Generated bs mbs ->
  CashFlow.create_cash_flow_section pl bs wcf = CashFlow.Shown s ->
  forall i, (1 <= i <= 3)%nat ->
    cell (CashFlow.cash_flow_df s) "Financing Cash Flow(P)" i
      == (if Nat.eqb i 1 then BalanceSheet.capital_increase wbs else 0).
Proof.
  intros Hbs Hcf i Hi.
  apply bs_generated_inv in Hbs. destruct Hbs as (_ & Hbs & _).
  destruct (bs_forecast_spec pl wbs bs Hbs)
    as (? & ? & ? & _ & _ & _ & _ & _ & _ & _ & _ & Hyear).
  apply cf_shown_inv in Hcf. destruct Hcf as (_ & Hcf).
  destruct (cf_forecast_spec pl bs wcf s Hcf)
    as (_ & _ & _ & _ & _ & Hflow & _).
  destruct (Hflow i Hi) as (_ & _ & F).
  destruct (Hyear i Hi) as (_ & _ & _ & _ & _ & _ & C & _).
  rewrite F, C. ring.
Qed.

(** X14: in a session the Investing Cash Flow of a forecast period is minus
    the growth of Fixed Assets and minus the depreciation of the period,
    Fixed Assets of the period before times (g + (1 + g) * rate); for
    slider values it is never positive. *)
Theorem investing_cash_flow_is_an_outflow pl wbs bs mbs wcf s :
  BalanceSheet.create_balance_sheet_section pl wbs
    = BalanceSheet.Generated bs mbs ->
  CashFlow.create_cash_flow_section pl bs wcf = CashFlow.Shown s ->
  forall i, (1 <= i <= 3)%nat ->
    let g := BalanceSheet.fixed_asset_growth wbs in
    let rate := CashFlow.depreciation_rate wcf in
    cell (CashFlow.cash_flow_df s) "Investing Cash Flow(O)" i
      == - (cell bs "Fixed Assets(I)" (i - 1) * (g + (1 + g) * rate)) /\
    (BalanceSheet.slider_bounds wbs -> CashFlow.slider_bounds wcf ->
     cell (CashFlow.cash_flow_df s) "Investing Cash Flow(O)" i <= 0).
Proof.
  intros Hbs Hcf.
  apply bs_generated_inv in Hbs. destruct Hbs as (_ & Hbs & _).
  destruct (bs_forecast_spec pl wbs bs Hbs)
    as (? & ? & ? & _ & _ & _ & _ & _ & _ & _ & Hhist & Hyear).
  apply cf_shown_inv in Hcf. destruct Hcf as (_ & Hcf).
  destruct (cf_forecast_spec pl bs wcf s Hcf)
    as (_ & Hdep & _ & _ & _ & Hflow & _).
  historical_cell Hhist "Fixed Assets(I)" 16.00.
  assert (Heq : forall i, (1 <= i <= 3)%nat ->
            cell (CashFlow.cash_flow_df s) "Investing Cash Flow(O)" i
            == - (cell bs "Fixed Assets(I)" (i - 1)
                  * (BalanceSheet.fixed_asset_growth wbs
                     + (1 + BalanceSheet.fixed_asset_growth wbs)
                       * CashFlow.depreciation_rate wcf))).
  { intros i Hi. destruct (Hflow i Hi) as (_ & I & _).
    destruct (Hyear i Hi) as (_ & _ & A & _).
    rewrite I, (Hdep i ltac:(lia)), A. ring. }
  intros i Hi. cbv zeta. split; [exact (Heq i Hi)|].
  intros (_ & _ & _ & _ & (Hg & _)) (Hr & _).
  assert (Hrate : 0 <= CashFlow.depreciation_rate wcf)
    by (unfold CashFlow.depreciation_rate; percent; lra).
  destruct (Hyear 1%nat ltac:(lia)) as (_ & _ & A1 & _).
  destruct (Hyear 2%nat ltac:(lia)) as (_ & _ & A2 & _).
  cbn [Nat.sub] in *. amounts.
  assert (P1 : 0 <= cell bs "Fixed Assets(I)" 1) by nra.
  assert (P2 : 0 <= cell bs "Fixed Assets(I)" 2) by nra.
  assert (K : 0 <= BalanceSheet.fixed_asset_growth wbs
                   + (1 + BalanceSheet.fixed_asset_growth wbs)
                     * CashFlow.depreciation_rate wcf) by nra.
  rewrite (Heq i Hi).
  assert (P : 0 <= cell bs "Fixed Assets(I)" (i - 1))
    by (destruct i as [|[|[|[|]]]]; try lia; cbn [Nat.sub]; lra).
  pose proof (Qmult_le_0_compat _ _ P K). lra.
Qed.

(** X15: once the button is clicked, the cash flow statement is shown
    exactly when the Net Profit row of the P&L table and the six rows read
    from the balance sheet have a value for each of the four periods; no
    value in the tables and no depreciation rate makes it fail. *)
Theorem cf_shown_iff_rows pl bs w :
  CashFlow.generate_button w = true ->
  ((exists s, CashFlow.create_cash_flow_section pl bs w = CashFlow.Shown s) <->
   (forall f label, In (f, label) (cash_flow_reads pl bs) ->
      has_four_periods f label)).
Proof.
  intros Hclick. split.
  - intros (s & H). apply cf_shown_inv in H. destruct H as (_ & H).
    destruct (cf_forecast_inputs pl bs w s H)
      as (l1 & l2 & l3 & l4 & l5 & l6 & l7 & H1 & H2 & H3 & H4 & H5 & H6 & H7
          & L1 & L2 & L3 & L4 & L5 & L6 & L7).
    intros f label Hin. unfold has_four_periods. simpl in Hin.
    repeat (destruct Hin as [Hin|Hin]; [injection Hin as <- <-; eauto|]).
    contradiction.
  - intros Hrows. destruct (cf_forecast_total pl bs w Hrows) as (s & H).
    exists s. unfold CashFlow.create_cash_flow_section.
    rewrite Hclick, H. reflexivity.
Qed.

(** X16: in a session the cash flow section cannot fail: for a balance
    sheet that the balance sheet section generated from the P&L table, a
    click on the button shows the statement. *)
Theorem cf_shows_after_balance_sheet pl wbs bs mbs wcf :
  BalanceSheet.create_balance_sheet_section pl wbs
    = BalanceSheet.Generated bs mbs ->
  CashFlow.generate_button wcf = true ->
  exists s, CashFlow.create_cash_flow_section pl bs wcf = CashFlow.Shown s.
Proof.
  intros Hbs Hclick.
  apply bs_generated_inv in Hbs. destruct Hbs as (_ & Hbs & _).
  assert (Hrows : forall f label, In (f, label) (cash_flow_reads pl bs) ->
            has_four_periods f label).
  { intros f label Hin. simpl in Hin.
    destruct Hin as [Hin|Hin].
    - injection Hin as <- <-.
      destruct (bs_forecast_spec pl wbs bs Hbs)
        as (? & ? & net_profits & _ & _ & Hn & _ & _ & Ln & _).
      exists net_profits. split; assumption.
    - repeat (destruct Hin as [Hin|Hin];
              [injection Hin as <- <-;
               apply (bs_rows_have_four_periods pl wbs); [exact Hbs|];
               simpl; tauto|]).
      contradiction. }
  destruct (cf_forecast_total pl bs wcf Hrows) as (s & H).
  exists s. unfold CashFlow.create_cash_flow_section.
  rewrite Hclick, H. reflexivity.
Qed.

(** One more row of [cash_flow_reads] that is there. *)
Ltac next_read Hreads Hbefore Hmiss :=
  match type of Hreads with
  | _ = ?before ++ _ =>
      destruct before as [|[? ?] before]; cbn in Hreads;
      [injection Hreads as <- <-; rewrite Hmiss; reflexivity|];
      injection Hreads as <- <- Hreads;
      let r := fresh "r" in
      let R := fresh "R" in
      destruct (Hbefore _ _ (or_introl eq_refl)) as (r & R);
      rewrite R; cbn [Py.bind];
      pose proof (fun f l H => Hbefore f l (or_intror H)) as Hbefore';
      clear Hbefore; rename Hbefore' into Hbefore
  end.

(** X17: the cash flow section names the first row it misses: when the
    rows read before [label] are there and [label] is not, the section
    shows the key error of [label] and no statement.  The example tables
    under [__main__] of cash_flow.py are indexed by year and so lack the
    first row read. *)
Theorem cf_reports_first_missing_row pl bs w before f label after :
  CashFlow.generate_button w = true ->
  cash_flow_reads pl bs = before ++ (f, label) :: after ->
  (forall f' l, In (f', l) before -> exists row, loc f' l = Ok row) ->
  (exists e, loc f label = Raise e) ->
  CashFlow.create_cash_flow_section pl bs w = CashFlow.Failed (KeyError label).
Proof.
  intros Hclick Hreads Hbefore (e & Hmiss).
  pose proof (getitem_raise _ _ _ Hmiss) as ->.
  unfold CashFlow.create_cash_flow_section, CashFlow.forecast.
  rewrite Hclick. unfold cash_flow_reads in Hreads.
  do 7 (next_read Hreads Hbefore Hmiss).
  destruct before; discriminate.
Qed.

(** ** Orchestrator *)

Lemma pl_idle w :
  ProfitLoss.generate_button w = false ->
  ProfitLoss.create_profit_loss_section w = Ok None.
Proof.
  intros H. unfold ProfitLoss.create_profit_loss_section, ProfitLoss.section.
  rewrite H. reflexivity.
Qed.

Lemma bs_call_idle pl w :
  BalanceSheet.generate_button w = false ->
  Main.call_balance_sheet pl w = BalanceSheet.Idle.
Proof.
  intros H. destruct pl as [pl|]; cbn.
  - unfold BalanceSheet.create_balance_sheet_section. rewrite H. reflexivity.
  - rewrite H. reflexivity.
Qed.

(** X18: a downstream tab whose upstream statement is missing calls
    nothing and shows the message instead: without a generated P&L both
    tabs ask for the P&L forecast, and with a P&L but no balance sheet the
    cash flow tab asks for the balance sheet forecast. *)
Theorem downstream_tabs_are_blocked s ui :
  ProfitLoss.generate_button (Main.pl_widgets ui) = false ->
  (Main.is_pl_generated s = false ->
   Main.events (Main.run s ui)
     = [Main.Info "Please generate P&L forecast first";
        Main.Info "Please generate P&L forecast first"] /\
   Main.state_after (Main.run s ui) = Main.sidebar ui s) /\
  (Main.is_pl_generated s = true ->
   Main.is_bs_generated s = false ->
   BalanceSheet.generate_button (Main.bs_widgets ui) = false ->
   Main.events (Main.run s ui)
     = [Main.BalanceSheetCall (Main.profit_loss_data s) BalanceSheet.Idle;
        Main.Info "Please generate Balance Sheet forecast first"] /\
   Main.state_after (Main.run s ui) = Main.sidebar ui s).
Proof.
  intros Hpl. apply pl_idle in Hpl.
  destruct (run_state s ui None Hpl) as (Hstate & Hevents & _).
  cbn [option_map Main.tab1] in *. rewrite Hstate, Hevents.
  split.
  - intros Hflag. unfold Main.tab2. rewrite Hflag. cbn [fst snd].
    unfold Main.tab3. rewrite Hflag. cbn. split; reflexivity.
  - intros Hflag Hbs Hidle. unfold Main.tab2. rewrite Hflag.
    rewrite (bs_call_idle _ _ Hidle). cbn [fst snd BalanceSheet.returned].
    unfold Main.tab3. rewrite Hflag, Hbs. cbn. split; reflexivity.
Qed.

(** X19: a stored statement is only replaced by its own section or by the
    reset: a run without reset in which the P&L button is not clicked
    keeps the stored P&L table and its flag, and if the balance sheet
    button is not clicked either the run leaves the whole session state
    as it was, whatever the cash flow tab does. *)
Theorem stored_statements_persist s ui :
  ProfitLoss.generate_button (Main.pl_widgets ui) = false ->
  Main.reset_button ui = false ->
  Main.profit_loss_data (Main.state_after (Main.run s ui))
    = Main.profit_loss_data s /\
  Main.is_pl_generated (Main.state_after (Main.run s ui))
    = Main.is_pl_generated s /\
  (BalanceSheet.generate_button (Main.bs_widgets ui) = false ->
   Main.state_after (Main.run s ui) = s).
Proof.
  intros Hpl Hreset. apply pl_idle in Hpl.
  destruct (run_state s ui None Hpl) as (Hstate & _).
  cbn [option_map Main.tab1] in *. rewrite Hstate.
  unfold Main.sidebar. rewrite Hreset, tab3_state.
  split; [apply tab2_profit_loss_data|]. split.
  - unfold Main.tab2. destruct (Main.is_pl_generated s) eqn:Hflag; [|exact Hflag].
    cbn [fst]. destruct (BalanceSheet.returned _); cbn; [reflexivity|exact Hflag].
  - intros Hidle. unfold Main.tab2.
    destruct (Main.is_pl_generated s); [|reflexivity].
    rewrite (bs_call_idle _ _ Hidle). reflexivity.
Qed.

(** ** The session dictionary *)

Lemma contains_getitem st key :
  SessionState.contains st key = true <-> exists v, getitem st key = Ok v.
Proof.
  induction st as [|[k x] st IH]; cbn.
  - split; [discriminate|intros (v & H); discriminate].
  - destruct (String.eqb k key); [|exact IH].
    split; [intros _; exists x; reflexivity|reflexivity].
Qed.

Lemma getitem_setitem_same st key v :
  getitem (SessionState.setitem st key v) key = Ok v.
Proof.
  induction st as [|[k x] st IH]; cbn.
  - rewrite String.eqb_refl. reflexivity.
  - destruct (String.eqb k key) eqn:E; cbn; rewrite E; [reflexivity|exact IH].
Qed.

Lemma getitem_setitem_other st key v key' :
  key <> key' ->
  getitem (SessionState.setitem st key v) key' = getitem st key'.
Proof.
  intros Hne. induction st as [|[k x] st IH]; cbn.
  - apply String.eqb_neq in Hne. rewrite Hne. reflexivity.
  - destruct (String.eqb k key) eqn:E; cbn.
    + apply String.eqb_eq in E. subst k.
      apply String.eqb_neq in Hne. rewrite Hne. reflexivity.
    + destruct (String.eqb k key'); [reflexivity|exact IH].
Qed.

Lemma contains_setitem st key v key' :
  SessionState.contains (SessionState.setitem st key v) key'
  = String.eqb key key' || SessionState.contains st key'.
Proof.
  induction st as [|[k x] st IH]; cbn.
  - destruct (String.eqb key key'); reflexivity.
  - destruct (String.eqb k key) eqn:E; cbn.
    + apply String.eqb_eq in E. subst k.
      destruct (String.eqb key key'); reflexivity.
    + rewrite IH. destruct (String.eqb k key'), (String.eqb key key'); reflexivity.
Qed.

Lemma getitem_setdefault st key v key' :
  getitem (SessionState.setdefault st key v) key'
  = if SessionState.contains st key' then getitem st key'
    else if String.eqb key key' then Ok v else getitem st key'.
Proof.
  unfold SessionState.setdefault.
  destruct (SessionState.contains st key) eqn:Hc; cbn [negb].
  - destruct (SessionState.contains st key') eqn:Hc'; [reflexivity|].
    destruct (String.eqb key key') eqn:E; [|reflexivity].
    apply String.eqb_eq in E. subst key'. congruence.
  - destruct (String.eqb key key') eqn:E.
    + apply String.eqb_eq in E. subst key'. rewrite Hc.
      apply getitem_setitem_same.
    + apply String.eqb_neq in E. rewrite (getitem_setitem_other _ _ _ _ E).
      destruct (SessionState.contains st key'); reflexivity.
Qed.

Lemma contains_setdefault st key v key' :
  SessionState.contains (SessionState.setdefault st key v) key'
  = String.eqb key key' || SessionState.contains st key'.
Proof.
  unfold SessionState.setdefault.
  destruct (SessionState.contains st key) eqn:Hc; cbn [negb].
  - destruct (String.eqb key key') eqn:E; [|reflexivity].
    apply String.eqb_eq in E. subst key'. rewrite Hc. reflexivity.
  - apply contains_setitem.
Qed.

Lemma setdefault_present st key v :
  SessionState.contains st key = true -> SessionState.setdefault st key v = st.
Proof. intros H. unfold SessionState.setdefault. rewrite H. reflexivity. Qed.

(** What [init_session_state] leaves under a key. *)
Lemma getitem_init_session_state st key :
  getitem (SessionState.init_session_state st) key
  = if SessionState.contains st key then getitem st key
    else if existsb (String.eqb key) SessionState.script_keys
         then Ok (initial_value key) else getitem st key.
Proof.
  unfold SessionState.init_session_state.
  rewrite !getitem_setdefault, !contains_setdefault.
  destruct (SessionState.contains st key) eqn:Hc.
  - rewrite !orb_true_r. reflexivity.
  - rewrite !orb_false_r. unfold initial_value.
    cbn [existsb SessionState.script_keys].
    rewrite !(String.eqb_sym key).
    destruct (String.eqb "profit_loss_data" key) eqn:E1.
    { apply String.eqb_eq in E1. subst key. reflexivity. }
    destruct (String.eqb "balance_sheet_data" key) eqn:E2.
    { apply String.eqb_eq in E2. subst key. reflexivity. }
    destruct (String.eqb "is_pl_generated" key) eqn:E3.
    { apply String.eqb_eq in E3. subst key. reflexivity. }
    destruct (String.eqb "is_bs_generated" key) eqn:E4.
    { apply String.eqb_eq in E4. subst key. reflexivity. }
    reflexivity.
Qed.

(** X20: [init_session_state] never overwrites: every entry that is in the
    session state keeps its value, each of the four keys of the script is
    in the session state afterwards, with [None] or [False] if it was not
    there, no other key is added, and a second call changes nothing. *)
Theorem init_session_state_keeps_entries st :
  (forall key v, getitem st key = Ok v ->
     getitem (SessionState.init_session_state st) key = Ok v) /\
  (forall key, In key SessionState.script_keys ->
     SessionState.contains st key = false ->
     getitem (SessionState.init_session_state st) key = Ok (initial_value key)) /\
  (forall key, ~ In key SessionState.script_keys ->
     getitem (SessionState.init_session_state st) key = getitem st key) /\
  SessionState.init_session_state (SessionState.init_session_state st)
    = SessionState.init_session_state st.
Proof.
  pose proof (getitem_init_session_state st) as Hget.
  assert (Hcontains : forall key, In key SessionState.script_keys ->
            SessionState.contains (SessionState.init_session_state st) key = true).
  { intros key Hin. unfold SessionState.init_session_state.
    rewrite !contains_setdefault. simpl in Hin.
    destruct Hin as [<-|[<-|[<-|[<-|[]]]]]; cbn; rewrite ?orb_true_r; reflexivity. }
  split; [|split; [|split]].
  - intros key v H. rewrite Hget.
    assert (Hc : SessionState.contains st key = true)
      by (apply contains_getitem; eauto).
    rewrite Hc. exact H.
  - intros key Hin Hc. rewrite Hget, Hc.
    assert (He : existsb (String.eqb key) SessionState.script_keys = true).
    { apply existsb_exists. exists key. split; [exact Hin|apply String.eqb_refl]. }
    rewrite He. reflexivity.
  - intros key Hout. rewrite Hget.
    destruct (SessionState.contains st key); [reflexivity|].
    destruct (existsb (String.eqb key) SessionState.script_keys) eqn:He;
      [|reflexivity].
    apply existsb_exists in He. destruct He as (k & Hin & E).
    apply String.eqb_eq in E. subst k. contradiction.
  - unfold SessionState.init_session_state at 1.
    rewrite !setdefault_present; [reflexivity| | | |];
      rewrite ?contains_setdefault, ?Hcontains; rewrite ?orb_true_r;
      try reflexivity; simpl; tauto.
Qed.

(** X21: [reset_all_data] clears the statements and the flags and nothing
    else: the four keys of the script hold [None] and [False] afterwards,
    and every other entry, such as the number a keyed slider holds, keeps
    its value. *)
Theorem reset_all_data_keeps_sliders st :
  (forall key, In key SessionState.script_keys ->
     getitem (SessionState.reset_all_data st) key = Ok (initial_value key)) /\
  (forall key, ~ In key SessionState.script_keys ->
     getitem (SessionState.reset_all_data st) key = getitem st key).
Proof.
  split.
  - intros key Hin. simpl in Hin. unfold SessionState.reset_all_data.
    destruct Hin as [<-|[<-|[<-|[<-|[]]]]];
      repeat first [rewrite getitem_setitem_same
                   |rewrite getitem_setitem_other by discriminate];
      reflexivity.
  - intros key Hout. unfold SessionState.reset_all_data.
    rewrite !getitem_setitem_other; [reflexivity| | | |];
      intros <-; apply Hout; simpl; tauto.
Qed.

(** X22: what main.py reads from the session state is not changed by
    [init_session_state] once the four keys are there, and a fresh session
    after [init_session_state] reads like any session after
    [reset_all_data]: no statement stored and both flags off. *)
Theorem init_and_reset_read_alike :
  (forall st s,
     SessionState.read st = Some s ->
     SessionState.read (SessionState.init_session_state st) = Some s) /\
  SessionState.read (SessionState.init_session_state []) = Some Main.reset_all_data /\
  (forall st,
     SessionState.read (SessionState.reset_all_data st) = Some Main.reset_all_data).
Proof.
  split; [|split].
  - intros st s H. unfold SessionState.read in *.
    destruct (getitem st "profit_loss_data") as [v1|] eqn:H1; [|discriminate].
    destruct (getitem st "balance_sheet_data") as [v2|] eqn:H2; [|discriminate].
    destruct (getitem st "is_pl_generated") as [v3|] eqn:H3;
      [|destruct v1, v2; discriminate].
    destruct (getitem st "is_bs_generated") as [v4|] eqn:H4;
      [|destruct v1, v2, v3; discriminate].
    assert (Hkeep : forall key v, getitem st key = Ok v ->
              getitem (SessionState.init_session_state st) key = Ok v).
    { intros key v Hv. rewrite getitem_init_session_state.
      assert (Hc : SessionState.contains st key = true)
        by (apply contains_getitem; eauto).
      rewrite Hc. exact Hv. }
    rewrite (Hkeep _ _ H1), (Hkeep _ _ H2), (Hkeep _ _ H3), (Hkeep _ _ H4).
    exact H.
  - reflexivity.
  - intros st. unfold SessionState.read, SessionState.reset_all_data.
    repeat first [rewrite getitem_setitem_same
                 |rewrite getitem_setitem_other by discriminate].
    reflexivity.
Qed.

(** ** The further properties at concrete inputs *)

Lemma default_sliders_in_bounds :
  ProfitLoss.slider_bounds (ProfitLoss.default_widgets true).
Proof.
  intros year _. cbn. repeat split; vm_compute; discriminate.
Qed.

Lemma default_bs_sliders_in_bounds :
  BalanceSheet.slider_bounds (BalanceSheet.default_widgets true).
Proof.
  unfold BalanceSheet.slider_bounds. cbn. repeat split; vm_compute; discriminate.
Qed.

Lemma pl_revenue_and_gross_profit_bounds_witness :
  ProfitLoss.slider_bounds (ProfitLoss.default_widgets true) /\
  ProfitLoss.create_profit_loss_section (ProfitLoss.default_widgets true)
  = Ok (Some (default_pl, default_pl_metrics)) /\
  (1 <= 3 <= 3)%nat /\
  cell default_pl "Revenue(A)" 2 <= cell default_pl "Revenue(A)" 3.
Proof.
  assert (H : ProfitLoss.create_profit_loss_section
                (ProfitLoss.default_widgets true)
              = Ok (Some (default_pl, default_pl_metrics)))
    by (vm_compute; reflexivity).
  assert (Hi : (1 <= 3 <= 3)%nat) by lia.
  split; [exact default_sliders_in_bounds|]. split; [exact H|].
  split; [exact Hi|].
  exact (proj1 (pl_revenue_and_gross_profit_bounds _ _ _
                  default_sliders_in_bounds H 3%nat Hi)).
Defined.

Lemma pl_key_metrics_witness :
  ProfitLoss.create_profit_loss_section (ProfitLoss.default_widgets true)
  = Ok (Some (default_pl, default_pl_metrics)) /\
  fst (ProfitLoss.Gross_Margin default_pl_metrics)
    == 1 - ProfitLoss.cost_ratio_ (ProfitLoss.default_widgets true) "2026E" / 100.
Proof.
  assert (H : ProfitLoss.create_profit_loss_section
                (ProfitLoss.default_widgets true)
              = Ok (Some (default_pl, default_pl_metrics)))
    by (vm_compute; reflexivity).
  split; [exact H|].
  exact (proj1 (pl_key_metrics _ _ _ H)).
Defined.

Lemma pl_no_look_ahead_witness :
  ProfitLoss.create_profit_loss_section (ProfitLoss.default_widgets true)
  = Ok (Some (default_pl, default_pl_metrics)) /\
  ProfitLoss.create_profit_loss_section late_change_widgets
  = Ok (Some (late_change_pl, late_change_pl_metrics)) /\
  (forall year, In year (firstn 2 ProfitLoss.years) ->
     same_sliders (ProfitLoss.default_widgets true) late_change_widgets year) /\
  In "Net Profit(A-B-C-D-E)" pl_labels /\ (2 <= 2)%nat /\
  cell default_pl "Net Profit(A-B-C-D-E)" 2
    == cell late_change_pl "Net Profit(A-B-C-D-E)" 2.
Proof.
  assert (H1 : ProfitLoss.create_profit_loss_section
                 (ProfitLoss.default_widgets true)
               = Ok (Some (default_pl, default_pl_metrics)))
    by (vm_compute; reflexivity).
  assert (H2 : ProfitLoss.create_profit_loss_section late_change_widgets
               = Ok (Some (late_change_pl, late_change_pl_metrics)))
    by (vm_compute; reflexivity).
  assert (Hs : forall year, In year (firstn 2 ProfitLoss.years) ->
             same_sliders (ProfitLoss.default_widgets true)
               late_change_widgets year).
  { intros year Hin. simpl in Hin.
    destruct Hin as [<-|[<-|[]]]; repeat split; reflexivity. }
  assert (Hl : In "Net Profit(A-B-C-D-E)" pl_labels) by (simpl; tauto).
  assert (Hi : (2 <= 2)%nat) by lia.
  repeat (split; [assumption|]).
  exact (pl_no_look_ahead _ _ _ _ _ _ 2%nat H1 H2 Hs _ _ Hl Hi).
Defined.

Lemma default_pl_has_rows :
  forall label, In label balance_sheet_reads ->
    has_four_periods default_pl label.
Proof.
  intros label Hin. simpl in Hin.
  destruct Hin as [<-|[<-|[<-|[]]]]; eexists; (split; [reflexivity|simpl; lia]).
Qed.

Lemma bs_table_iff_rows_witness :
  (forall label, In label balance_sheet_reads ->
     has_four_periods default_pl label) /\
  exists df,
    BalanceSheet.forecast default_pl (BalanceSheet.default_widgets true) = Ok df.
Proof.
  split; [exact default_pl_has_rows|].
  exact (proj2 (bs_table_iff_rows default_pl (BalanceSheet.default_widgets true))
           default_pl_has_rows).
Defined.

Lemma bs_generated_iff_total_assets_nonzero_witness :
  BalanceSheet.generate_button capital_withdrawn_widgets = true /\
  (exists df,
     BalanceSheet.forecast default_pl capital_withdrawn_widgets = Ok df /\
     cell df "Total Assets(F+G+H+I)" 1 == 0) /\
  BalanceSheet.create_balance_sheet_section default_pl capital_withdrawn_widgets
  = BalanceSheet.Failed ZeroDivisionError.
Proof.
  assert (Hclick : BalanceSheet.generate_button capital_withdrawn_widgets = true)
    by reflexivity.
  destruct (BalanceSheet.forecast default_pl capital_withdrawn_widgets)
    as [df|e] eqn:H; [|vm_compute in H; discriminate H].
  assert (Hz : cell df "Total Assets(F+G+H+I)" 1 == 0).
  { vm_compute in H. injection H as <-. vm_compute. reflexivity. }
  split; [exact Hclick|]. split; [exists df; split; [reflexivity|exact Hz]|].
  apply (proj2 (bs_generated_iff_total_assets_nonzero _ _ df Hclick H)).
  exists 1%nat. split; [lia|exact Hz].
Defined.

Lemma bs_debt_and_equity_ratio_add_to_one_witness :
  BalanceSheet.create_balance_sheet_section default_pl
    (BalanceSheet.default_widgets true)
  = BalanceSheet.Generated default_bs default_bs_metrics /\
  fst (BalanceSheet.Debt_Ratio default_bs_metrics)
  + fst (BalanceSheet.Equity_Ratio default_bs_metrics) == 1.
Proof.
  assert (H : BalanceSheet.create_balance_sheet_section default_pl
                (BalanceSheet.default_widgets true)
              = BalanceSheet.Generated default_bs default_bs_metrics)
    by (vm_compute; reflexivity).
  split; [exact H|].
  exact (proj1 (bs_debt_and_equity_ratio_add_to_one _ _ _ _ H)).
Defined.

Lemma bs_fixed_assets_compound_witness :
  BalanceSheet.create_balance_sheet_section default_pl
    (BalanceSheet.default_widgets true)
  = BalanceSheet.Generated default_bs default_bs_metrics /\
  (3 <= 3)%nat /\
  cell default_bs "Fixed Assets(I)" 3 == 16 * (1 + 0.20) ^ 3.
Proof.
  assert (H : BalanceSheet.create_balance_sheet_section default_pl
                (BalanceSheet.default_widgets true)
              = BalanceSheet.Generated default_bs default_bs_metrics)
    by (vm_compute; reflexivity).
  assert (Hi : (3 <= 3)%nat) by lia.
  split; [exact H|]. split; [exact Hi|].
  exact (bs_fixed_assets_compound _ _ _ _ H 3%nat Hi).
Defined.

Lemma bs_equity_roll_forward_witness :
  BalanceSheet.create_balance_sheet_section default_pl
    (BalanceSheet.default_widgets true)
  = BalanceSheet.Generated default_bs default_bs_metrics /\
  (1 <= 1 <= 3)%nat /\
  cell default_bs "Total Equity(L+M)" 1
    == cell default_bs "Total Equity(L+M)" 0
       + cell default_pl "Net Profit(A-B-C-D-E)" 1 + 325.00.
Proof.
  assert (H : BalanceSheet.create_balance_sheet_section default_pl
                (BalanceSheet.default_widgets true)
              = BalanceSheet.Generated default_bs default_bs_metrics)
    by (vm_compute; reflexivity).
  assert (Hi : (1 <= 1 <= 3)%nat) by lia.
  split; [exact H|]. split; [exact Hi|].
  exact (bs_equity_roll_forward _ _ _ _ H 1%nat Hi).
Defined.

Lemma bs_generates_without_losses_witness :
  BalanceSheet.generate_button (BalanceSheet.default_widgets true) = true /\
  BalanceSheet.slider_bounds (BalanceSheet.default_widgets true) /\
  (forall label, In label balance_sheet_reads ->
     has_four_periods default_pl label) /\
  (forall label i, In label balance_sheet_reads -> (1 <= i <= 3)%nat ->
     0 <= cell default_pl label i) /\
  -1262 < 325.00 /\
  exists df m,
    BalanceSheet.create_balance_sheet_section default_pl
      (BalanceSheet.default_widgets true) = BalanceSheet.Generated df m /\
    forall i, (1 <= i <= 3)%nat ->
      1262 + 325.00 <= cell df "Total Assets(F+G+H+I)" i.
Proof.
  assert (Hclick : BalanceSheet.generate_button
                     (BalanceSheet.default_widgets true) = true) by reflexivity.
  assert (Hpos : forall label i, In label balance_sheet_reads ->
             (1 <= i <= 3)%nat -> 0 <= cell default_pl label i).
  { intros label i Hin Hi. simpl in Hin.
    destruct Hin as [<-|[<-|[<-|[]]]];
      destruct i as [|[|[|[|]]]]; try lia; vm_compute; discriminate. }
  assert (Hci : -1262 < 325.00) by (vm_compute; reflexivity).
  split; [exact Hclick|]. split; [exact default_bs_sliders_in_bounds|].
  split; [exact default_pl_has_rows|]. split; [exact Hpos|].
  split; [exact Hci|].
  exact (bs_generates_without_losses default_pl
           (BalanceSheet.default_widgets true) Hclick
           default_bs_sliders_in_bounds default_pl_has_rows Hpos Hci).
Defined.

Lemma bs_reports_first_missing_row_witness :
  BalanceSheet.generate_button (BalanceSheet.default_widgets true) = true /\
  balance_sheet_reads = [] ++ "Revenue(A)" :: ["Cost(B)"; "Net Profit(A-B-C-D-E)"] /\
  (exists e, loc balance_sheet_example_data "Revenue(A)" = Raise e) /\
  BalanceSheet.create_balance_sheet_section balance_sheet_example_data
    (BalanceSheet.default_widgets true)
  = BalanceSheet.Failed (KeyError "Revenue(A)").
Proof.
  assert (Hclick : BalanceSheet.generate_button
                     (BalanceSheet.default_widgets true) = true) by reflexivity.
  assert (Hreads : balance_sheet_reads
                   = [] ++ "Revenue(A)" :: ["Cost(B)"; "Net Profit(A-B-C-D-E)"])
    by reflexivity.
  assert (Hmiss : exists e, loc balance_sheet_example_data "Revenue(A)" = Raise e)
    by (eexists; reflexivity).
  repeat (split; [assumption|]).
  refine (proj1 (bs_reports_first_missing_row balance_sheet_example_data _ [] _ _
                   Hclick Hreads _ Hmiss)).
  intros l [].
Defined.

Lemma net_cash_flow_is_change_in_cash_witness :
  BalanceSheet.create_balance_sheet_section default_pl
    (BalanceSheet.default_widgets true)
  = BalanceSheet.Generated default_bs default_bs_metrics /\
  CashFlow.create_cash_flow_section default_pl default_bs default_cf_widgets
  = CashFlow.Shown default_cf /\
  (1 <= 1 <= 3)%nat /\
  cell (CashFlow.cash_flow_df default_cf) "**Net Cash Flow(N+O+P)**" 1
    == cell default_bs "Cash(F)" 1 - cell default_bs "Cash(F)" 0.
Proof.
  assert (H1 : BalanceSheet.create_balance_sheet_section default_pl
                 (BalanceSheet.default_widgets true)
               = BalanceSheet.Generated default_bs default_bs_metrics)
    by (vm_compute; reflexivity).
  assert (H2 : CashFlow.create_cash_flow_section default_pl default_bs
                 default_cf_widgets = CashFlow.Shown default_cf)
    by (vm_compute; reflexivity).
  assert (Hi : (1 <= 1 <= 3)%nat) by lia.
  repeat (split; [assumption|]).
  exact (net_cash_flow_is_change_in_cash _ _ _ _ _ _ H1 H2 1%nat Hi).
Defined.

Lemma depreciation_moves_cash_between_flows_witness :
  CashFlow.create_cash_flow_section default_pl default_bs default_cf_widgets
  = CashFlow.Shown default_cf /\
  CashFlow.create_cash_flow_section default_pl default_bs
    slow_depreciation_widgets = CashFlow.Shown slow_depreciation_cf /\
  (1 <= 2 <= 3)%nat /\
  cell (CashFlow.cash_flow_df default_cf) "**Net Cash Flow(N+O+P)**" 2
    == cell (CashFlow.cash_flow_df slow_depreciation_cf)
         "**Net Cash Flow(N+O+P)**" 2.
Proof.
  assert (H1 : CashFlow.create_cash_flow_section default_pl default_bs
                 default_cf_widgets = CashFlow.Shown default_cf)
    by (vm_compute; reflexivity).
  assert (H2 : CashFlow.create_cash_flow_section default_pl default_bs
                 slow_depreciation_widgets = CashFlow.Shown slow_depreciation_cf)
    by (vm_compute; reflexivity).
  assert (Hi : (1 <= 2 <= 3)%nat) by lia.
  repeat (split; [assumption|]).
  exact (proj1 (depreciation_moves_cash_between_flows _ _ _ _ _ _ H1 H2
                  2%nat Hi)).
Defined.

Lemma financing_cash_flow_is_capital_increase_witness :
  BalanceSheet.create_balance_sheet_section default_pl
    (BalanceSheet.default_widgets true)
  = BalanceSheet.Generated default_bs default_bs_metrics /\
  CashFlow.create_cash_flow_section default_pl default_bs default_cf_widgets
  = CashFlow.Shown default_cf /\
  (1 <= 1 <= 3)%nat /\
  cell (CashFlow.cash_flow_df default_cf) "Financing Cash Flow(P)" 1 == 325.00.
Proof.
  assert (H1 : BalanceSheet.create_balance_sheet_section default_pl
                 (BalanceSheet.default_widgets true)
               = BalanceSheet.Generated default_bs default_bs_metrics)
    by (vm_compute; reflexivity).
  assert (H2 : CashFlow.create_cash_flow_section default_pl default_bs
                 default_cf_widgets = CashFlow.Shown default_cf)
    by (vm_compute; reflexivity).
  assert (Hi : (1 <= 1 <= 3)%nat) by lia.
  repeat (split; [assumption|]).
  exact (financing_cash_flow_is_capital_increase _ _ _ _ _ _ H1 H2 1%nat Hi).
Defined.

Lemma investing_cash_flow_is_an_outflow_witness :
  BalanceSheet.create_balance_sheet_section default_pl
    (BalanceSheet.default_widgets true)
  = BalanceSheet.Generated default_bs default_bs_metrics /\
  CashFlow.create_cash_flow_section default_pl default_bs default_cf_widgets
  = CashFlow.Shown default_cf /\
  (1 <= 3 <= 3)%nat /\
  BalanceSheet.slider_bounds (BalanceSheet.default_widgets true) /\
  CashFlow.slider_bounds default_cf_widgets /\
  cell (CashFlow.cash_flow_df default_cf) "Investing Cash Flow(O)" 3 <= 0.
Proof.
  assert (H1 : BalanceSheet.create_balance_sheet_section default_pl
                 (BalanceSheet.default_widgets true)
               = BalanceSheet.Generated default_bs default_bs_metrics)
    by (vm_compute; reflexivity).
  assert (H2 : CashFlow.create_cash_flow_section default_pl default_bs
                 default_cf_widgets = CashFlow.Shown default_cf)
    by (vm_compute; reflexivity).
  assert (Hi : (1 <= 3 <= 3)%nat) by lia.
  assert (Hb : CashFlow.slider_bounds default_cf_widgets)
    by (split; vm_compute; discriminate).
  split; [exact H1|]. split; [exact H2|]. split; [exact Hi|].
  split; [exact default_bs_sliders_in_bounds|]. split; [exact Hb|].
  exact (proj2 (investing_cash_flow_is_an_outflow _ _ _ _ _ _ H1 H2 3%nat Hi)
           default_bs_sliders_in_bounds Hb).
Defined.

Lemma cf_shown_iff_rows_witness :
  CashFlow.generate_button default_cf_widgets = true /\
  (exists s,
     CashFlow.create_cash_flow_section default_pl default_bs default_cf_widgets
     = CashFlow.Shown s) /\
  has_four_periods default_bs "Share Capital(L)".
Proof.
  assert (Hclick : CashFlow.generate_button default_cf_widgets = true)
    by reflexivity.
  assert (Hs : exists s,
             CashFlow.create_cash_flow_section default_pl default_bs
               default_cf_widgets = CashFlow.Shown s)
    by (eexists; vm_compute; reflexivity).
  split; [exact Hclick|]. split; [exact Hs|].
  apply (proj1 (cf_shown_iff_rows default_pl default_bs _ Hclick) Hs).
  simpl. tauto.
Defined.

Lemma cf_shows_after_balance_sheet_witness :
  BalanceSheet.create_balance_sheet_section default_pl faster_growth_widgets
  = BalanceSheet.Generated faster_growth_bs faster_growth_metrics /\
  CashFlow.generate_button slow_depreciation_widgets = true /\
  exists s,
    CashFlow.create_cash_flow_section default_pl faster_growth_bs
      slow_depreciation_widgets = CashFlow.Shown s.
Proof.
  assert (H : BalanceSheet.create_balance_sheet_section default_pl
                faster_growth_widgets
              = BalanceSheet.Generated faster_growth_bs faster_growth_metrics)
    by (vm_compute; reflexivity).
  assert (Hclick : CashFlow.generate_button slow_depreciation_widgets = true)
    by reflexivity.
  split; [exact H|]. split; [exact Hclick|].
  exact (cf_shows_after_balance_sheet _ _ _ _ _ H Hclick).
Defined.

Lemma cf_reports_first_missing_row_witness :
  CashFlow.generate_button default_cf_widgets = true /\
  cash_flow_reads cash_flow_example_pl_data cash_flow_example_bs_data
  = [] ++ (cash_flow_example_pl_data, "Net Profit(A-B-C-D-E)")
          :: [ (cash_flow_example_bs_data, "Fixed Assets(I)");
               (cash_flow_example_bs_data, "Accounts Receivable(G)");
               (cash_flow_example_bs_data, "Prepayments(H)");
               (cash_flow_example_bs_data, "Accounts Payable(J)");
               (cash_flow_example_bs_data, "Advances from Customers(K)");
               (cash_flow_example_bs_data, "Share Capital(L)") ] /\
  (exists e, loc cash_flow_example_pl_data "Net Profit(A-B-C-D-E)" = Raise e) /\
  CashFlow.create_cash_flow_section cash_flow_example_pl_data
    cash_flow_example_bs_data default_cf_widgets
  = CashFlow.Failed (KeyError "Net Profit(A-B-C-D-E)").
Proof.
  assert (Hclick : CashFlow.generate_button default_cf_widgets = true)
    by reflexivity.
  assert (Hmiss : exists e,
             loc cash_flow_example_pl_data "Net Profit(A-B-C-D-E)" = Raise e)
    by (eexists; reflexivity).
  split; [exact Hclick|]. split; [reflexivity|]. split; [exact Hmiss|].
  refine (cf_reports_first_missing_row cash_flow_example_pl_data
            cash_flow_example_bs_data _ []
            cash_flow_example_pl_data "Net Profit(A-B-C-D-E)" _
            Hclick eq_refl _ Hmiss).
  intros f' l [].
Defined.

Lemma downstream_tabs_are_blocked_witness :
  ProfitLoss.generate_button (Main.pl_widgets idle_run) = false /\
  Main.is_pl_generated Main.reset_all_data = false /\
  Main.events (Main.run Main.reset_all_data idle_run)
  = [Main.Info "Please generate P&L forecast first";
     Main.Info "Please generate P&L forecast first"].
Proof.
  assert (H : ProfitLoss.generate_button (Main.pl_widgets idle_run) = false)
    by reflexivity.
  assert (Hflag : Main.is_pl_generated Main.reset_all_data = false)
    by reflexivity.
  split; [exact H|]. split; [exact Hflag|].
  exact (proj1 (proj1 (downstream_tabs_are_blocked Main.reset_all_data
                         idle_run H) Hflag)).
Defined.

Lemma stored_statements_persist_witness :
  ProfitLoss.generate_button (Main.pl_widgets cash_flow_run) = false /\
  Main.reset_button cash_flow_run = false /\
  BalanceSheet.generate_button (Main.bs_widgets cash_flow_run) = false /\
  Main.state_after (Main.run default_session cash_flow_run) = default_session.
Proof.
  assert (H1 : ProfitLoss.generate_button (Main.pl_widgets cash_flow_run) = false)
    by reflexivity.
  assert (H2 : Main.reset_button cash_flow_run = false) by reflexivity.
  assert (H3 : BalanceSheet.generate_button (Main.bs_widgets cash_flow_run)
               = false) by reflexivity.
  repeat (split; [assumption|]).
  exact (proj2 (proj2 (stored_statements_persist default_session cash_flow_run
                         H1 H2)) H3).
Defined.

Lemma init_session_state_keeps_entries_witness :
  getitem (SessionState.session_with_pl default_pl) "profit_loss_data"
  = Ok (SessionState.PyFrame default_pl) /\
  getitem (SessionState.init_session_state
             (SessionState.session_with_pl default_pl)) "profit_loss_data"
  = Ok (SessionState.PyFrame default_pl).
Proof.
  assert (H : getitem (SessionState.session_with_pl default_pl)
                "profit_loss_data" = Ok (SessionState.PyFrame default_pl))
    by reflexivity.
  split; [exact H|].
  exact (proj1 (init_session_state_keeps_entries
                  (SessionState.session_with_pl default_pl)) _ _ H).
Defined.

Lemma reset_all_data_keeps_sliders_witness :
  ~ In "revenue_growth_2024E" SessionState.script_keys /\
  getitem (SessionState.reset_all_data (SessionState.session_with_pl default_pl))
    "revenue_growth_2024E"
  = Ok (SessionState.PyFloat 20).
Proof.
  assert (H : ~ In "revenue_growth_2024E" SessionState.script_keys).
  { simpl. intros [H|[H|[H|[H|[]]]]]; discriminate H. }
  split; [exact H|].
  exact (proj2 (reset_all_data_keeps_sliders
                  (SessionState.session_with_pl default_pl)) _ H).
Defined.

Lemma init_and_reset_read_alike_witness :
  SessionState.read (SessionState.session_with_pl default_pl)
  = Some {| Main.profit_loss_data := Some default_pl;
            Main.balance_sheet_data := None;
            Main.is_pl_generated := true;
            Main.is_bs_generated := false |} /\
  SessionState.read
    (SessionState.init_session_state (SessionState.session_with_pl default_pl))
  = Some {| Main.profit_loss_data := Some default_pl;
            Main.balance_sheet_data := None;
            Main.is_pl_generated := true;
            Main.is_bs_generated := false |}.
Proof.
  assert (H : SessionState.read (SessionState.session_with_pl default_pl)
              = Some {| Main.profit_loss_data := Some default_pl;
                        Main.balance_sheet_data := None;
                        Main.is_pl_generated := true;
                        Main.is_bs_generated := false |})
    by reflexivity.
  split; [exact H|].
  exact (proj1 init_and_reset_read_alike _ _ H).
Defined.
